(** * Slack bot factory: connection lifecycle manager

    A shallow embedding of [Slack_bot_dynamic/bot_storage.py],
    [Slack_bot_dynamic/bot_factory.py] and the view functions of
    [Slack_bot_dynamic/api_service.py].

    - Python dictionaries keyed by strings are [gmap string _].
    - The dictionaries held by [BotStorage] live in an object heap,
      because [get_bot] and [get_all] hand references to callers.
    - Methods are computations in a small state / exception / trace
      monad: a raised exception keeps the state changes made so far,
      exactly as in Python.
    - Everything the program cannot decide by itself (whether a write
      reaches the disk, what Slack or the agent endpoint answers, the
      random part of a generated id) is an explicit argument.
    - Text is modelled over 8-bit code points ([string]). *)

From Stdlib Require Import String Ascii List.
From stdpp Require Import gmap strings list fin_maps.

Local Open Scope string_scope.
Local Open Scope list_scope.

(** ** Exceptions and observable effects *)

(** [ValueError] is the only exception the program raises itself;
    [External] stands for any exception raised by a library call
    (file system, slack_bolt, requests, ...). The string is [str(e)]. *)
Inductive exn : Type :=
  | ValueError (msg : string)
  | External (msg : string).

Definition exn_str (e : exn) : string :=
  match e with
  | ValueError msg => msg
  | External msg => msg
  end.

#[global] Instance exn_eq_dec : EqDecision exn.
Proof. solve_decision. Defined.

(** JSON values as [response.json()] returns them. Numbers are kept as
    integers: only their being zero matters to the program. An object
    is its list of members in document order. *)
#[warnings="-register-all"]
Inductive json : Type :=
  | JNull
  | JBool (b : bool)
  | JNum (n : Z)
  | JStr (s : string)
  | JArr (items : list json)
  | JObj (members : list (string * json)).

(** The payload [_call_agent] posts to the agent endpoint. *)
Record Payload : Type := mkPayload {
  p_message : string;
  p_user_id : option string;
  p_channel_id : option string;
  p_thread_id : option string;
  p_bot_id : string;
}.

(** What a run leaves behind for an observer: log lines, console output,
    and the calls made to Slack and to the agent endpoint. *)
Inductive Effect : Type :=
  | LogInfo (msg : string)
  | LogWarning (msg : string)
  | LogError (msg : string)
  | Print (msg : string)
  | AuthTest
  | Post (url : string) (payload : Payload)
  | Say (text : json) (thread_ts : option string).

(** ** The monad *)

Definition M (S A : Type) : Type := S → (exn + A) * S * list Effect.

Definition ret {S A} (a : A) : M S A := λ s, (inr a, s, []).

Definition raise {S A} (e : exn) : M S A := λ s, (inl e, s, []).

Definition bind {S A B} (m : M S A) (k : A → M S B) : M S B := λ s,
  match m s with
  | (inl e, s', t) => (inl e, s', t)
  | (inr a, s', t) =>
      match k a s' with
      | (r, s'', t') => (r, s'', t ++ t')
      end
  end.

(** [try: m except Exception as e: h e] *)
Definition try_except {S A} (m : M S A) (h : exn → M S A) : M S A := λ s,
  match m s with
  | (inl e, s', t) =>
      match h e s' with
      | (r, s'', t') => (r, s'', t ++ t')
      end
  | (inr a, s', t) => (inr a, s', t)
  end.

Definition emit {S} (e : Effect) : M S unit := λ s, (inr tt, s, [e]).

Definition gets {S A} (f : S → A) : M S A := λ s, (inr (f s), s, []).

Definition modify {S} (f : S → S) : M S unit := λ s, (inr tt, f s, []).

(** Run a computation on a component of the state. *)
Definition zoom {S T A} (get : S → T) (set : T → S → S) (m : M T A) : M S A :=
  λ s, match m (get s) with
       | (r, t', tr) => (r, set t' s, tr)
       end.

Declare Scope py_scope.
Delimit Scope py_scope with py.
Notation "x <- m ;; k" := (bind m (λ x, k))
  (at level 100, m at next level, right associativity) : py_scope.
Notation "m ;;; k" := (bind m (λ _, k))
  (at level 100, right associativity) : py_scope.
Local Open Scope py_scope.

Definition result_of {S A} (r : (exn + A) * S * list Effect) : exn + A := r.1.1.
Definition state_of {S A} (r : (exn + A) * S * list Effect) : S := r.1.2.
Definition trace_of {S A} (r : (exn + A) * S * list Effect) : list Effect := r.2.

(** ** The object heap and the disk *)

Abbreviation loc := nat (only parsing).

(** A stored configuration record: the inner dictionaries of
    [BotStorage.configs], whose values are strings or [None]. *)
Abbreviation ConfigRecord := (gmap string (option string)) (only parsing).

(** A JSON document as [bots_config.json] holds it. *)
Abbreviation ConfigDoc := (gmap string (gmap string (option string))) (only parsing).

(** Two sorts of objects: dictionaries from ids to record references,
    and the records themselves. *)
Record PyHeap : Type := mkHeap {
  dicts : gmap loc (gmap string loc);
  recs : gmap loc ConfigRecord;
}.

Inductive FileContent : Type :=
  | Json (doc : ConfigDoc)
  | Corrupt (why : string).

(** Absent key: the file does not exist. *)
Abbreviation Disk := (gmap string FileContent) (only parsing).

Record Machine : Type := mkMachine {
  heap : PyHeap;
  disk : Disk;
}.

Definition set_heap (h : PyHeap) (m : Machine) : Machine :=
  {| heap := h; disk := disk m |}.

Definition set_disk (d : Disk) (m : Machine) : Machine :=
  {| heap := heap m; disk := d |}.

Definition fresh_loc (h : PyHeap) : loc := fresh (dom (dicts h) ∪ dom (recs h)).

Definition new_dict (d : gmap string loc) : M Machine loc := λ m,
  let l := fresh_loc (heap m) in
  (inr l,
   set_heap {| dicts := <[l := d]> (dicts (heap m)); recs := recs (heap m) |} m,
   []).

Definition new_rec (r : ConfigRecord) : M Machine loc := λ m,
  let l := fresh_loc (heap m) in
  (inr l,
   set_heap {| dicts := dicts (heap m); recs := <[l := r]> (recs (heap m)) |} m,
   []).

Definition deref_dict (h : PyHeap) (l : loc) : gmap string loc :=
  default ∅ (dicts h !! l).

Definition deref_rec (h : PyHeap) (l : loc) : ConfigRecord :=
  default ∅ (recs h !! l).

(** [d[k] = r] and [del d[k]] on the dictionary object at [l]. *)
Definition dict_setitem (l : loc) (k : string) (r : loc) (h : PyHeap) : PyHeap :=
  {| dicts := <[l := <[k := r]> (deref_dict h l)]> (dicts h); recs := recs h |}.

Definition dict_delitem (l : loc) (k : string) (h : PyHeap) : PyHeap :=
  {| dicts := <[l := delete k (deref_dict h l)]> (dicts h); recs := recs h |}.

(** [rec[field] = v] on the record object at [l]. *)
Definition rec_setitem (l : loc) (field : string) (v : option string) (h : PyHeap) : PyHeap :=
  {| dicts := dicts h; recs := <[l := <[field := v]> (deref_rec h l)]> (recs h) |}.

(** What [json.dump] writes for the dictionary at [l]: the object graph
    read off the heap. *)
Definition snapshot (h : PyHeap) (l : loc) : ConfigDoc :=
  deref_rec h <$> deref_dict h l.

(** [json.load]: a fresh record object per entry and a fresh dictionary
    holding the references. *)
Definition load_entry (k : string) (r : ConfigRecord) (acc : gmap string loc * PyHeap)
  : gmap string loc * PyHeap :=
  let l := fresh_loc acc.2 in
  (<[k := l]> acc.1,
   {| dicts := dicts acc.2; recs := <[l := r]> (recs acc.2) |}).

Definition load_entries (h : PyHeap) (doc : ConfigDoc) : gmap string loc * PyHeap :=
  map_fold load_entry (∅, h) doc.

Definition json_load (doc : ConfigDoc) : M Machine loc := λ m,
  let acc := load_entries (heap m) doc in
  new_dict acc.1 (set_heap acc.2 m).

(** ** bot_storage.py *)

Module BotStorage.

Definition STORAGE_FILE : string := "bots_config.json".

Record t : Type := mk {
  storage_file : string;
  configs : loc;
}.

(** How an attempt to rewrite the file ends. [OpenFails]: [open(.., 'w')]
    raised, the file is untouched. [DumpFails]: the file was opened (and
    truncated) and the write raised later; [residue] is what is left. *)
Inductive WriteOutcome : Type :=
  | WriteOk
  | OpenFails (err : string)
  | DumpFails (err : string) (residue : FileContent).

Definition _load (file : string) : M Machine loc :=
  d <- gets disk ;;
  match d !! file with
  | None => new_dict ∅
  | Some (Json doc) => json_load doc
  | Some (Corrupt why) =>
      emit (Print ("Error loading bot configs: " +:+ why)) ;;;
      new_dict ∅
  end.

Definition __init__ (file : string) : M Machine t :=
  l <- _load file ;;
  ret {| storage_file := file; configs := l |}.

Definition _save (self : t) (w : WriteOutcome) : M Machine unit :=
  match w with
  | WriteOk =>
      modify (λ m, set_disk (<[storage_file self := Json (snapshot (heap m) (configs self))]> (disk m)) m)
  | OpenFails err =>
      emit (Print ("Error saving bot configs: " +:+ err))
  | DumpFails err residue =>
      modify (λ m, set_disk (<[storage_file self := residue]> (disk m)) m) ;;;
      emit (Print ("Error saving bot configs: " +:+ err))
  end.

Definition config_record (bot_token app_token signing_secret agent_url : string)
    (channel_id : option string) : ConfigRecord :=
  <["bot_token" := Some bot_token]>
  (<["app_token" := Some app_token]>
  (<["signing_secret" := Some signing_secret]>
  (<["agent_url" := Some agent_url]>
  (<["channel_id" := channel_id]> ∅)))).

Definition save_bot (self : t) (bot_id bot_token app_token signing_secret agent_url : string)
    (channel_id : option string) (w : WriteOutcome) : M Machine unit :=
  r <- new_rec (config_record bot_token app_token signing_secret agent_url channel_id) ;;
  modify (λ m, set_heap (dict_setitem (configs self) bot_id r (heap m)) m) ;;;
  _save self w.

Definition get_bot (self : t) (bot_id : string) : M Machine (option loc) :=
  gets (λ m, deref_dict (heap m) (configs self) !! bot_id).

Definition delete_bot (self : t) (bot_id : string) (w : WriteOutcome) : M Machine unit :=
  d <- gets (λ m, deref_dict (heap m) (configs self)) ;;
  match d !! bot_id with
  | Some _ =>
      modify (λ m, set_heap (dict_delitem (configs self) bot_id (heap m)) m) ;;;
      _save self w
  | None => ret tt
  end.

Definition get_all (self : t) : M Machine loc :=
  d <- gets (λ m, deref_dict (heap m) (configs self)) ;;
  new_dict d.

(** The Store as a caller sees it: the documents in memory and on disk. *)
Definition view (self : t) (m : Machine) : ConfigDoc * Disk :=
  (snapshot (heap m) (configs self), disk m).

(** [list(self.configs.keys())]. The keys come in the order of the map,
    not in the insertion order Python keeps. *)
Definition list_bots (self : t) : M Machine (list string) :=
  gets (λ m, (map_to_list (deref_dict (heap m) (configs self))).*1).

End BotStorage.

(** ** Python strings *)

(** Truthiness of a [str] and of an [Optional[str]]. *)
Definition truthy_str (s : string) : bool :=
  match s with
  | EmptyString => false
  | String _ _ => true
  end.

Definition truthy_opt (o : option string) : bool :=
  match o with
  | Some s => truthy_str s
  | None => false
  end.

(** [a or b] on optional strings. *)
Definition py_or (a b : option string) : option string :=
  if truthy_opt a then a else b.

(** [str.isspace] on the 8-bit code points: TAB..CR, FS..US, SPACE,
    NEL and NBSP. *)
Definition is_space (c : ascii) : bool :=
  let n := nat_of_ascii c in
  (((9 <=? n) && (n <=? 13)) || ((28 <=? n) && (n <=? 32))
   || (n =? 133) || (n =? 160))%nat.

Fixpoint lstrip (s : string) : string :=
  match s with
  | EmptyString => EmptyString
  | String c s' => if is_space c then lstrip s' else s
  end.

(** [rstrip] drops a character when it is blank and everything after it
    has been dropped. *)
Fixpoint rstrip (s : string) : string :=
  match s with
  | EmptyString => EmptyString
  | String c s' =>
      match rstrip s' with
      | EmptyString => if is_space c then EmptyString else String c EmptyString
      | t => String c t
      end
  end.

Definition strip (s : string) : string := rstrip (lstrip s).

(** [s[:n]] *)
Fixpoint take_str (n : nat) (s : string) : string :=
  match n, s with
  | S n', String c s' => String c (take_str n' s')
  | _, _ => EmptyString
  end.

(** [str.replace(pat, repl)] for a non-empty [pat]: occurrences are
    found left to right and do not overlap. [skip] counts the characters
    of the current occurrence still to be dropped. *)
Fixpoint replace_from (pat repl : string) (skip : nat) (s : string) : string :=
  match s with
  | EmptyString => EmptyString
  | String c s' =>
      match skip with
      | S n => replace_from pat repl n s'
      | O =>
          if String.prefix pat s
          then repl +:+ replace_from pat repl (String.length pat - 1) s'
          else String c (replace_from pat repl 0 s')
      end
  end.

Definition str_replace (pat repl s : string) : string :=
  match pat with
  | EmptyString => s
  | _ => replace_from pat repl 0 s
  end.

(** Characters with a meaning of their own in a Python regular
    expression; a pattern without them matches itself and nothing else. *)
Definition re_special (c : ascii) : bool :=
  bool_decide (c ∈ list_ascii_of_string ".^$*+?{}[]\|()").

Fixpoint re_literal (pat : string) : bool :=
  match pat with
  | EmptyString => true
  | String c p => negb (re_special c) && re_literal p
  end.

(** ** JSON values as Python objects *)

Definition truthy (j : json) : bool :=
  match j with
  | JNull => false
  | JBool b => b
  | JNum n => negb (n =? 0)%Z
  | JStr s => truthy_str s
  | JArr items => match items with [] => false | _ => true end
  | JObj members => match members with [] => false | _ => true end
  end.

(** [dict.get(k)] on a parsed object: a key given twice keeps its last
    value. *)
Fixpoint dict_get (members : list (string * json)) (k : string) : option json :=
  match members with
  | [] => None
  | (k', v) :: rest =>
      match dict_get rest k with
      | Some v' => Some v'
      | None => if String.eqb k' k then Some v else None
      end
  end.

(** [a or b] on Python values. *)
Definition py_or_json (a b : json) : json := if truthy a then a else b.

(** ** Inbound Slack events *)

(** The keys of the event dictionary the handlers read; [None] is an
    absent key. *)
Record Event : Type := mkEvent {
  ev_user : option string;
  ev_text : option string;
  ev_channel : option string;
  ev_thread_ts : option string;
  ev_ts : option string;
  ev_subtype : option string;
  ev_bot_id : option string;
  ev_channel_type : option string;
}.

Inductive EventKind : Type := AppMention | Message.

(** ** bot_factory.py: BotInstance *)

Module BotInstance.

(** A thread started by [start]. [Spawned]: [run_bot] has not run yet.
    [Serving]: blocked in [handler.start()] with the socket open.
    [Closed]: its handler was closed by [stop]. [Died]: [run_bot]
    raised. [Unstarted]: [Thread.start()] itself raised. *)
Inductive WorkerState : Type :=
  | Spawned
  | Serving
  | Closed
  | Died
  | Unstarted.

#[global] Instance WorkerState_eq_dec : EqDecision WorkerState.
Proof. solve_decision. Defined.

(** The slack_bolt [App] built by [start]. *)
Record App : Type := mkApp {
  a_token : string;
  a_signing_secret : string;
}.

(** The [SocketModeHandler] built by worker [h_worker]. *)
Record Handler : Type := mkHandler {
  h_worker : nat;
  h_app_token : string;
}.

(** The attributes of the class, and [workers]: every thread this object
    has started, oldest first. [thread] is the index of the latest. *)
Record t : Type := mk {
  bot_id : string;
  bot_token : string;
  app_token : string;
  signing_secret : string;
  agent_url : string;
  channel_id : option string;
  app : option App;
  handler : option Handler;
  thread : option nat;
  running : bool;
  bot_user_id : option string;
  workers : list WorkerState;
}.

Definition set_app (a : option App) (b : t) : t :=
  mk (bot_id b) (bot_token b) (app_token b) (signing_secret b) (agent_url b)
     (channel_id b) a (handler b) (thread b) (running b) (bot_user_id b) (workers b).

Definition set_handler (h : option Handler) (b : t) : t :=
  mk (bot_id b) (bot_token b) (app_token b) (signing_secret b) (agent_url b)
     (channel_id b) (app b) h (thread b) (running b) (bot_user_id b) (workers b).

Definition set_thread (n : option nat) (b : t) : t :=
  mk (bot_id b) (bot_token b) (app_token b) (signing_secret b) (agent_url b)
     (channel_id b) (app b) (handler b) n (running b) (bot_user_id b) (workers b).

Definition set_running (r : bool) (b : t) : t :=
  mk (bot_id b) (bot_token b) (app_token b) (signing_secret b) (agent_url b)
     (channel_id b) (app b) (handler b) (thread b) r (bot_user_id b) (workers b).

Definition set_bot_user_id (u : option string) (b : t) : t :=
  mk (bot_id b) (bot_token b) (app_token b) (signing_secret b) (agent_url b)
     (channel_id b) (app b) (handler b) (thread b) (running b) u (workers b).

Definition set_workers (ws : list WorkerState) (b : t) : t :=
  mk (bot_id b) (bot_token b) (app_token b) (signing_secret b) (agent_url b)
     (channel_id b) (app b) (handler b) (thread b) (running b) (bot_user_id b) ws.

Definition __init__ {S} (bot_id bot_token app_token signing_secret agent_url : string)
    (channel_id : option string) : M S t :=
  emit (LogInfo ("Bot instance " +:+ bot_id +:+ " initialized for agent: " +:+ agent_url)) ;;;
  ret (mk bot_id bot_token app_token signing_secret agent_url channel_id
          None None None false None []).

(** *** start, the worker thread, stop *)

(** How the body of [start] ends: [App(...)] raises, or the thread
    cannot be started, or the thread is running when [start] returns. *)
Inductive StartOutcome : Type :=
  | AppRaises (e : exn)
  | ThreadRaises (e : exn)
  | Started.

Definition new_app (self : t) : App :=
  {| a_token := bot_token self; a_signing_secret := signing_secret self |}.

(** [self.thread = threading.Thread(target=run_bot, daemon=True)] *)
Definition new_thread (st : WorkerState) : M t unit :=
  modify (λ self, set_thread (Some (length (workers self)))
                    (set_workers (workers self ++ [st]) self)).

Definition start (o : StartOutcome) : M t (option bool) :=
  self <- gets id ;;
  if running self then
    emit (LogWarning ("Bot " +:+ bot_id self +:+ " is already running")) ;;;
    ret None
  else
    try_except
      (match o with
       | AppRaises e => raise e
       | ThreadRaises e =>
           modify (set_app (Some (new_app self))) ;;;
           new_thread Unstarted ;;;
           raise e
       | Started =>
           modify (set_app (Some (new_app self))) ;;;
           new_thread Spawned ;;;
           ret (Some true)
       end)
      (λ e,
         emit (LogError ("Failed to start bot " +:+ bot_id self +:+ ": " +:+ exn_str e)) ;;;
         modify (set_running false) ;;;
         raise e).

(** How [run_bot] goes in the worker thread: the handler constructor
    raises, or [handler.start()] raises, or it connects and blocks. *)
Inductive RunOutcome : Type :=
  | HandlerRaises (e : exn)
  | ConnectRaises (e : exn)
  | Connected.

Definition set_worker (i : nat) (st : WorkerState) (b : t) : t :=
  set_workers (<[i := st]> (workers b)) b.

(** The body of [run_bot], run by worker [i] once it is scheduled. It is
    the only place where [running] becomes [True]. *)
Definition run_bot (i : nat) (o : RunOutcome) : M t unit :=
  self <- gets id ;;
  match workers self !! i with
  | Some Spawned =>
      match o with
      | HandlerRaises e => modify (set_worker i Died)
      | ConnectRaises e =>
          modify (set_handler (Some (mkHandler i (app_token self)))) ;;;
          modify (set_running true) ;;;
          emit (LogInfo ("✅ Bot " +:+ bot_id self +:+ " started")) ;;;
          modify (set_worker i Died)
      | Connected =>
          modify (set_handler (Some (mkHandler i (app_token self)))) ;;;
          modify (set_running true) ;;;
          emit (LogInfo ("✅ Bot " +:+ bot_id self +:+ " started")) ;;;
          modify (set_worker i Serving)
      end
  | _ => ret tt
  end.

Inductive CloseOutcome : Type :=
  | CloseOk
  | CloseRaises (e : exn).

(** [handler.close()]: the worker that owns the handler stops serving. *)
Definition close_handler (h : Handler) (b : t) : t :=
  match workers b !! h_worker h with
  | Some Serving => set_worker (h_worker h) Closed b
  | _ => b
  end.

Definition stop (o : CloseOutcome) : M t unit :=
  self <- gets id ;;
  if negb (running self) then ret tt
  else
    try_except
      ((match handler self with
        | Some h =>
            match o with
            | CloseOk => modify (close_handler h)
            | CloseRaises e => raise e
            end
        | None => ret tt
        end) ;;;
       modify (set_running false) ;;;
       emit (LogInfo ("Bot " +:+ bot_id self +:+ " stopped")))
      (λ e,
         emit (LogError ("Error stopping bot " +:+ bot_id self +:+ ": " +:+ exn_str e))).

(** *** The event handlers *)

(** What the agent endpoint exchange comes to: [requests.post] raises
    (timeout, connection error), [raise_for_status] raises, the body is
    not JSON, or the body parses to [data]. *)
Inductive HttpOutcome : Type :=
  | RequestRaises (e : exn)
  | StatusRaises (e : exn)
  | BodyRaises (e : exn)
  | Body (data : json).

(** [data.get("response") or data.get("message") or data.get("text", "")];
    only a dictionary has [get]. *)
Definition extract_reply (data : json) : exn + json :=
  match data with
  | JObj members =>
      inr (py_or_json (default JNull (dict_get members "response"))
            (py_or_json (default JNull (dict_get members "message"))
               (default (JStr "") (dict_get members "text"))))
  | _ => inl (External "AttributeError: object has no attribute 'get'")
  end.

Definition _call_agent (message : string) (user channel thread_ts : option string)
    (o : HttpOutcome) : M t json :=
  self <- gets id ;;
  try_except
    (emit (Post (agent_url self)
             (mkPayload message user channel thread_ts (bot_id self))) ;;;
     match o with
     | RequestRaises e => raise e
     | StatusRaises e => raise e
     | BodyRaises e => raise e
     | Body data =>
         match extract_reply data with
         | inl e => raise e
         | inr reply => ret reply
         end
     end)
    (λ e,
       emit (LogError ("Agent call failed for bot " +:+ bot_id self +:+ ": " +:+ exn_str e)) ;;;
       raise e).

Inductive AuthOutcome : Type :=
  | AuthRaises (e : exn)
  | AuthOk (user_id : string).

Inductive SayOutcome : Type :=
  | SayOk
  | SayRaises (e : exn).

Definition say (text : json) (thread_ts : option string) (o : SayOutcome) : M t unit :=
  emit (Say text thread_ts) ;;;
  match o with
  | SayOk => ret tt
  | SayRaises e => raise e
  end.

Definition apology : string :=
  "Sorry, I encountered an error processing your request.".

(** The canonical mention of a user: [f"<@{user_id}>"]. *)
Definition mention_token (user_id : string) : string :=
  "<@" +:+ user_id +:+ ">".

Section Handlers.

(** [re.sub(pattern, repl, text)] of the standard library. *)
Variable re_sub : string → string → string → exn + string.

(** The outcomes of the calls one event can lead to: identity lookup,
    agent exchange, the reply, and the apology. *)
Record Answers : Type := mkAnswers {
  auth : AuthOutcome;
  http : HttpOutcome;
  say_reply : SayOutcome;
  say_apology : SayOutcome;
}.

Definition _handle_message (event : Event) (is_mention : bool) (o : Answers)
  : M t unit :=
  this <- gets id ;;
  try_except
    (let user := ev_user event in
     let text := default "" (ev_text event) in
     let channel := ev_channel event in
     let thread_ts := py_or (ev_thread_ts event) (ev_ts event) in
     self <- gets id ;;
     (if negb (truthy_opt (bot_user_id self)) then
        emit AuthTest ;;;
        match auth o with
        | AuthRaises e => raise e
        | AuthOk user_id => modify (set_bot_user_id (Some user_id))
        end
      else ret tt) ;;;
     self <- gets id ;;
     text <- (if is_mention && truthy_opt (bot_user_id self) then
                match re_sub (mention_token (default "" (bot_user_id self))) "" text with
                | inl e => raise e
                | inr cleaned => ret (strip cleaned)
                end
              else ret text) ;;
     if negb (truthy_str text) then ret tt
     else
       emit (LogInfo ("Bot " +:+ bot_id self +:+ " received message: "
                      +:+ take_str 50 text +:+ "...")) ;;;
       try_except
         (response <- _call_agent text user channel thread_ts (http o) ;;
          if truthy response then
            say response thread_ts (say_reply o) ;;;
            emit (LogInfo ("Bot " +:+ bot_id self +:+ " sent response"))
          else ret tt)
         (λ e,
            emit (LogError ("Error calling agent for bot " +:+ bot_id self
                            +:+ ": " +:+ exn_str e)) ;;;
            say (JStr apology) thread_ts (say_apology o)))
    (λ e,
       emit (LogError ("Error handling message for bot " +:+ bot_id this
                       +:+ ": " +:+ exn_str e))).

(** The two handlers [_setup_handlers] registers on the app, and the
    dispatch on the kind of event. *)
Definition handle_mention (event : Event) (o : Answers) : M t unit :=
  _handle_message event true o.

Definition handle_message (event : Event) (o : Answers) : M t unit :=
  self <- gets id ;;
  if truthy_opt (ev_subtype event) || truthy_opt (ev_bot_id event) then ret tt
  else if bool_decide (ev_channel_type event = Some "im")
          || (truthy_opt (channel_id self)
              && bool_decide (ev_channel event = channel_id self))
  then _handle_message event false o
  else ret tt.

Definition dispatch (kind : EventKind) (event : Event) (o : Answers) : M t unit :=
  match kind with
  | AppMention => handle_mention event o
  | Message => handle_message event o
  end.

End Handlers.

(** Workers of this object that hold an open socket. *)
Definition serving (b : t) : nat :=
  length (filter (λ w, w = Serving) (workers b)).

End BotInstance.

(** ** bot_factory.py: BotFactory *)

Module BotFactory.

Record t : Type := mk {
  bots : gmap string BotInstance.t;
  persist : bool;
  storage : option BotStorage.t;
}.

(** The factory together with the heap and the disk it works on. *)
Record Sys : Type := mkSys {
  factory : t;
  machine : Machine;
}.

Definition set_bots (bs : gmap string BotInstance.t) (s : Sys) : Sys :=
  {| factory := {| bots := bs; persist := persist (factory s); storage := storage (factory s) |};
     machine := machine s |}.

Definition set_machine (m : Machine) (s : Sys) : Sys :=
  {| factory := factory s; machine := m |}.

Definition on_machine {A} (m : M Machine A) : M Sys A := zoom machine set_machine m.

(** [self.bots[bot_id].method(...)]: a [KeyError] when the id is absent. *)
Definition on_bot {A} (bot_id : string) (m : M BotInstance.t A) : M Sys A := λ s,
  match bots (factory s) !! bot_id with
  | Some b =>
      match m b with
      | (r, b', tr) => (r, set_bots (<[bot_id := b']> (bots (factory s))) s, tr)
      end
  | None => (inl (External ("KeyError: " +:+ bot_id)), s, [])
  end.

Definition AlreadyExists (bot_id : string) : exn :=
  ValueError ("Bot " +:+ bot_id +:+ " already exists").

Definition NotFound (bot_id : string) : exn :=
  ValueError ("Bot " +:+ bot_id +:+ " not found").

(** [BotFactory(persist)], run on the machine it starts on. *)
Definition __init__ (persist : bool) : M Machine t :=
  st <- (if persist
         then (st <- BotStorage.__init__ BotStorage.STORAGE_FILE ;; ret (Some st))
         else ret None) ;;
  emit (LogInfo "Bot Factory initialized") ;;;
  ret {| bots := ∅; persist := persist; storage := st |}.

(** [self.storage]: the attribute only exists when the factory was built
    with [persist]. *)
Definition the_storage : M Sys BotStorage.t :=
  st <- gets (λ s, storage (factory s)) ;;
  match st with
  | Some st => ret st
  | None => raise (External "AttributeError: 'BotFactory' object has no attribute 'storage'")
  end.

(** [if not bot_id: bot_id = f"bot_{uuid.uuid4().hex[:8]}"], where
    [uuid_hex] is [uuid.uuid4().hex]. *)
Definition chosen_id (bot_id : option string) (uuid_hex : string) : string :=
  if truthy_opt bot_id then default "" bot_id
  else "bot_" +:+ take_str 8 uuid_hex.

(** [create_bot]. [w] is how the write of the Store goes, when one
    happens. *)
Definition create_bot (bot_token app_token signing_secret agent_url : string)
    (channel_id : option string) (bot_id : option string)
    (uuid_hex : string) (w : BotStorage.WriteOutcome) : M Sys string :=
  let bot_id := chosen_id bot_id uuid_hex in
  registered <- gets (λ s, bots (factory s)) ;;
  if decide (is_Some (registered !! bot_id)) then raise (AlreadyExists bot_id)
  else
    bot <- BotInstance.__init__ bot_id bot_token app_token signing_secret agent_url channel_id ;;
    modify (λ s, set_bots (<[bot_id := bot]> (bots (factory s))) s) ;;;
    persist <- gets (λ s, persist (factory s)) ;;
    (if persist then
       st <- the_storage ;;
       on_machine (BotStorage.save_bot st bot_id bot_token app_token signing_secret
                     agent_url channel_id w)
     else ret tt) ;;;
    emit (LogInfo ("Created bot " +:+ bot_id +:+ " for agent " +:+ agent_url)) ;;;
    ret bot_id.

Definition start_bot (bot_id : string) (o : BotInstance.StartOutcome) : M Sys unit :=
  registered <- gets (λ s, bots (factory s)) ;;
  if decide (is_Some (registered !! bot_id)) then
    on_bot bot_id (BotInstance.start o) ;;; ret tt
  else raise (NotFound bot_id).

Definition stop_bot (bot_id : string) (o : BotInstance.CloseOutcome) : M Sys unit :=
  registered <- gets (λ s, bots (factory s)) ;;
  if decide (is_Some (registered !! bot_id)) then
    on_bot bot_id (BotInstance.stop o)
  else raise (NotFound bot_id).

Definition delete_bot (bot_id : string) (o : BotInstance.CloseOutcome)
    (w : BotStorage.WriteOutcome) : M Sys unit :=
  registered <- gets (λ s, bots (factory s)) ;;
  if decide (is_Some (registered !! bot_id)) then
    stop_bot bot_id o ;;;
    modify (λ s, set_bots (delete bot_id (bots (factory s))) s) ;;;
    persist <- gets (λ s, persist (factory s)) ;;
    (if persist then
       st <- the_storage ;;
       on_machine (BotStorage.delete_bot st bot_id w)
     else ret tt) ;;;
    emit (LogInfo ("Deleted bot " +:+ bot_id))
  else ret tt.

(** The values of the status dictionaries [list_bots] builds. *)
Inductive StatusValue : Type :=
  | SNone
  | SStr (s : string)
  | SBool (b : bool).

Definition status (bot : BotInstance.t) : gmap string StatusValue :=
  <["agent_url" := SStr (BotInstance.agent_url bot)]>
  (<["channel_id" := match BotInstance.channel_id bot with
                     | Some c => SStr c
                     | None => SNone
                     end]>
  (<["running" := SBool (BotInstance.running bot)]> ∅)).

Definition list_bots : M Sys (gmap string (gmap string StatusValue)) :=
  gets (λ s, status <$> bots (factory s)).

(** A worker thread of a registered bot gets to run its body. The worker
    of an object that has been deleted works on an object the factory
    no longer holds. *)
Definition worker_step (bot_id : string) (i : nat) (o : BotInstance.RunOutcome)
  : M Sys unit :=
  registered <- gets (λ s, bots (factory s)) ;;
  if decide (is_Some (registered !! bot_id)) then
    on_bot bot_id (BotInstance.run_bot i o)
  else ret tt.

(** [for x in xs: body(x)] *)
Fixpoint for_each {S A} (xs : list A) (body : A → M S unit) : M S unit :=
  match xs with
  | [] => ret tt
  | x :: rest => body x ;;; for_each rest body
  end.

(** [start_all] and [stop_all]. [o] tells how things go for each bot.
    The bots are visited in the order of the map, not in the insertion
    order Python keeps. *)
Definition start_all (o : string → BotInstance.StartOutcome) : M Sys unit :=
  ids <- gets (λ s, (map_to_list (bots (factory s))).*1) ;;
  for_each ids (λ bot_id,
    try_except (start_bot bot_id (o bot_id))
      (λ e, emit (LogError ("Failed to start bot " +:+ bot_id +:+ ": " +:+ exn_str e)))).

Definition stop_all (o : string → BotInstance.CloseOutcome) : M Sys unit :=
  ids <- gets (λ s, (map_to_list (bots (factory s))).*1) ;;
  for_each ids (λ bot_id,
    try_except (stop_bot bot_id (o bot_id))
      (λ e, emit (LogError ("Failed to stop bot " +:+ bot_id +:+ ": " +:+ exn_str e)))).

End BotFactory.

(** ** What a caller can do to a dictionary it was handed *)

Inductive DictEdit : Type :=
  | SetItem (k : string) (r : loc)
  | DelItem (k : string).

Definition apply_edit (d : loc) (e : DictEdit) (h : PyHeap) : PyHeap :=
  match e with
  | SetItem k r => dict_setitem d k r h
  | DelItem k => dict_delitem d k h
  end.

Definition apply_edits (d : loc) (es : list DictEdit) (m : Machine) : Machine :=
  set_heap (foldl (λ h e, apply_edit d e h) (heap m) es) m.

(** The document the Store file holds, as [_load] reads it. *)
Definition persisted (d : Disk) : ConfigDoc :=
  match d !! BotStorage.STORAGE_FILE with
  | Some (Json doc) => doc
  | _ => ∅
  end.

(** ** Sample states *)

Definition empty_machine : Machine :=
  {| heap := {| dicts := ∅; recs := ∅ |}; disk := ∅ |}.

(** A Store file with one record. *)
Definition sample_doc : ConfigDoc :=
  {[ "b1" := BotStorage.config_record "xoxb-1" "xapp-1" "secret-1" "http://agent/chat" None ]}.

Definition sample_machine : Machine :=
  {| heap := {| dicts := ∅; recs := ∅ |};
     disk := {[ BotStorage.STORAGE_FILE := Json sample_doc ]} |}.

(** A Store whose dictionary is object 0 and holds the record at object 1. *)
Definition sample_store : BotStorage.t :=
  {| BotStorage.storage_file := BotStorage.STORAGE_FILE; BotStorage.configs := 0 |}.

Definition sample_store_machine : Machine :=
  {| heap := {| dicts := {[ 0 := {[ "b1" := 1 ]} ]};
                recs := {[ 1 := BotStorage.config_record "xoxb-1" "xapp-1" "secret-1"
                                  "http://agent/chat" None ]} |};
     disk := {[ BotStorage.STORAGE_FILE := Json sample_doc ]} |}.

(** The system right after [BotFactory(persist=True)] on a machine
    without a Store file. *)
Definition booted : BotFactory.Sys :=
  {| BotFactory.factory :=
       {| BotFactory.bots := ∅; BotFactory.persist := true;
          BotFactory.storage := Some sample_store |};
     BotFactory.machine :=
       {| heap := {| dicts := {[ 0 := ∅ ]}; recs := ∅ |}; disk := ∅ |} |}.

(** One connection [c1], created, then started, then with its worker
    connected. *)
Definition registered_c1 : BotFactory.Sys :=
  state_of (BotFactory.create_bot "xoxb-1" "xapp-1" "secret-1" "http://agent/chat"
              (Some "C123") (Some "c1") "" BotStorage.WriteOk booted).

Definition started_c1 : BotFactory.Sys :=
  state_of (BotFactory.start_bot "c1" BotInstance.Started registered_c1).

Definition running_c1 : BotFactory.Sys :=
  state_of (BotFactory.worker_step "c1" 0 BotInstance.Connected started_c1).

(** Two connections, [c1] as above and [c2] created after it. In
    [two_bots] neither has been started. In [two_bots_busy], [c1] has
    been started twice before its first worker got to run, and that
    worker has connected: [c1] is running, and its second worker is
    still to run. *)
Definition two_bots : BotFactory.Sys :=
  state_of (BotFactory.create_bot "xoxb-2" "xapp-2" "secret-2" "http://agent2/chat"
              None (Some "c2") "" BotStorage.WriteOk registered_c1).

Definition two_bots_busy : BotFactory.Sys :=
  state_of (BotFactory.worker_step "c1" 0 BotInstance.Connected
    (state_of (BotFactory.start_bot "c1" BotInstance.Started
      (state_of (BotFactory.start_bot "c1" BotInstance.Started two_bots))))).

(** The object of [c1] in [running_c1]: its one worker is serving. *)
Definition serving_bot : BotInstance.t :=
  BotInstance.mk "c1" "xoxb-1" "xapp-1" "secret-1" "http://agent/chat" (Some "C123")
    (Some (BotInstance.mkApp "xoxb-1" "secret-1"))
    (Some (BotInstance.mkHandler 0 "xapp-1")) (Some 0) true None [BotInstance.Serving].

(** The same connection with other secrets. *)
Definition registered_c1' : BotFactory.Sys :=
  state_of (BotFactory.create_bot "xoxb-2" "xapp-2" "secret-2" "http://agent/chat"
              (Some "C123") (Some "c1") "" BotStorage.WriteOk booted).

(** What [list_bots] shows of a connection. *)
Definition same_public (b1 b2 : BotInstance.t) : Prop :=
  BotInstance.agent_url b1 = BotInstance.agent_url b2
  ∧ BotInstance.channel_id b1 = BotInstance.channel_id b2
  ∧ BotInstance.running b1 = BotInstance.running b2.

(** The reply as the interface describes it: the first of the accepted
    keys [response], [message] that holds a truthy value, else whatever
    [text] holds, else the empty string. *)
Definition accepted_reply (members : list (string * json)) : json :=
  default (default (JStr "") (dict_get members "text"))
    (List.find truthy (omap (dict_get members) ["response"; "message"])).

(** A connection object as [create_bot] builds it. *)
Definition sample_bot : BotInstance.t :=
  BotInstance.mk "c1" "xoxb-1" "xapp-1" "secret-1" "http://agent/chat" (Some "C123")
    None None None false None [].

(** The identity a handler works with: the cached one, else the one
    [auth_test] answers. *)
Definition resolved_identity (b : BotInstance.t) (o : BotInstance.Answers)
  : option string :=
  if truthy_opt (BotInstance.bot_user_id b) then BotInstance.bot_user_id b
  else match BotInstance.auth o with
       | BotInstance.AuthOk user_id => Some user_id
       | BotInstance.AuthRaises _ => None
       end.

(** [sample_bot] with other secrets. *)
Definition sample_bot' : BotInstance.t :=
  BotInstance.mk "c1" "xoxb-2" "xapp-2" "secret-2" "http://agent/chat" (Some "C123")
    None None None false None [].

(** A mention that holds nothing but the mention itself. *)
Definition bare_mention : Event :=
  {| ev_user := Some "U777"; ev_text := Some "  <@U123> "; ev_channel := Some "C123";
     ev_thread_ts := None; ev_ts := Some "1700000000.000100"; ev_subtype := None;
     ev_bot_id := None; ev_channel_type := Some "channel" |}.

(** Slack answers the identity lookup; the agent would answer too. *)
Definition sample_answers : BotInstance.Answers :=
  {| BotInstance.auth := BotInstance.AuthOk "U123";
     BotInstance.http := BotInstance.Body (JObj [("response", JStr "hi")]);
     BotInstance.say_reply := BotInstance.SayOk;
     BotInstance.say_apology := BotInstance.SayOk |}.

(** A stand-in for [re.sub] in the examples. It agrees with Python's
    [re.sub] where the examples call it: a non-empty pattern without
    special characters and the empty replacement. *)
Definition re_sub_plain (pattern repl text : string) : exn + string :=
  inr (str_replace pattern repl text).

(** The dictionary of a Store is on the heap, and so is every record it
    refers to. *)
Definition store_closed (self : BotStorage.t) (m : Machine) : Prop :=
  is_Some (dicts (heap m) !! BotStorage.configs self)
  ∧ ∀ k l, deref_dict (heap m) (BotStorage.configs self) !! k = Some l →
           is_Some (recs (heap m) !! l).

(** A factory as [BotFactory.__init__] builds it: with persistence it
    has a Store, and that Store is closed. *)
Definition factory_ok (s : BotFactory.Sys) : Prop :=
  match BotFactory.storage (BotFactory.factory s) with
  | Some st => store_closed st (BotFactory.machine s)
  | None => BotFactory.persist (BotFactory.factory s) = false
  end.

(** The object [create_bot] registers. *)
Definition new_bot (bot_id bot_token app_token signing_secret agent_url : string)
    (channel_id : option string) : BotInstance.t :=
  BotInstance.mk bot_id bot_token app_token signing_secret agent_url channel_id
    None None None false None [].

(** [b'] is [b] up to the cached identity. *)
Definition only_identity (b b' : BotInstance.t) : Prop :=
  b' = BotInstance.set_bot_user_id (BotInstance.bot_user_id b') b.

Definition changes_identity_only {A} (m : M BotInstance.t A) : Prop :=
  ∀ b, only_identity b (state_of (m b)).

(** The exception the agent exchange ends in, if any. *)
Definition gateway_failure (o : BotInstance.HttpOutcome) : option exn :=
  match o with
  | BotInstance.RequestRaises e => Some e
  | BotInstance.StatusRaises e => Some e
  | BotInstance.BodyRaises e => Some e
  | BotInstance.Body data =>
      match BotInstance.extract_reply data with
      | inl e => Some e
      | inr _ => None
      end
  end.

(** The calls of the identity lookup a handler run makes. *)
Definition lookup_trace (b : BotInstance.t) : list Effect :=
  if truthy_opt (BotInstance.bot_user_id b) then [] else [AuthTest].

(** A direct message with some text, from a user. *)
Definition direct_message : Event :=
  {| ev_user := Some "U777"; ev_text := Some "hello"; ev_channel := Some "D042";
     ev_thread_ts := None; ev_ts := Some "1700000000.000200"; ev_subtype := None;
     ev_bot_id := None; ev_channel_type := Some "im" |}.

(** The agent is down. *)
Definition failing_answers : BotInstance.Answers :=
  {| BotInstance.auth := BotInstance.AuthOk "U123";
     BotInstance.http := BotInstance.RequestRaises (External "Read timed out");
     BotInstance.say_reply := BotInstance.SayOk;
     BotInstance.say_apology := BotInstance.SayOk |}.

(** Running [m] on [b] makes no identity lookup and leaves [b] as it is. *)
Definition quiet_at {A} (b : BotInstance.t) (m : M BotInstance.t A) : Prop :=
  (AuthTest ∉ trace_of (m b)) ∧ state_of (m b) = b.

(** The agent answers with a reply. *)
Definition replying_answers : BotInstance.Answers :=
  {| BotInstance.auth := BotInstance.AuthOk "U123";
     BotInstance.http := BotInstance.Body (JObj [("response", JStr "hi")]);
     BotInstance.say_reply := BotInstance.SayOk;
     BotInstance.say_apology := BotInstance.SayOk |}.

(** [sample_bot] once its identity is known. *)
Definition identified_bot : BotInstance.t :=
  BotInstance.set_bot_user_id (Some "U123") sample_bot.

(** Running [m] on [b] starts with the identity lookup and leaves [b]
    with [user_id] cached. *)
Definition after_lookup {A} (user_id : string) (b : BotInstance.t)
    (m : M BotInstance.t A) : Prop :=
  state_of (m b) = BotInstance.set_bot_user_id (Some user_id) b
  ∧ head (trace_of (m b)) = Some AuthTest.

(** A mention with words around it. *)
Definition asking_mention : Event :=
  {| ev_user := Some "U777"; ev_text := Some "<@U123> what is the status? ";
     ev_channel := Some "C123"; ev_thread_ts := Some "1699999999.000001";
     ev_ts := Some "1700000000.000300"; ev_subtype := None; ev_bot_id := None;
     ev_channel_type := Some "channel" |}.

(** ** The factory as a transition system *)

(** The configuration a connection was created with. *)
Definition config_of (b : BotInstance.t) : gmap string (option string) :=
  BotStorage.config_record (BotInstance.bot_token b) (BotInstance.app_token b)
    (BotInstance.signing_secret b) (BotInstance.agent_url b) (BotInstance.channel_id b).

Definition same_config (b b' : BotInstance.t) : Prop :=
  BotInstance.bot_id b' = BotInstance.bot_id b ∧ config_of b' = config_of b.

(** A running connection has a handler; the handler belongs to one of
    the workers; [thread] is the worker spawned last. *)
Definition bot_wf (b : BotInstance.t) : Prop :=
  (BotInstance.running b = true → is_Some (BotInstance.handler b))
  ∧ (∀ h, BotInstance.handler b = Some h →
          (BotInstance.h_worker h < length (BotInstance.workers b))%nat)
  ∧ match BotInstance.thread b with
    | None => BotInstance.workers b = []
    | Some n => length (BotInstance.workers b) = S n
    end.

Definition bot_step (b b' : BotInstance.t) : Prop :=
  same_config b b' ∧ (bot_wf b → bot_wf b').

Definition registry_ok (s : BotFactory.Sys) : Prop :=
  factory_ok s
  ∧ (∀ bot_id b, BotFactory.bots (BotFactory.factory s) !! bot_id = Some b →
       BotInstance.bot_id b = bot_id ∧ bot_id ≠ "" ∧ bot_wf b)
  ∧ (∀ st bot_id b,
       BotFactory.persist (BotFactory.factory s) = true →
       BotFactory.storage (BotFactory.factory s) = Some st →
       BotFactory.bots (BotFactory.factory s) !! bot_id = Some b →
       snapshot (heap (BotFactory.machine s)) (BotStorage.configs st) !! bot_id
       = Some (config_of b)).

(** What can happen to a factory: the calls of its interface, a worker
    thread getting to run, and an event arriving at a connection. *)
Inductive step (re_sub : string → string → string → exn + string)
  : BotFactory.Sys → BotFactory.Sys → Prop :=
  | step_create s bot_token app_token signing_secret agent_url channel_id bot_id
      uuid_hex w :
      step re_sub s
        (state_of (BotFactory.create_bot bot_token app_token signing_secret agent_url
                     channel_id bot_id uuid_hex w s))
  | step_start s bot_id o :
      step re_sub s (state_of (BotFactory.start_bot bot_id o s))
  | step_stop s bot_id o :
      step re_sub s (state_of (BotFactory.stop_bot bot_id o s))
  | step_delete s bot_id o w :
      step re_sub s (state_of (BotFactory.delete_bot bot_id o w s))
  | step_start_all s o :
      step re_sub s (state_of (BotFactory.start_all o s))
  | step_stop_all s o :
      step re_sub s (state_of (BotFactory.stop_all o s))
  | step_worker s bot_id i o :
      step re_sub s (state_of (BotFactory.worker_step bot_id i o s))
  | step_event s bot_id kind event o :
      step re_sub s
        (state_of (BotFactory.on_bot bot_id (BotInstance.dispatch re_sub kind event o) s)).

Inductive reachable (re_sub : string → string → string → exn + string)
  : BotFactory.Sys → Prop :=
  | reach_init persist m f m' tr :
      BotFactory.__init__ persist m = (inr f, m', tr) →
      reachable re_sub (BotFactory.mkSys f m')
  | reach_step s s' :
      reachable re_sub s → step re_sub s s' → reachable re_sub s'.

(** ** The REST endpoints *)

(** The view functions of [api_service.py], run on the module's one
    [bot_factory]. *)
Module ApiService.

(** What a view returns: the dictionary it hands to [jsonify], and the
    status code. *)
Abbreviation Response := (gmap string json * nat)%type (only parsing).

(** The body of [POST /bots] as the view reads it, field by field, with
    [data.get]. The model covers the bodies that are JSON objects in
    which each of the first six fields is a string, [null] or absent;
    [auto_start] is any JSON value, or absent. *)
Record CreateBody : Type := mkCreateBody {
  bot_token : option string;
  app_token : option string;
  signing_secret : option string;
  agent_url : option string;
  channel_id : option string;
  bot_id : option string;
  auto_start : option json;
}.

Definition required_fields (data : CreateBody) : list (string * option string) :=
  [("bot_token", bot_token data); ("app_token", app_token data);
   ("signing_secret", signing_secret data); ("agent_url", agent_url data)].

(** [[field for field in required_fields if not data.get(field)]] *)
Definition missing_fields (data : CreateBody) : list string :=
  (List.filter (λ f, negb (truthy_opt f.2)) (required_fields data)).*1.

Definition error (msg : string) (code : nat) : Response :=
  ({[ "error" := JStr msg ]}, code).

(** The [except] clauses a view ends with. [value_error] is the status
    the view gives to a [ValueError], when it has a clause for it; every
    other exception is logged and answered with 500. *)
Definition guarded (what : string) (value_error : option nat)
    (m : M BotFactory.Sys (gmap string json * nat))
  : M BotFactory.Sys (gmap string json * nat) :=
  try_except m
    (λ e,
       match e, value_error with
       | ValueError msg, Some code => ret (error msg code)
       | _, _ =>
           emit (LogError ("Error " +:+ what +:+ ": " +:+ exn_str e)) ;;;
           ret (error "Internal server error" 500)
       end).

(** [POST /bots]. [body] is what [request.get_json()] gives: [inl e]
    when it raises, or when reading a field of the body raises (the
    body is not an object). *)
Definition create_bot (body : exn + CreateBody) (uuid_hex : string)
    (w : BotStorage.WriteOutcome) (o : BotInstance.StartOutcome)
  : M BotFactory.Sys (gmap string json * nat) :=
  guarded "creating bot" (Some 400)
    (data <- match body with
             | inl e => raise e
             | inr data => ret data
             end ;;
     match missing_fields data with
     | _ :: _ =>
         ret (error ("Missing required fields: "
                     +:+ String.concat ", " (missing_fields data)) 400)
     | [] =>
         bot_id <- BotFactory.create_bot (default "" (bot_token data))
                     (default "" (app_token data)) (default "" (signing_secret data))
                     (default "" (agent_url data)) (channel_id data) (bot_id data)
                     uuid_hex w ;;
         (if truthy (default (JBool false) (auto_start data))
          then BotFactory.start_bot bot_id o
          else ret tt) ;;;
         ret (<["bot_id" := JStr bot_id]>
              (<["status" := JStr "created"]>
              (<["agent_url" := JStr (default "" (agent_url data))]> ∅)), 201)
     end).

Definition status_json (v : BotFactory.StatusValue) : json :=
  match v with
  | BotFactory.SNone => JNull
  | BotFactory.SStr s => JStr s
  | BotFactory.SBool b => JBool b
  end.

(** [GET /bots/<bot_id>]: [{"bot_id": bot_id, **bots[bot_id]}]. *)
Definition get_bot (bot_id : string) : M BotFactory.Sys (gmap string json * nat) :=
  guarded "getting bot" None
    (bots <- BotFactory.list_bots ;;
     match bots !! bot_id with
     | None => ret (error "Bot not found" 404)
     | Some st => ret ((status_json <$> st) ∪ {[ "bot_id" := JStr bot_id ]}, 200)
     end).

Definition done (bot_id status : string) : gmap string json * nat :=
  (<["bot_id" := JStr bot_id]> (<["status" := JStr status]> ∅), 200).

(** [POST /bots/<bot_id>/start] *)
Definition start_bot (bot_id : string) (o : BotInstance.StartOutcome)
  : M BotFactory.Sys (gmap string json * nat) :=
  guarded "starting bot" (Some 404)
    (BotFactory.start_bot bot_id o ;;; ret (done bot_id "started")).

(** [POST /bots/<bot_id>/stop] *)
Definition stop_bot (bot_id : string) (o : BotInstance.CloseOutcome)
  : M BotFactory.Sys (gmap string json * nat) :=
  guarded "stopping bot" (Some 404)
    (BotFactory.stop_bot bot_id o ;;; ret (done bot_id "stopped")).

(** [DELETE /bots/<bot_id>] *)
Definition delete_bot (bot_id : string) (o : BotInstance.CloseOutcome)
    (w : BotStorage.WriteOutcome) : M BotFactory.Sys (gmap string json * nat) :=
  guarded "deleting bot" (Some 404)
    (BotFactory.delete_bot bot_id o w ;;; ret (done bot_id "deleted")).

(** [POST /bots/start-all] and [POST /bots/stop-all] *)
Definition start_all_bots (o : string → BotInstance.StartOutcome)
  : M BotFactory.Sys (gmap string json * nat) :=
  guarded "starting all bots" None
    (BotFactory.start_all o ;;; ret ({[ "status" := JStr "all bots started" ]}, 200)).

Definition stop_all_bots (o : string → BotInstance.CloseOutcome)
  : M BotFactory.Sys (gmap string json * nat) :=
  guarded "stopping all bots" None
    (BotFactory.stop_all o ;;; ret ({[ "status" := JStr "all bots stopped" ]}, 200)).

End ApiService.

(** A complete body for [POST /bots], asking for the connection to be
    started, and one without the agent's address. *)
Definition sample_body : ApiService.CreateBody :=
  {| ApiService.bot_token := Some "xoxb-1"; ApiService.app_token := Some "xapp-1";
     ApiService.signing_secret := Some "secret-1";
     ApiService.agent_url := Some "http://agent/chat";
     ApiService.channel_id := Some "C123"; ApiService.bot_id := Some "c1";
     ApiService.auto_start := Some (JBool true) |}.

Definition incomplete_body : ApiService.CreateBody :=
  {| ApiService.bot_token := Some "xoxb-1"; ApiService.app_token := Some "xapp-1";
     ApiService.signing_secret := Some "secret-1"; ApiService.agent_url := Some "";
     ApiService.channel_id := None; ApiService.bot_id := None;
     ApiService.auto_start := None |}.

(** * Properties *)

(** ** The heap *)

Lemma fresh_loc_dicts h : dicts h !! fresh_loc h = None.
Proof.
  apply not_elem_of_dom. intros Hin.
  apply (is_fresh (dom (dicts h) ∪ dom (recs h))).
  apply elem_of_union_l, Hin.
Qed.

Lemma fresh_loc_recs h : recs h !! fresh_loc h = None.
Proof.
  apply not_elem_of_dom. intros Hin.
  apply (is_fresh (dom (dicts h) ∪ dom (recs h))).
  apply elem_of_union_r, Hin.
Qed.

Lemma fresh_loc_ne_dict h l : is_Some (dicts h !! l) → fresh_loc h ≠ l.
Proof.
  intros [d Hd] Heq. rewrite <- Heq, fresh_loc_dicts in Hd. discriminate.
Qed.

Lemma edits_keep_others d es h l :
  l ≠ d →
  dicts (foldl (λ h e, apply_edit d e h) h es) !! l = dicts h !! l
  ∧ recs (foldl (λ h e, apply_edit d e h) h es) = recs h.
Proof.
  intros Hne. revert h. induction es as [|e es IH]; intros h; simpl; [done|].
  destruct (IH (apply_edit d e h)) as [-> ->].
  destruct e; simpl; rewrite lookup_insert_ne; auto.
Qed.

Lemma snapshot_ext h h' l :
  dicts h' !! l = dicts h !! l → recs h' = recs h → snapshot h' l = snapshot h l.
Proof.
  intros Hd Hr. unfold snapshot, deref_dict. rewrite Hd.
  apply map_fmap_ext. intros k r _. unfold deref_rec. by rewrite Hr.
Qed.

(** Loading a document: the entries read so far are on the heap as
    written, and every reference handed out is allocated. *)
Lemma load_entries_spec h doc :
  let acc := load_entries h doc in
  deref_rec acc.2 <$> acc.1 = doc
  ∧ (∀ k l, acc.1 !! k = Some l → is_Some (recs acc.2 !! l))
  ∧ dicts acc.2 = dicts h.
Proof.
  unfold load_entries.
  apply (map_fold_weak_ind (λ (acc : gmap string loc * PyHeap) (doc : ConfigDoc),
    deref_rec acc.2 <$> acc.1 = doc
    ∧ (∀ k l, acc.1 !! k = Some l → is_Some (recs acc.2 !! l))
    ∧ dicts acc.2 = dicts h)).
  - simpl. split; [apply fmap_empty|]. split; [|done].
    intros k l Hk. rewrite lookup_empty in Hk. discriminate.
  - intros k r doc' [d h'] Hfresh (Hdoc & Halloc & Hdicts). simpl in *.
    pose proof (fresh_loc_recs h') as Hnew.
    split; [|split; [|done]].
    + rewrite fmap_insert. unfold deref_rec at 1. simpl.
      rewrite lookup_insert_eq. simpl. f_equal.
      rewrite <- Hdoc. apply map_fmap_ext. intros k' l Hl.
      unfold deref_rec. simpl. rewrite lookup_insert_ne; [done|].
      intros <-. destruct (Halloc k' _ Hl) as [x Hx]. congruence.
    + intros k' l. rewrite lookup_insert. case_decide as Hk.
      * intros [= <-]. rewrite lookup_insert_eq. eauto.
      * intros Hl. destruct (Halloc k' l Hl) as [x Hx].
        rewrite lookup_insert_ne; [eauto|]. intros <-. congruence.
Qed.

Lemma json_load_spec doc m :
  ∃ l m', json_load doc m = (inr l, m', [])
    ∧ snapshot (heap m') l = doc
    ∧ disk m' = disk m.
Proof.
  unfold json_load.
  destruct (load_entries_spec (heap m) doc) as (Hdoc & _ & _).
  revert Hdoc. destruct (load_entries (heap m) doc) as [d h].
  simpl. intros Hdoc.
  eexists _, _. split; [reflexivity|]. split; [|done].
  unfold snapshot, deref_dict. simpl. rewrite lookup_insert_eq. simpl.
  rewrite <- Hdoc. apply map_fmap_ext. intros k r _. reflexivity.
Qed.

(** ** BotStorage *)

(** [get_all] hands out a new dictionary with the entries of the Store. *)
Lemma get_all_spec self m :
  is_Some (dicts (heap m) !! BotStorage.configs self) →
  ∃ d m', BotStorage.get_all self m = (inr d, m', [])
    ∧ d ≠ BotStorage.configs self
    ∧ snapshot (heap m') d = snapshot (heap m) (BotStorage.configs self)
    ∧ BotStorage.view self m' = BotStorage.view self m.
Proof.
  intros Hsome. pose proof (fresh_loc_ne_dict _ _ Hsome) as Hne.
  eexists _, _. split; [reflexivity|]. simpl. split; [done|]. split.
  - unfold snapshot, deref_dict at 2. simpl. rewrite lookup_insert_eq. simpl.
    apply map_fmap_ext. intros k r _. reflexivity.
  - unfold BotStorage.view. simpl. f_equal.
    apply snapshot_ext; simpl; [by rewrite lookup_insert_ne|done].
Qed.

(** C10. [get_all] returns a copy of the stored mapping: whatever
    entries the caller then adds to, removes from, or replaces in the
    returned dictionary, the configurations the Store holds in memory
    and the persisted file stay as they were. *)
Theorem get_all_returns_copy self m edits :
  is_Some (dicts (heap m) !! BotStorage.configs self) →
  ∃ d m', BotStorage.get_all self m = (inr d, m', [])
    ∧ snapshot (heap m') d = snapshot (heap m) (BotStorage.configs self)
    ∧ BotStorage.view self (apply_edits d edits m') = BotStorage.view self m.
Proof.
  intros Hsome.
  destruct (get_all_spec self m Hsome) as (d & m' & Hrun & Hne & Hcopy & Hview).
  exists d, m'. split; [done|]. split; [done|].
  rewrite <- Hview. unfold BotStorage.view, apply_edits. simpl. f_equal.
  destruct (edits_keep_others d edits (heap m') (BotStorage.configs self)) as [Hd Hr];
    [done|].
  by apply snapshot_ext.
Qed.

Lemma get_all_returns_copy_witness :
  is_Some (dicts (heap sample_store_machine) !! BotStorage.configs sample_store)
  ∧ ∃ d m', BotStorage.get_all sample_store sample_store_machine = (inr d, m', [])
      ∧ snapshot (heap m') d
        = snapshot (heap sample_store_machine) (BotStorage.configs sample_store)
      ∧ BotStorage.view sample_store
          (apply_edits d [SetItem "b2" 1; DelItem "b1"; SetItem "b1" 7] m')
        = BotStorage.view sample_store sample_store_machine.
Proof.
  assert (H : is_Some (dicts (heap sample_store_machine)
                         !! BotStorage.configs sample_store)).
  { eexists. vm_compute. reflexivity. }
  split; [exact H|].
  exact (get_all_returns_copy sample_store sample_store_machine
           [SetItem "b2" 1; DelItem "b1"; SetItem "b1" 7] H).
Defined.

(** The copy is shallow: the record objects are shared, so writing into a
    record reached through the copy does change what the Store holds. *)
Example get_all_shares_records :
  ∃ d m', BotStorage.get_all sample_store sample_store_machine = (inr d, m', [])
    ∧ deref_dict (heap m') d !! "b1" = Some 1
    ∧ snapshot (rec_setitem 1 "agent_url" (Some "http://other") (heap m'))
        (BotStorage.configs sample_store) !! "b1"
      ≠ snapshot (heap m') (BotStorage.configs sample_store) !! "b1".
Proof.
  eexists _, _. split; [reflexivity|]. split; [vm_compute; reflexivity|].
  intros Heq. apply (f_equal (λ o, o ≫= (.!! "agent_url"))) in Heq.
  vm_compute in Heq. discriminate.
Qed.

(** ** BotFactory: construction *)

Lemma storage_init_spec file m :
  ∃ st m' tr, BotStorage.__init__ file m = (inr st, m', tr)
    ∧ BotStorage.storage_file st = file
    ∧ snapshot (heap m') (BotStorage.configs st)
      = match disk m !! file with Some (Json doc) => doc | _ => ∅ end
    ∧ disk m' = disk m.
Proof.
  unfold BotStorage.__init__, BotStorage._load, bind, gets. simpl.
  destruct (disk m !! file) as [[doc|why]|] eqn:Hfile.
  - destruct (json_load_spec doc m) as (l & m' & Hrun & Hsnap & Hdisk).
    rewrite Hrun. simpl. eexists _, _, _. split; [reflexivity|]. simpl. done.
  - simpl. eexists _, _, _. split; [reflexivity|]. simpl. split; [done|]. split; [|done].
    unfold snapshot, deref_dict. simpl. rewrite lookup_insert_eq. simpl. apply fmap_empty.
  - simpl. eexists _, _, _. split; [reflexivity|]. simpl. split; [done|]. split; [|done].
    unfold snapshot, deref_dict. simpl. rewrite lookup_insert_eq. simpl. apply fmap_empty.
Qed.

(** C9. Building the factory with persistence loads the persisted
    mapping into the Store and registers no connection: the registry is
    empty and [list_bots] returns the empty mapping right after
    construction, whatever the Store file holds; the file is left as it
    was. *)
Theorem init_loads_store_registers_nothing m :
  ∃ f st m' tr, BotFactory.__init__ true m = (inr f, m', tr)
    ∧ BotFactory.persist f = true
    ∧ BotFactory.storage f = Some st
    ∧ snapshot (heap m') (BotStorage.configs st) = persisted (disk m)
    ∧ disk m' = disk m
    ∧ BotFactory.bots f = ∅
    ∧ BotFactory.list_bots (BotFactory.mkSys f m')
      = (inr ∅, BotFactory.mkSys f m', []).
Proof.
  destruct (storage_init_spec BotStorage.STORAGE_FILE m)
    as (st & m' & tr & Hrun & _ & Hsnap & Hdisk).
  unfold BotFactory.__init__, bind. rewrite Hrun. simpl.
  eexists _, st, m', _. split; [reflexivity|]. simpl.
  repeat split; done.
Qed.

(** The file does hold a record in this run, and nothing is registered. *)
Example init_with_records :
  ∃ f m' tr, BotFactory.__init__ true sample_machine = (inr f, m', tr)
    ∧ persisted (disk sample_machine) = sample_doc
    ∧ sample_doc !! "b1" ≠ None
    ∧ BotFactory.bots f = ∅.
Proof.
  eexists _, _, _. split; [reflexivity|]. split; [reflexivity|].
  split; [|reflexivity]. unfold sample_doc. by rewrite lookup_singleton_eq.
Qed.

Example booted_is_init :
  ∃ tr, BotFactory.__init__ true empty_machine
        = (inr (BotFactory.factory booted), BotFactory.machine booted, tr).
Proof. eexists. vm_compute. reflexivity. Qed.

(** ** BotFactory: ids *)

Lemma truthy_str_ne s : s ≠ "" → truthy_str s = true.
Proof. by destruct s. Qed.

Lemma chosen_id_explicit bot_id uuid_hex :
  bot_id ≠ "" → BotFactory.chosen_id (Some bot_id) uuid_hex = bot_id.
Proof.
  intros Hne. unfold BotFactory.chosen_id. simpl. by rewrite truthy_str_ne.
Qed.

(** C6. Creating with an explicit id that is already registered fails
    with [AlreadyExists] and changes nothing: the registry, the Store
    (in memory and on disk) and the trace are as before. *)
Theorem create_existing_id_fails (s : BotFactory.Sys)
    (bot_token app_token signing_secret agent_url : string)
    (channel_id : option string) (bot_id uuid_hex : string)
    (w : BotStorage.WriteOutcome) :
  bot_id ≠ "" →
  is_Some (BotFactory.bots (BotFactory.factory s) !! bot_id) →
  BotFactory.create_bot bot_token app_token signing_secret agent_url channel_id
    (Some bot_id) uuid_hex w s
  = (inl (BotFactory.AlreadyExists bot_id), s, []).
Proof.
  intros Hne Hin. unfold BotFactory.create_bot.
  rewrite chosen_id_explicit by done.
  unfold bind, gets. simpl. by rewrite decide_True.
Qed.

(** C3 (amended). On an id that is not registered, [start_bot] and
    [stop_bot] both fail with [NotFound], and [delete_bot] is a silent
    no-op; all three leave the registry and the Store unchanged. *)
Theorem unknown_id_operations (s : BotFactory.Sys) (bot_id : string)
    (os : BotInstance.StartOutcome) (oc : BotInstance.CloseOutcome)
    (w : BotStorage.WriteOutcome) :
  BotFactory.bots (BotFactory.factory s) !! bot_id = None →
  BotFactory.start_bot bot_id os s = (inl (BotFactory.NotFound bot_id), s, [])
  ∧ BotFactory.stop_bot bot_id oc s = (inl (BotFactory.NotFound bot_id), s, [])
  ∧ BotFactory.delete_bot bot_id oc w s = (inr tt, s, []).
Proof.
  intros Hnone.
  assert (Hno : ¬ is_Some (BotFactory.bots (BotFactory.factory s) !! bot_id)).
  { rewrite Hnone. by intros [? ?]. }
  unfold BotFactory.start_bot, BotFactory.stop_bot, BotFactory.delete_bot, bind, gets.
  simpl. by rewrite !decide_False.
Qed.

Lemma unknown_id_operations_witness :
  BotFactory.bots (BotFactory.factory booted) !! "ghost" = None
  ∧ BotFactory.start_bot "ghost" BotInstance.Started booted
    = (inl (BotFactory.NotFound "ghost"), booted, [])
  ∧ BotFactory.stop_bot "ghost" BotInstance.CloseOk booted
    = (inl (BotFactory.NotFound "ghost"), booted, [])
  ∧ BotFactory.delete_bot "ghost" BotInstance.CloseOk BotStorage.WriteOk booted
    = (inr tt, booted, []).
Proof.
  split; [reflexivity|].
  apply (unknown_id_operations booted "ghost" BotInstance.Started BotInstance.CloseOk
           BotStorage.WriteOk).
  reflexivity.
Defined.

(** C3 as written fails: [stop_bot] on an id that is not registered is
    not silent, it raises [ValueError("Bot ghost not found")]. *)
Lemma stop_unknown_id_raises :
  BotFactory.stop_bot "ghost" BotInstance.CloseOk booted
  = (inl (ValueError "Bot ghost not found"), booted, [])
  ∧ result_of (BotFactory.stop_bot "ghost" BotInstance.CloseOk booted) ≠ inr tt.
Proof. split; [vm_compute; reflexivity | vm_compute; discriminate]. Qed.

Lemma create_existing_id_fails_witness :
  "c1" ≠ ""
  ∧ is_Some (BotFactory.bots (BotFactory.factory registered_c1) !! "c1")
  ∧ BotFactory.create_bot "xoxb-9" "xapp-9" "secret-9" "http://other" None
      (Some "c1") "" BotStorage.WriteOk registered_c1
    = (inl (BotFactory.AlreadyExists "c1"), registered_c1, []).
Proof.
  assert (H1 : "c1" ≠ "") by discriminate.
  assert (H2 : is_Some (BotFactory.bots (BotFactory.factory registered_c1) !! "c1")).
  { eexists. vm_compute. reflexivity. }
  exact (conj H1 (conj H2
    (create_existing_id_fails registered_c1 "xoxb-9" "xapp-9" "secret-9" "http://other"
       None "c1" "" BotStorage.WriteOk H1 H2))).
Defined.

(** ** BotFactory: persistence on create *)

Lemma snapshot_setitem h l k r rec :
  recs h !! r = Some rec → snapshot (dict_setitem l k r h) l !! k = Some rec.
Proof.
  intros Hr. unfold snapshot. rewrite lookup_fmap.
  unfold deref_dict at 1. simpl. rewrite lookup_insert_eq. simpl.
  rewrite lookup_insert_eq. simpl. unfold deref_rec, dict_setitem. simpl.
  by rewrite Hr.
Qed.

Lemma save_bot_spec st bot_id bot_token app_token signing_secret agent_url channel_id w m :
  ∃ m' tr,
    BotStorage.save_bot st bot_id bot_token app_token signing_secret agent_url
      channel_id w m = (inr tt, m', tr)
    ∧ snapshot (heap m') (BotStorage.configs st) !! bot_id
      = Some (BotStorage.config_record bot_token app_token signing_secret agent_url
                channel_id)
    ∧ (w ≠ BotStorage.WriteOk →
       ∃ err, tr = [Print ("Error saving bot configs: " +:+ err)])
    ∧ (∀ err, w = BotStorage.OpenFails err → disk m' = disk m).
Proof.
  unfold BotStorage.save_bot, BotStorage._save, bind, new_rec, modify, emit.
  destruct w as [|err|err residue]; simpl; eexists _, _; (split; [reflexivity|]); simpl.
  - split; [apply snapshot_setitem, lookup_insert_eq|]. split; [done|]. intros err [=].
  - split; [apply snapshot_setitem, lookup_insert_eq|]. split; [by exists err|]. done.
  - split; [apply snapshot_setitem, lookup_insert_eq|]. split; [by exists err|].
    intros err' [=].
Qed.

(** C1 (amended). With persistence enabled, a failed write during
    [create_bot] is printed by the Store and not reported: the call
    returns the id, the registry holds the new connection (not running)
    and the Store holds its record in memory; when the file could not be
    opened it is left as it was. *)
Theorem create_swallows_write_failure (s : BotFactory.Sys) (st : BotStorage.t)
    (bot_token app_token signing_secret agent_url : string)
    (channel_id bot_id : option string) (uuid_hex : string)
    (w : BotStorage.WriteOutcome) :
  BotFactory.persist (BotFactory.factory s) = true →
  BotFactory.storage (BotFactory.factory s) = Some st →
  w ≠ BotStorage.WriteOk →
  BotFactory.bots (BotFactory.factory s) !! BotFactory.chosen_id bot_id uuid_hex = None →
  ∃ s' tr,
    BotFactory.create_bot bot_token app_token signing_secret agent_url channel_id
      bot_id uuid_hex w s
    = (inr (BotFactory.chosen_id bot_id uuid_hex), s', tr)
    ∧ (∃ b, BotFactory.bots (BotFactory.factory s')
              !! BotFactory.chosen_id bot_id uuid_hex = Some b
            ∧ BotInstance.running b = false)
    ∧ snapshot (heap (BotFactory.machine s')) (BotStorage.configs st)
        !! BotFactory.chosen_id bot_id uuid_hex
      = Some (BotStorage.config_record bot_token app_token signing_secret agent_url
                channel_id)
    ∧ (∃ err, Print ("Error saving bot configs: " +:+ err) ∈ tr)
    ∧ (∀ err, w = BotStorage.OpenFails err →
         disk (BotFactory.machine s') = disk (BotFactory.machine s)).
Proof.
  intros Hpersist Hstorage Hw Hfree.
  set (id := BotFactory.chosen_id bot_id uuid_hex) in *.
  assert (Hno : ¬ is_Some (BotFactory.bots (BotFactory.factory s) !! id)).
  { rewrite Hfree. by intros [? ?]. }
  destruct (save_bot_spec st id bot_token app_token signing_secret agent_url
              channel_id w (BotFactory.machine s))
    as (m' & tr & Hsave & Hsnap & Hprint & Hdisk).
  destruct (Hprint Hw) as [err ->].
  destruct s as [[bs p sto] m]. simpl in *. subst p sto.
  unfold BotFactory.create_bot. fold id.
  unfold bind at 1. unfold gets at 1. simpl. rewrite decide_False by done.
  unfold bind, gets, modify, emit, ret, BotInstance.__init__, BotFactory.the_storage,
    BotFactory.on_machine, zoom. simpl.
  rewrite Hsave. simpl.
  eexists _, _. split; [reflexivity|]. simpl.
  split; [eexists; split; [apply lookup_insert_eq|reflexivity]|].
  split; [exact Hsnap|].
  split; [|exact Hdisk].
  exists err. rewrite !elem_of_cons. auto.
Qed.

Lemma create_swallows_write_failure_witness :
  BotFactory.persist (BotFactory.factory booted) = true
  ∧ BotFactory.storage (BotFactory.factory booted) = Some sample_store
  ∧ BotStorage.OpenFails "Permission denied" ≠ BotStorage.WriteOk
  ∧ BotFactory.bots (BotFactory.factory booted)
      !! BotFactory.chosen_id None "0123456789abcdef0123456789abcdef" = None
  ∧ ∃ s' tr,
      BotFactory.create_bot "xoxb-1" "xapp-1" "secret-1" "http://agent/chat" None None
        "0123456789abcdef0123456789abcdef" (BotStorage.OpenFails "Permission denied")
        booted
      = (inr (BotFactory.chosen_id None "0123456789abcdef0123456789abcdef"), s', tr)
      ∧ (∃ b, BotFactory.bots (BotFactory.factory s')
                !! BotFactory.chosen_id None "0123456789abcdef0123456789abcdef" = Some b
              ∧ BotInstance.running b = false)
      ∧ snapshot (heap (BotFactory.machine s')) (BotStorage.configs sample_store)
          !! BotFactory.chosen_id None "0123456789abcdef0123456789abcdef"
        = Some (BotStorage.config_record "xoxb-1" "xapp-1" "secret-1"
                  "http://agent/chat" None)
      ∧ (∃ err, Print ("Error saving bot configs: " +:+ err) ∈ tr)
      ∧ (∀ err, BotStorage.OpenFails "Permission denied" = BotStorage.OpenFails err →
           disk (BotFactory.machine s') = disk (BotFactory.machine booted)).
Proof.
  assert (H1 : BotFactory.persist (BotFactory.factory booted) = true) by reflexivity.
  assert (H2 : BotFactory.storage (BotFactory.factory booted) = Some sample_store)
    by reflexivity.
  assert (H3 : BotStorage.OpenFails "Permission denied" ≠ BotStorage.WriteOk)
    by discriminate.
  assert (H4 : BotFactory.bots (BotFactory.factory booted)
                 !! BotFactory.chosen_id None "0123456789abcdef0123456789abcdef" = None)
    by reflexivity.
  exact (conj H1 (conj H2 (conj H3 (conj H4
    (create_swallows_write_failure booted sample_store "xoxb-1" "xapp-1" "secret-1"
       "http://agent/chat" None None "0123456789abcdef0123456789abcdef"
       (BotStorage.OpenFails "Permission denied") H1 H2 H3 H4))))).
Defined.

(** C1 as written fails: the file cannot be opened, yet [create_bot]
    returns the id as on success and the registry holds the new
    connection, while the disk has no Store file at all. *)
Lemma create_write_failure_not_reported :
  result_of (BotFactory.create_bot "xoxb-1" "xapp-1" "secret-1" "http://agent/chat"
               None (Some "c1") "" (BotStorage.OpenFails "Permission denied") booted)
  = inr "c1"
  ∧ is_Some (BotFactory.bots (BotFactory.factory (state_of
      (BotFactory.create_bot "xoxb-1" "xapp-1" "secret-1" "http://agent/chat"
         None (Some "c1") "" (BotStorage.OpenFails "Permission denied") booted))) !! "c1")
  ∧ disk (BotFactory.machine (state_of
      (BotFactory.create_bot "xoxb-1" "xapp-1" "secret-1" "http://agent/chat"
         None (Some "c1") "" (BotStorage.OpenFails "Permission denied") booted)))
      !! BotStorage.STORAGE_FILE = None.
Proof.
  split; [vm_compute; reflexivity|].
  split; [eexists; vm_compute; reflexivity|].
  vm_compute; reflexivity.
Qed.

(** ** BotInstance: start and stop *)

(** [start] on a connection whose flag is set does nothing but warn. *)
Lemma start_running_noop (b : BotInstance.t) (o : BotInstance.StartOutcome) :
  BotInstance.running b = true →
  BotInstance.start o b
  = (inr None, b,
     [LogWarning ("Bot " +:+ BotInstance.bot_id b +:+ " is already running")]).
Proof.
  intros Hrun. unfold BotInstance.start, bind, gets. simpl. by rewrite Hrun.
Qed.

(** [start] never sets the flag itself: that is left to the worker. *)
Lemma start_leaves_flag (b : BotInstance.t) (o : BotInstance.StartOutcome) :
  BotInstance.running b = false →
  BotInstance.running (state_of (BotInstance.start o b)) = false.
Proof.
  intros Hrun. unfold BotInstance.start, bind, gets. simpl. rewrite Hrun.
  destruct o; unfold try_except, bind, BotInstance.new_thread, modify, raise, ret;
    simpl; auto.
Qed.

(** [stop] never raises. *)
Lemma stop_never_raises (b : BotInstance.t) (o : BotInstance.CloseOutcome) :
  result_of (BotInstance.stop o b) = inr tt.
Proof.
  unfold BotInstance.stop, bind, gets. simpl.
  destruct (BotInstance.running b); [|reflexivity]. simpl.
  destruct (BotInstance.handler b), o; reflexivity.
Qed.

(** When the handler closes, or there is none, [stop] clears the flag. *)
Lemma stop_clears_flag (b : BotInstance.t) (o : BotInstance.CloseOutcome) :
  o = BotInstance.CloseOk ∨ BotInstance.handler b = None →
  BotInstance.running (state_of (BotInstance.stop o b)) = false.
Proof.
  intros Hok. unfold BotInstance.stop, bind, gets. simpl.
  destruct (BotInstance.running b) eqn:Hrun; [|exact Hrun]. simpl.
  destruct (BotInstance.handler b) as [h|], o as [|e]; try reflexivity.
  destruct Hok; discriminate.
Qed.

(** When [handler.close()] raises, the error is logged and the object is
    left exactly as it was, flag included. *)
Lemma stop_close_raises (b : BotInstance.t) (h : BotInstance.Handler) (e : exn) :
  BotInstance.running b = true →
  BotInstance.handler b = Some h →
  BotInstance.stop (BotInstance.CloseRaises e) b
  = (inr tt, b,
     [LogError ("Error stopping bot " +:+ BotInstance.bot_id b +:+ ": " +:+ exn_str e)]).
Proof.
  intros Hrun Hh. unfold BotInstance.stop, bind, gets. simpl.
  rewrite Hrun. simpl. unfold try_except, bind. simpl. by rewrite Hh.
Qed.

(** C2, on a run: [c1] is created, started and connected; [stop_bot]
    then meets a handler whose [close()] raises. The call returns
    normally, the failure is logged, and the connection is still marked
    running. *)
Theorem stop_close_failure_stays_running :
  BotInstance.running <$> BotFactory.bots (BotFactory.factory running_c1) !! "c1"
  = Some true
  ∧ BotFactory.stop_bot "c1" (BotInstance.CloseRaises (External "socket is closed"))
      running_c1
    = (inr tt, running_c1, [LogError "Error stopping bot c1: socket is closed"])
  ∧ BotFactory.list_bots running_c1
    = (inr {[ "c1" := {[ "agent_url" := BotFactory.SStr "http://agent/chat";
                         "channel_id" := BotFactory.SStr "C123";
                         "running" := BotFactory.SBool true ]} ]},
       running_c1, []).
Proof.
  split; [vm_compute; reflexivity|].
  split; vm_compute; reflexivity.
Qed.

(** C4, on a run: two calls of [start_bot] in a row, before the first
    worker has run, start two workers; one call starts one. Once both
    workers are scheduled, both hold an open socket. *)
Theorem start_twice_spawns_two_workers :
  BotInstance.workers <$> BotFactory.bots (BotFactory.factory started_c1) !! "c1"
  = Some [BotInstance.Spawned]
  ∧ BotFactory.start_bot "c1" BotInstance.Started started_c1
    = (inr tt, state_of (BotFactory.start_bot "c1" BotInstance.Started started_c1), [])
  ∧ BotInstance.workers
      <$> BotFactory.bots (BotFactory.factory (state_of
            (BotFactory.start_bot "c1" BotInstance.Started started_c1))) !! "c1"
    = Some [BotInstance.Spawned; BotInstance.Spawned]
  ∧ BotInstance.serving
      <$> BotFactory.bots (BotFactory.factory (state_of
            (BotFactory.worker_step "c1" 1 BotInstance.Connected (state_of
               (BotFactory.worker_step "c1" 0 BotInstance.Connected (state_of
                  (BotFactory.start_bot "c1" BotInstance.Started started_c1))))))) !! "c1"
    = Some 2.
Proof.
  split; [vm_compute; reflexivity|].
  split; [vm_compute; reflexivity|].
  split; vm_compute; reflexivity.
Qed.

(** ** The agent gateway *)

Lemma extract_reply_object members :
  BotInstance.extract_reply (JObj members) = inr (accepted_reply members).
Proof.
  unfold BotInstance.extract_reply, accepted_reply, py_or_json. simpl.
  destruct (dict_get members "response") as [r|]; simpl;
    [destruct (truthy r) eqn:Hr; simpl; [done|]|];
    (destruct (dict_get members "message") as [m|]; simpl;
      [destruct (truthy m) eqn:Hm; simpl; reflexivity | reflexivity]).
Qed.

(** C5 (amended). For a response body that is a JSON object, the reply
    is the value of the first of [response], [message] that holds a
    truthy value; when neither does it is the value of [text], and the
    empty string when [text] is absent. The call makes one request and
    does not fail for want of an accepted key. *)
Theorem call_agent_reply (b : BotInstance.t) (message : string)
    (user channel thread_ts : option string) (members : list (string * json)) :
  BotInstance._call_agent message user channel thread_ts
    (BotInstance.Body (JObj members)) b
  = (inr (accepted_reply members), b,
     [Post (BotInstance.agent_url b)
        (mkPayload message user channel thread_ts (BotInstance.bot_id b))]).
Proof.
  unfold BotInstance._call_agent, bind, gets, try_except, emit.
  rewrite extract_reply_object. reflexivity.
Qed.

(** C5 as written fails twice over: a body with none of the accepted
    keys yields the empty string and no error, and a present but empty
    [response] is passed over for [message]. *)
Lemma reply_without_accepted_key :
  BotInstance._call_agent "hello" (Some "U1") (Some "D1") (Some "1.0")
    (BotInstance.Body (JObj [("status", JStr "ok")])) sample_bot
  = (inr (JStr ""), sample_bot,
     [Post "http://agent/chat" (mkPayload "hello" (Some "U1") (Some "D1") (Some "1.0") "c1")])
  ∧ BotInstance._call_agent "hello" (Some "U1") (Some "D1") (Some "1.0")
      (BotInstance.Body (JObj [("response", JStr ""); ("message", JStr "hi")])) sample_bot
    = (inr (JStr "hi"), sample_bot,
       [Post "http://agent/chat" (mkPayload "hello" (Some "U1") (Some "D1") (Some "1.0") "c1")]).
Proof. split; vm_compute; reflexivity. Qed.

(** ** BotFactory: listing *)

Lemma status_dom (b : BotInstance.t) :
  dom (BotFactory.status b) = ({["agent_url"; "channel_id"; "running"]} : gset string).
Proof. unfold BotFactory.status. rewrite !dom_insert_L, dom_empty_L. set_solver. Qed.

Lemma status_same_public b1 b2 :
  same_public b1 b2 → BotFactory.status b1 = BotFactory.status b2.
Proof. intros (Hu & Hc & Hr). unfold BotFactory.status. by rewrite Hu, Hc, Hr. Qed.

(** C8. Two registries whose connections agree on endpoint, scope filter
    and running flag, whatever their tokens and secrets, get the same
    answer from [list_bots]; each status in it has exactly the keys
    [agent_url], [channel_id] and [running]. *)
Theorem list_bots_hides_secrets (s1 s2 : BotFactory.Sys) :
  (∀ bot_id, option_Forall2 same_public
               (BotFactory.bots (BotFactory.factory s1) !! bot_id)
               (BotFactory.bots (BotFactory.factory s2) !! bot_id)) →
  ∃ out,
    BotFactory.list_bots s1 = (inr out, s1, [])
    ∧ BotFactory.list_bots s2 = (inr out, s2, [])
    ∧ (∀ bot_id st, out !! bot_id = Some st →
         dom st = ({["agent_url"; "channel_id"; "running"]} : gset string))
    ∧ (∀ bot_id b, BotFactory.bots (BotFactory.factory s1) !! bot_id = Some b →
         out !! bot_id
         = Some {[ "agent_url" := BotFactory.SStr (BotInstance.agent_url b);
                   "channel_id" := match BotInstance.channel_id b with
                                   | Some c => BotFactory.SStr c
                                   | None => BotFactory.SNone
                                   end;
                   "running" := BotFactory.SBool (BotInstance.running b) ]}).
Proof.
  intros Heq. exists (BotFactory.status <$> BotFactory.bots (BotFactory.factory s1)).
  split; [reflexivity|]. split; [|split].
  - unfold BotFactory.list_bots, gets. do 2 f_equal. f_equal.
    apply map_eq. intros bot_id. rewrite !lookup_fmap.
    destruct (Heq bot_id) as [b1 b2 Hsame|]; simpl; [|done].
    f_equal. symmetry. by apply status_same_public.
  - intros bot_id st. rewrite lookup_fmap.
    destruct (BotFactory.bots (BotFactory.factory s1) !! bot_id) as [b|]; simpl; [|done].
    intros [= <-]. apply status_dom.
  - intros bot_id b Hb. rewrite lookup_fmap, Hb. reflexivity.
Qed.

Lemma registered_c1_bots :
  BotFactory.bots (BotFactory.factory registered_c1) = {[ "c1" := sample_bot ]}.
Proof. vm_compute. reflexivity. Qed.

Lemma registered_c1'_bots :
  BotFactory.bots (BotFactory.factory registered_c1') = {[ "c1" := sample_bot' ]}.
Proof. vm_compute. reflexivity. Qed.

Lemma list_bots_hides_secrets_witness :
  (∀ bot_id, option_Forall2 same_public
               (BotFactory.bots (BotFactory.factory registered_c1) !! bot_id)
               (BotFactory.bots (BotFactory.factory registered_c1') !! bot_id))
  ∧ BotInstance.bot_token sample_bot ≠ BotInstance.bot_token sample_bot'
  ∧ ∃ out,
      BotFactory.list_bots registered_c1 = (inr out, registered_c1, [])
      ∧ BotFactory.list_bots registered_c1' = (inr out, registered_c1', [])
      ∧ (∀ bot_id st, out !! bot_id = Some st →
           dom st = ({["agent_url"; "channel_id"; "running"]} : gset string))
      ∧ (∀ bot_id b,
           BotFactory.bots (BotFactory.factory registered_c1) !! bot_id = Some b →
           out !! bot_id
           = Some {[ "agent_url" := BotFactory.SStr (BotInstance.agent_url b);
                     "channel_id" := match BotInstance.channel_id b with
                                     | Some c => BotFactory.SStr c
                                     | None => BotFactory.SNone
                                     end;
                     "running" := BotFactory.SBool (BotInstance.running b) ]}).
Proof.
  assert (H : ∀ bot_id, option_Forall2 same_public
                (BotFactory.bots (BotFactory.factory registered_c1) !! bot_id)
                (BotFactory.bots (BotFactory.factory registered_c1') !! bot_id)).
  { intros bot_id. rewrite registered_c1_bots, registered_c1'_bots.
    destruct (decide (bot_id = "c1")) as [->|Hne].
    - rewrite !lookup_singleton_eq. constructor. by repeat split.
    - rewrite !lookup_singleton_ne by done. constructor. }
  split; [exact H|]. split; [discriminate|].
  exact (list_bots_hides_secrets registered_c1 registered_c1' H).
Defined.

(** ** The mention handler *)

Lemma mention_token_nonempty user_id : BotInstance.mention_token user_id ≠ "".
Proof. unfold BotInstance.mention_token. simpl. discriminate. Qed.

Section MentionHandling.

Variable re_sub : string → string → string → exn + string.

(** What is known of [re.sub], for the one way the program calls it:
    with the empty replacement and a non-empty pattern without special
    characters, it removes the occurrences of the pattern itself, found
    left to right. Nothing is assumed of the empty pattern, of patterns
    with special characters, or of other replacements. *)
Hypothesis re_sub_literal : ∀ pattern text,
  pattern ≠ "" →
  re_literal pattern = true →
  re_sub pattern "" text = inr (str_replace pattern "" text).

(** C7. A mention whose text is empty once the mention of the
    connection's own identity is removed and the rest trimmed is
    dropped without a trace: the handler returns normally, and the
    only call it may have made is the identity lookup; no request goes
    to the agent and nothing is said. *)
Theorem bare_mention_discarded (b : BotInstance.t) (event : Event)
    (o : BotInstance.Answers) (user_id : string) :
  resolved_identity b o = Some user_id →
  user_id ≠ "" →
  re_literal (BotInstance.mention_token user_id) = true →
  strip (str_replace (BotInstance.mention_token user_id) ""
           (default "" (ev_text event))) = "" →
  ∃ b' tr,
    BotInstance._handle_message re_sub event true o b = (inr tt, b', tr)
    ∧ (∀ e, e ∈ tr → e = AuthTest)
    ∧ (∀ url payload, Post url payload ∉ tr)
    ∧ (∀ text thread_ts, Say text thread_ts ∉ tr).
Proof.
  intros Hid Hne Hlit Hempty.
  assert (Hsub := re_sub_literal (BotInstance.mention_token user_id)
                    (default "" (ev_text event))
                    (mention_token_nonempty user_id) Hlit).
  unfold resolved_identity in Hid.
  unfold BotInstance._handle_message.
  unfold bind at 1. unfold gets at 1. cbv beta iota zeta.
  unfold try_except.
  destruct (truthy_opt (BotInstance.bot_user_id b)) eqn:Hcached.
  - unfold bind, gets, ret, modify, raise, emit.
    cbn -[strip str_replace BotInstance.mention_token].
    rewrite Hcached. cbn -[strip str_replace BotInstance.mention_token].
    rewrite Hid. cbn -[strip str_replace BotInstance.mention_token].
    rewrite (truthy_str_ne _ Hne). cbn -[strip str_replace BotInstance.mention_token].
    rewrite Hsub. cbn -[strip str_replace BotInstance.mention_token].
    rewrite Hempty. cbn.
    eexists _, _. split; [reflexivity|].
    split; [intros e He; by apply elem_of_nil in He|].
    split; intros ? ? He; by apply elem_of_nil in He.
  - destruct (BotInstance.auth o) as [e|uid] eqn:Hauth; [discriminate|].
    injection Hid as ->.
    unfold bind, gets, ret, modify, raise, emit.
    cbn -[strip str_replace BotInstance.mention_token].
    rewrite Hcached. cbn -[strip str_replace BotInstance.mention_token].
    rewrite (truthy_str_ne _ Hne). cbn -[strip str_replace BotInstance.mention_token].
    rewrite Hsub. cbn -[strip str_replace BotInstance.mention_token].
    rewrite Hempty. cbn.
    eexists _, _. split; [reflexivity|].
    split; [intros e He; by apply list_elem_of_singleton in He|].
    split; intros ? ? He; apply list_elem_of_singleton in He; discriminate.
Qed.

End MentionHandling.

Lemma bare_mention_discarded_witness :
  (∀ pattern text, pattern ≠ "" → re_literal pattern = true →
     re_sub_plain pattern "" text = inr (str_replace pattern "" text))
  ∧ re_sub_plain "<@U123>" "" "  <@U123> " = inr "   "
  ∧ resolved_identity sample_bot sample_answers = Some "U123"
  ∧ "U123" ≠ ""
  ∧ re_literal (BotInstance.mention_token "U123") = true
  ∧ strip (str_replace (BotInstance.mention_token "U123") ""
             (default "" (ev_text bare_mention))) = ""
  ∧ ∃ b' tr,
      BotInstance._handle_message re_sub_plain bare_mention true sample_answers
        sample_bot = (inr tt, b', tr)
      ∧ (∀ e, e ∈ tr → e = AuthTest)
      ∧ (∀ url payload, Post url payload ∉ tr)
      ∧ (∀ text thread_ts, Say text thread_ts ∉ tr).
Proof.
  assert (H0 : ∀ pattern text, pattern ≠ "" → re_literal pattern = true →
                 re_sub_plain pattern "" text = inr (str_replace pattern "" text))
    by (intros; reflexivity).
  assert (Hcall : re_sub_plain "<@U123>" "" "  <@U123> " = inr "   ")
    by (vm_compute; reflexivity).
  assert (H1 : resolved_identity sample_bot sample_answers = Some "U123")
    by reflexivity.
  assert (H2 : "U123" ≠ "") by discriminate.
  assert (H3 : re_literal (BotInstance.mention_token "U123") = true)
    by (vm_compute; reflexivity).
  assert (H4 : strip (str_replace (BotInstance.mention_token "U123") ""
                        (default "" (ev_text bare_mention))) = "")
    by (vm_compute; reflexivity).
  exact (conj H0 (conj Hcall (conj H1 (conj H2 (conj H3 (conj H4
    (bare_mention_discarded re_sub_plain H0 sample_bot bare_mention sample_answers
       "U123" H1 H2 H3 H4))))))).
Defined.

(** The same mention with words after it does reach the agent. *)
Example mention_with_text_is_forwarded :
  trace_of (BotInstance._handle_message re_sub_plain
              {| ev_user := Some "U777"; ev_text := Some "<@U123> status?";
                 ev_channel := Some "C123"; ev_thread_ts := None;
                 ev_ts := Some "1700000000.000100"; ev_subtype := None;
                 ev_bot_id := None; ev_channel_type := Some "channel" |}
              true sample_answers sample_bot)
  = [AuthTest;
     LogInfo "Bot c1 received message: status?...";
     Post "http://agent/chat"
       (mkPayload "status?" (Some "U777") (Some "C123") (Some "1700000000.000100") "c1");
     Say (JStr "hi") (Some "1700000000.000100");
     LogInfo "Bot c1 sent response"].
Proof. vm_compute. reflexivity. Qed.

(** ** BotStorage: saving, deleting, reloading *)

Lemma booted_store_closed : store_closed sample_store (BotFactory.machine booted).
Proof.
  split; [eexists; vm_compute; reflexivity|].
  intros k l. vm_compute. discriminate.
Qed.

Lemma sample_store_closed : store_closed sample_store sample_store_machine.
Proof.
  split; [eexists; vm_compute; reflexivity|].
  intros k l Hk.
  assert (Hd : deref_dict (heap sample_store_machine) (BotStorage.configs sample_store)
               = {[ "b1" := 1 ]}) by (vm_compute; reflexivity).
  rewrite Hd in Hk. apply lookup_singleton_Some in Hk as [_ <-].
  eexists. vm_compute. reflexivity.
Qed.

(** Writing a new record object into a closed Store changes the entry of
    its key and no other. *)
Lemma snapshot_new_record st m k rec :
  store_closed st m →
  snapshot
    (dict_setitem (BotStorage.configs st) k (fresh_loc (heap m))
       {| dicts := dicts (heap m);
          recs := <[fresh_loc (heap m) := rec]> (recs (heap m)) |})
    (BotStorage.configs st)
  = <[k := rec]> (snapshot (heap m) (BotStorage.configs st)).
Proof.
  intros [Hdict Hrecs]. unfold snapshot.
  unfold deref_dict at 1. simpl. rewrite lookup_insert_eq. simpl.
  rewrite fmap_insert. unfold deref_rec at 1. simpl. rewrite lookup_insert_eq. simpl.
  f_equal. apply map_fmap_ext. intros k' l Hl. unfold deref_rec. simpl.
  rewrite lookup_insert_ne; [done|].
  intros <-. destruct (Hrecs k' _ Hl) as [x Hx].
  rewrite fresh_loc_recs in Hx. discriminate.
Qed.

Lemma closed_new_record st m k rec :
  store_closed st m →
  store_closed st
    (set_heap
       (dict_setitem (BotStorage.configs st) k (fresh_loc (heap m))
          {| dicts := dicts (heap m);
             recs := <[fresh_loc (heap m) := rec]> (recs (heap m)) |}) m).
Proof.
  intros [Hdict Hrecs]. split; simpl.
  - rewrite lookup_insert_eq. eauto.
  - intros k' l. unfold deref_dict at 1. simpl. rewrite lookup_insert_eq. simpl.
    rewrite lookup_insert. case_decide as Hk.
    + intros [= <-]. rewrite lookup_insert_eq. eauto.
    + intros Hl. destruct (Hrecs k' l Hl) as [x Hx].
      rewrite lookup_insert_ne; [eauto|].
      intros <-. rewrite fresh_loc_recs in Hx. discriminate.
Qed.

Lemma save_bot_closed (st : BotStorage.t)
    (bot_id bot_token app_token signing_secret agent_url : string)
    (channel_id : option string) (w : BotStorage.WriteOutcome) (m : Machine) :
  store_closed st m →
  ∃ m' tr,
    BotStorage.save_bot st bot_id bot_token app_token signing_secret agent_url
      channel_id w m = (inr tt, m', tr)
    ∧ snapshot (heap m') (BotStorage.configs st)
      = <[bot_id := BotStorage.config_record bot_token app_token signing_secret
                      agent_url channel_id]>
          (snapshot (heap m) (BotStorage.configs st))
    ∧ store_closed st m'.
Proof.
  intros Hclosed.
  pose proof (snapshot_new_record st m bot_id
                (BotStorage.config_record bot_token app_token signing_secret agent_url
                   channel_id) Hclosed) as Hsnap.
  pose proof (closed_new_record st m bot_id
                (BotStorage.config_record bot_token app_token signing_secret agent_url
                   channel_id) Hclosed) as Hcl.
  unfold BotStorage.save_bot, BotStorage._save, bind, new_rec, modify, emit.
  destruct w as [|err|err residue]; simpl; eexists _, _;
    (split; [reflexivity|]); simpl; (split; [exact Hsnap|exact Hcl]).
Qed.

(** X1. [save_bot] is an upsert that never raises: whatever becomes of
    the write, the Store's mapping afterwards is the old one with the
    entry of [bot_id] set to the new record, every other entry as it
    was, and the Store stays closed. *)
Theorem save_bot_upserts (st : BotStorage.t)
    (bot_id bot_token app_token signing_secret agent_url : string)
    (channel_id : option string) (w : BotStorage.WriteOutcome) (m : Machine) :
  store_closed st m →
  ∃ m' tr,
    BotStorage.save_bot st bot_id bot_token app_token signing_secret agent_url
      channel_id w m = (inr tt, m', tr)
    ∧ snapshot (heap m') (BotStorage.configs st)
      = <[bot_id := BotStorage.config_record bot_token app_token signing_secret
                      agent_url channel_id]>
          (snapshot (heap m) (BotStorage.configs st))
    ∧ store_closed st m'.
Proof.
  intros Hclosed.
  destruct (save_bot_closed st bot_id bot_token app_token signing_secret agent_url
              channel_id w m Hclosed) as (m' & tr & Hrun & Hsnap & Hcl).
  exists m', tr. split; [exact Hrun|]. split; [exact Hsnap|exact Hcl].
Qed.

Lemma save_bot_upserts_witness :
  store_closed sample_store sample_store_machine
  ∧ ∃ m' tr,
      BotStorage.save_bot sample_store "b2" "xoxb-2" "xapp-2" "secret-2" "http://two"
        (Some "C2") (BotStorage.OpenFails "Permission denied") sample_store_machine
      = (inr tt, m', tr)
      ∧ snapshot (heap m') (BotStorage.configs sample_store)
        = <["b2" := BotStorage.config_record "xoxb-2" "xapp-2" "secret-2" "http://two"
                      (Some "C2")]>
            (snapshot (heap sample_store_machine) (BotStorage.configs sample_store))
      ∧ store_closed sample_store m'.
Proof.
  exact (conj sample_store_closed
    (save_bot_upserts sample_store "b2" "xoxb-2" "xapp-2" "secret-2" "http://two"
       (Some "C2") (BotStorage.OpenFails "Permission denied") sample_store_machine
       sample_store_closed)).
Defined.

(** Building a Store gives a closed one that holds what the file held. *)
Lemma storage_init_closed file m :
  ∃ st m' tr, BotStorage.__init__ file m = (inr st, m', tr)
    ∧ BotStorage.storage_file st = file
    ∧ snapshot (heap m') (BotStorage.configs st)
      = match disk m !! file with Some (Json doc) => doc | _ => ∅ end
    ∧ disk m' = disk m
    ∧ store_closed st m'.
Proof.
  destruct (storage_init_spec file m) as (st & m' & tr & Hrun & Hfile & Hsnap & Hdisk).
  exists st, m', tr. repeat (split; [done|]).
  revert Hrun. unfold BotStorage.__init__, BotStorage._load, bind, gets. simpl.
  destruct (disk m !! file) as [[doc|why]|].
  - unfold json_load.
    destruct (load_entries_spec (heap m) doc) as (_ & Halloc & _).
    revert Halloc. destruct (load_entries (heap m) doc) as [d h]. simpl.
    intros Halloc [= <- <- _]. split; simpl.
    + rewrite lookup_insert_eq. eauto.
    + intros k l. unfold deref_dict. simpl. rewrite lookup_insert_eq. simpl. apply Halloc.
  - simpl. intros [= <- <- _]. split; simpl.
    + rewrite lookup_insert_eq. eauto.
    + intros k l. unfold deref_dict. simpl. rewrite lookup_insert_eq. simpl.
      rewrite lookup_empty. discriminate.
  - simpl. intros [= <- <- _]. split; simpl.
    + rewrite lookup_insert_eq. eauto.
    + intros k l. unfold deref_dict. simpl. rewrite lookup_insert_eq. simpl.
      rewrite lookup_empty. discriminate.
Qed.

(** X2. Round trip through the file: after a [save_bot] whose write
    succeeds, a Store built anew from the same file holds exactly the
    mapping the saving Store holds in memory, the new record included. *)
Theorem save_then_reload (st : BotStorage.t)
    (bot_id bot_token app_token signing_secret agent_url : string)
    (channel_id : option string) (m : Machine) :
  store_closed st m →
  ∃ m1 tr1 st2 m2 tr2,
    BotStorage.save_bot st bot_id bot_token app_token signing_secret agent_url
      channel_id BotStorage.WriteOk m = (inr tt, m1, tr1)
    ∧ BotStorage.__init__ (BotStorage.storage_file st) m1 = (inr st2, m2, tr2)
    ∧ snapshot (heap m2) (BotStorage.configs st2)
      = snapshot (heap m1) (BotStorage.configs st)
    ∧ snapshot (heap m2) (BotStorage.configs st2) !! bot_id
      = Some (BotStorage.config_record bot_token app_token signing_secret agent_url
                channel_id)
    ∧ tr1 = [] ∧ tr2 = [].
Proof.
  intros Hclosed.
  destruct (save_bot_closed st bot_id bot_token app_token signing_secret agent_url
              channel_id BotStorage.WriteOk m Hclosed)
    as (m1 & tr1 & Hsave & Hsnap & _).
  assert (Hdisk : disk m1 !! BotStorage.storage_file st
                  = Some (Json (snapshot (heap m1) (BotStorage.configs st)))
                  ∧ tr1 = []).
  { revert Hsave.
    unfold BotStorage.save_bot, BotStorage._save, bind, new_rec, modify. simpl.
    intros [= <- <-]. simpl. by rewrite lookup_insert_eq. }
  destruct Hdisk as [Hdisk ->].
  destruct (storage_init_spec (BotStorage.storage_file st) m1)
    as (st2 & m2 & tr2 & Hinit & _ & Hsnap2 & _).
  rewrite Hdisk in Hsnap2.
  assert (tr2 = []) as ->.
  { revert Hinit. unfold BotStorage.__init__, BotStorage._load, bind, gets. simpl.
    rewrite Hdisk. destruct (json_load_spec (snapshot (heap m1) (BotStorage.configs st)) m1)
      as (l & m' & -> & _ & _). simpl. by intros [= _ _ <-]. }
  exists m1, [], st2, m2, []. repeat (split; [done|]).
  split; [|done]. rewrite Hsnap2, Hsnap. apply lookup_insert_eq.
Qed.

Lemma save_then_reload_witness :
  store_closed sample_store sample_store_machine
  ∧ ∃ m1 tr1 st2 m2 tr2,
      BotStorage.save_bot sample_store "b2" "xoxb-2" "xapp-2" "secret-2" "http://two"
        None BotStorage.WriteOk sample_store_machine = (inr tt, m1, tr1)
      ∧ BotStorage.__init__ (BotStorage.storage_file sample_store) m1
        = (inr st2, m2, tr2)
      ∧ snapshot (heap m2) (BotStorage.configs st2)
        = snapshot (heap m1) (BotStorage.configs sample_store)
      ∧ snapshot (heap m2) (BotStorage.configs st2) !! "b2"
        = Some (BotStorage.config_record "xoxb-2" "xapp-2" "secret-2" "http://two" None)
      ∧ tr1 = [] ∧ tr2 = [].
Proof.
  exact (conj sample_store_closed
    (save_then_reload sample_store "b2" "xoxb-2" "xapp-2" "secret-2" "http://two" None
       sample_store_machine sample_store_closed)).
Defined.

Lemma store_delete_spec (st : BotStorage.t) (bot_id : string)
    (w : BotStorage.WriteOutcome) (m : Machine) :
  ∃ m' tr,
    BotStorage.delete_bot st bot_id w m = (inr tt, m', tr)
    ∧ snapshot (heap m') (BotStorage.configs st)
      = delete bot_id (snapshot (heap m) (BotStorage.configs st))
    ∧ (snapshot (heap m) (BotStorage.configs st) !! bot_id = None → m' = m ∧ tr = [])
    ∧ (is_Some (snapshot (heap m) (BotStorage.configs st) !! bot_id) →
       w = BotStorage.WriteOk →
       disk m' = <[BotStorage.storage_file st :=
                    Json (snapshot (heap m') (BotStorage.configs st))]> (disk m)).
Proof.
  unfold BotStorage.delete_bot, bind, gets. simpl.
  assert (Hlook : snapshot (heap m) (BotStorage.configs st) !! bot_id
                  = deref_rec (heap m)
                      <$> deref_dict (heap m) (BotStorage.configs st) !! bot_id).
  { unfold snapshot. apply lookup_fmap. }
  destruct (deref_dict (heap m) (BotStorage.configs st) !! bot_id) as [r|] eqn:Hr.
  - assert (Hsnap : snapshot (dict_delitem (BotStorage.configs st) bot_id (heap m))
                      (BotStorage.configs st)
                    = delete bot_id (snapshot (heap m) (BotStorage.configs st))).
    { unfold snapshot. unfold deref_dict at 1. simpl. rewrite lookup_insert_eq. simpl.
      rewrite fmap_delete. f_equal. }
    unfold BotStorage._save, bind, modify, emit.
    destruct w as [|err|err residue]; simpl; eexists _, _;
      (split; [reflexivity|]); simpl; (split; [exact Hsnap|]);
      (split; [rewrite Hlook; discriminate|]); intros _ Hw; try discriminate.
    reflexivity.
  - simpl. eexists _, _. split; [reflexivity|]. split.
    + symmetry. apply delete_id. by rewrite Hlook.
    + split; [done|]. rewrite Hlook. simpl. by intros [? ?].
Qed.

(** X3. [delete_bot] of the Store never raises and removes exactly the
    entry of [bot_id]. When the id is not stored nothing happens at all:
    no write is attempted and the file is not touched. When it is stored
    and the write succeeds, the file holds the remaining mapping. *)
Theorem store_delete_bot_removes (st : BotStorage.t) (bot_id : string)
    (w : BotStorage.WriteOutcome) (m : Machine) :
  ∃ m' tr,
    BotStorage.delete_bot st bot_id w m = (inr tt, m', tr)
    ∧ snapshot (heap m') (BotStorage.configs st)
      = delete bot_id (snapshot (heap m) (BotStorage.configs st))
    ∧ (snapshot (heap m) (BotStorage.configs st) !! bot_id = None → m' = m ∧ tr = [])
    ∧ (is_Some (snapshot (heap m) (BotStorage.configs st) !! bot_id) →
       w = BotStorage.WriteOk →
       disk m' = <[BotStorage.storage_file st :=
                    Json (snapshot (heap m') (BotStorage.configs st))]> (disk m)).
Proof.
  destruct (store_delete_spec st bot_id w m) as (m' & tr & Hrun & Hsnap & Habsent & Hdisk).
  exists m', tr. split; [exact Hrun|]. split; [exact Hsnap|].
  split; [exact Habsent|exact Hdisk].
Qed.

(** X4. [get_bot] hands out the stored record object itself, not a
    copy: a field written through the reference it returns shows in the
    Store's mapping under that id. *)
Theorem get_bot_returns_stored_object (st : BotStorage.t) (bot_id : string)
    (m : Machine) (r : nat) (field : string) (v : option string) :
  BotStorage.get_bot st bot_id m = (inr (Some r), m, []) →
  snapshot (heap m) (BotStorage.configs st) !! bot_id = Some (deref_rec (heap m) r)
  ∧ snapshot (rec_setitem r field v (heap m)) (BotStorage.configs st) !! bot_id
    = Some (<[field := v]> (deref_rec (heap m) r)).
Proof.
  unfold BotStorage.get_bot, gets. intros [= Hr].
  unfold snapshot. rewrite !lookup_fmap.
  unfold deref_dict in *. simpl. rewrite Hr. simpl. split; [done|].
  unfold deref_rec at 1. simpl. by rewrite lookup_insert_eq.
Qed.

Lemma get_bot_returns_stored_object_witness :
  BotStorage.get_bot sample_store "b1" sample_store_machine
  = (inr (Some 1), sample_store_machine, [])
  ∧ snapshot (heap sample_store_machine) (BotStorage.configs sample_store) !! "b1"
    = Some (deref_rec (heap sample_store_machine) 1)
  ∧ snapshot (rec_setitem 1 "agent_url" (Some "http://other") (heap sample_store_machine))
      (BotStorage.configs sample_store) !! "b1"
    = Some (<["agent_url" := Some "http://other"]>
              (deref_rec (heap sample_store_machine) 1)).
Proof.
  assert (H : BotStorage.get_bot sample_store "b1" sample_store_machine
              = (inr (Some 1), sample_store_machine, [])) by reflexivity.
  exact (conj H (get_bot_returns_stored_object sample_store "b1" sample_store_machine 1
                   "agent_url" (Some "http://other") H)).
Defined.

(** X5. [list_bots] of the Store returns every stored id once, and
    nothing else. *)
Theorem store_list_bots_keys (st : BotStorage.t) (m : Machine) :
  ∃ ids,
    BotStorage.list_bots st m = (inr ids, m, [])
    ∧ NoDup ids
    ∧ ∀ bot_id, bot_id ∈ ids
                ↔ is_Some (snapshot (heap m) (BotStorage.configs st) !! bot_id).
Proof.
  eexists. split; [reflexivity|]. split.
  - apply NoDup_fst_map_to_list.
  - intros bot_id. unfold snapshot. rewrite lookup_fmap, fmap_is_Some.
    rewrite list_elem_of_fmap. split.
    + intros [[k l] [-> Hin]]. apply elem_of_map_to_list in Hin. simpl. eauto.
    + intros [l Hl]. exists (bot_id, l). split; [done|]. by apply elem_of_map_to_list.
Qed.

(** ** BotFactory: one bot at a time *)

(** Calling a method of a registered bot replaces that bot by what the
    method leaves, and touches nothing else. *)
Lemma on_bot_registered {A} (bot_id : string) (m : M BotInstance.t A)
    (s : BotFactory.Sys) (b : BotInstance.t) :
  BotFactory.bots (BotFactory.factory s) !! bot_id = Some b →
  BotFactory.on_bot bot_id m s
  = (result_of (m b),
     BotFactory.set_bots (<[bot_id := state_of (m b)]> (BotFactory.bots (BotFactory.factory s))) s,
     trace_of (m b)).
Proof.
  intros Hb. unfold BotFactory.on_bot. rewrite Hb.
  by destruct (m b) as [[r b'] tr].
Qed.

Lemma start_bot_registered bot_id o s b :
  BotFactory.bots (BotFactory.factory s) !! bot_id = Some b →
  BotFactory.start_bot bot_id o s
  = (match result_of (BotInstance.start o b) with
     | inl e => inl e
     | inr _ => inr tt
     end,
     BotFactory.set_bots (<[bot_id := state_of (BotInstance.start o b)]>
                            (BotFactory.bots (BotFactory.factory s))) s,
     trace_of (BotInstance.start o b)).
Proof.
  intros Hb. unfold BotFactory.start_bot, bind at 1, gets at 1. simpl.
  rewrite decide_True by (rewrite Hb; eauto).
  unfold bind. rewrite (on_bot_registered _ _ _ _ Hb).
  destruct (BotInstance.start o b) as [[[e|r] b'] tr]; simpl; [done|].
  by rewrite app_nil_r.
Qed.

Lemma stop_bot_registered bot_id o s b :
  BotFactory.bots (BotFactory.factory s) !! bot_id = Some b →
  BotFactory.stop_bot bot_id o s
  = (inr tt,
     BotFactory.set_bots (<[bot_id := state_of (BotInstance.stop o b)]>
                            (BotFactory.bots (BotFactory.factory s))) s,
     trace_of (BotInstance.stop o b)).
Proof.
  intros Hb. unfold BotFactory.stop_bot, bind at 1, gets at 1. simpl.
  rewrite decide_True by (rewrite Hb; eauto).
  rewrite (on_bot_registered _ _ _ _ Hb).
  pose proof (stop_never_raises b o) as Hr.
  destruct (BotInstance.stop o b) as [[r b'] tr]. simpl in *. by rewrite Hr.
Qed.

(** ** BotFactory: all bots at once *)

Lemma set_bots_set_bots bs bs' s :
  BotFactory.set_bots bs (BotFactory.set_bots bs' s) = BotFactory.set_bots bs s.
Proof. reflexivity. Qed.

Lemma set_bots_same s :
  BotFactory.set_bots (BotFactory.bots (BotFactory.factory s)) s = s.
Proof. by destruct s as [[bs p st] m]. Qed.

(** A loop whose body replaces the visited bot by [f] of it, and never
    raises, replaces every visited bot and no other. *)
Lemma for_each_bots (f : string → BotInstance.t → BotInstance.t)
    (body : string → M BotFactory.Sys unit) :
  (∀ bot_id s b, BotFactory.bots (BotFactory.factory s) !! bot_id = Some b →
     ∃ tr, body bot_id s
           = (inr tt,
              BotFactory.set_bots (<[bot_id := f bot_id b]>
                                     (BotFactory.bots (BotFactory.factory s))) s,
              tr)) →
  ∀ ids s, NoDup ids →
    (∀ bot_id, bot_id ∈ ids → is_Some (BotFactory.bots (BotFactory.factory s) !! bot_id)) →
    ∃ bs tr,
      BotFactory.for_each ids body s = (inr tt, BotFactory.set_bots bs s, tr)
      ∧ ∀ bot_id, bs !! bot_id
                  = if decide (bot_id ∈ ids)
                    then f bot_id <$> BotFactory.bots (BotFactory.factory s) !! bot_id
                    else BotFactory.bots (BotFactory.factory s) !! bot_id.
Proof.
  intros Hbody ids. induction ids as [|x ids IH]; intros s Hnd Hreg.
  - exists (BotFactory.bots (BotFactory.factory s)), [].
    rewrite set_bots_same. split; [reflexivity|].
    intros bot_id. rewrite decide_False; [done|]. apply not_elem_of_nil.
  - apply NoDup_cons in Hnd as [Hx Hnd].
    destruct (Hreg x) as [b Hb]; [apply list_elem_of_here|].
    destruct (Hbody x s b Hb) as [tr1 Hrun].
    set (s1 := BotFactory.set_bots (<[x := f x b]> (BotFactory.bots (BotFactory.factory s))) s)
      in *.
    destruct (IH s1 Hnd) as (bs & tr2 & Hrest & Hbs).
    { intros bot_id Hin. simpl. rewrite lookup_insert_ne; [|by intros ->].
      apply Hreg. by apply list_elem_of_further. }
    exists bs, (tr1 ++ tr2). split.
    + simpl. unfold bind. rewrite Hrun, Hrest. subst s1.
      by rewrite set_bots_set_bots.
    + intros bot_id. rewrite (Hbs bot_id). subst s1. simpl.
      destruct (decide (bot_id = x)) as [->|Hne].
      * rewrite (decide_False (P := x ∈ ids)) by done.
        rewrite decide_True by apply list_elem_of_here.
        by rewrite lookup_insert_eq, Hb.
      * rewrite lookup_insert_ne by done.
        destruct (decide (bot_id ∈ ids)) as [Hin|Hnin].
        -- by rewrite decide_True by (by apply list_elem_of_further).
        -- rewrite decide_False; [done|].
           rewrite elem_of_cons. intros [?|?]; done.
Qed.

Lemma registry_keys (s : BotFactory.Sys) :
  NoDup (map_to_list (BotFactory.bots (BotFactory.factory s))).*1
  ∧ ∀ bot_id, bot_id ∈ (map_to_list (BotFactory.bots (BotFactory.factory s))).*1
              ↔ is_Some (BotFactory.bots (BotFactory.factory s) !! bot_id).
Proof.
  split; [apply NoDup_fst_map_to_list|].
  intros bot_id. rewrite list_elem_of_fmap. split.
  - intros [[k b] [-> Hin]]. apply elem_of_map_to_list in Hin. simpl. eauto.
  - intros [b Hb]. exists (bot_id, b). split; [done|]. by apply elem_of_map_to_list.
Qed.

(** A loop over all registered ids replaces every bot. *)
Lemma for_all_bots (f : string → BotInstance.t → BotInstance.t)
    (body : string → M BotFactory.Sys unit) (s : BotFactory.Sys) :
  (∀ bot_id s b, BotFactory.bots (BotFactory.factory s) !! bot_id = Some b →
     ∃ tr, body bot_id s
           = (inr tt,
              BotFactory.set_bots (<[bot_id := f bot_id b]>
                                     (BotFactory.bots (BotFactory.factory s))) s,
              tr)) →
  ∃ bs tr,
    BotFactory.for_each (map_to_list (BotFactory.bots (BotFactory.factory s))).*1 body s
    = (inr tt, BotFactory.set_bots bs s, tr)
    ∧ ∀ bot_id, bs !! bot_id = f bot_id <$> BotFactory.bots (BotFactory.factory s) !! bot_id.
Proof.
  intros Hbody. destruct (registry_keys s) as [Hnd Hkeys].
  destruct (for_each_bots f body Hbody _ s Hnd) as (bs & tr & Hrun & Hbs).
  { intros bot_id. apply Hkeys. }
  exists bs, tr. split; [done|]. intros bot_id. rewrite Hbs.
  case_decide as Hin; [done|].
  destruct (BotFactory.bots (BotFactory.factory s) !! bot_id) as [b|] eqn:Hb; [|done].
  exfalso. apply Hin, Hkeys. eauto.
Qed.

(** X6. [stop_all] never raises, whatever the handlers do on close. It
    leaves the Store and the set of registered ids as they were, and
    every registered bot is left as its own [stop] leaves it; where the
    close succeeds the bot is not running afterwards. *)
Theorem stop_all_stops_each (o : string → BotInstance.CloseOutcome)
    (s : BotFactory.Sys) :
  ∃ s' tr,
    BotFactory.stop_all o s = (inr tt, s', tr)
    ∧ BotFactory.machine s' = BotFactory.machine s
    ∧ BotFactory.persist (BotFactory.factory s') = BotFactory.persist (BotFactory.factory s)
    ∧ BotFactory.storage (BotFactory.factory s') = BotFactory.storage (BotFactory.factory s)
    ∧ (∀ bot_id,
         BotFactory.bots (BotFactory.factory s') !! bot_id
         = (λ b, state_of (BotInstance.stop (o bot_id) b))
             <$> BotFactory.bots (BotFactory.factory s) !! bot_id)
    ∧ (∀ bot_id b', o bot_id = BotInstance.CloseOk →
         BotFactory.bots (BotFactory.factory s') !! bot_id = Some b' →
         BotInstance.running b' = false).
Proof.
  destruct (for_all_bots (λ bot_id b, state_of (BotInstance.stop (o bot_id) b))
              (λ bot_id,
                 try_except (BotFactory.stop_bot bot_id (o bot_id))
                   (λ e, emit (LogError ("Failed to stop bot " +:+ bot_id +:+ ": "
                                         +:+ exn_str e)))) s)
    as (bs & tr & Hrun & Hbs).
  { intros bot_id s0 b Hb. unfold try_except.
    rewrite (stop_bot_registered _ _ _ _ Hb). eauto. }
  exists (BotFactory.set_bots bs s), tr.
  split; [|split; [done|split; [done|split; [done|split]]]].
  - unfold BotFactory.stop_all, bind at 1, gets at 1. cbv beta iota zeta.
    fold (@BotFactory.for_each BotFactory.Sys string). rewrite Hrun. done.
  - exact Hbs.
  - intros bot_id b' Hok. simpl. rewrite Hbs.
    destruct (BotFactory.bots (BotFactory.factory s) !! bot_id) as [b|]; [|done].
    simpl. intros [= <-]. apply stop_clears_flag. by left.
Qed.

Lemma set_running_same (b : BotInstance.t) :
  BotInstance.set_running (BotInstance.running b) b = b.
Proof. by destruct b. Qed.

(** What [start] does, case by case. *)
Lemma start_cases (b : BotInstance.t) (o : BotInstance.StartOutcome) :
  BotInstance.running (state_of (BotInstance.start o b)) = BotInstance.running b
  ∧ (BotInstance.running b = false → o = BotInstance.Started →
     BotInstance.start o b
     = (inr (Some true),
        BotInstance.set_thread (Some (length (BotInstance.workers b)))
          (BotInstance.set_workers (BotInstance.workers b ++ [BotInstance.Spawned])
             (BotInstance.set_app (Some (BotInstance.new_app b)) b)),
        []))
  ∧ (∀ e, BotInstance.running b = false → o = BotInstance.AppRaises e →
     BotInstance.start o b
     = (inl e, b,
        [LogError ("Failed to start bot " +:+ BotInstance.bot_id b +:+ ": "
                   +:+ exn_str e)])).
Proof.
  split; [|split].
  - destruct (BotInstance.running b) eqn:Hrun.
    + by rewrite start_running_noop.
    + by apply start_leaves_flag.
  - intros Hrun ->. unfold BotInstance.start, bind, gets. simpl. by rewrite Hrun.
  - intros e Hrun ->. unfold BotInstance.start, bind, gets. simpl. rewrite Hrun.
    unfold try_except, bind, raise, emit, modify. simpl.
    rewrite <- Hrun at 1. by rewrite set_running_same.
Qed.

(** X7. [start_all] never raises, even when every start fails. The Store
    and the set of registered ids stay as they were, no running flag
    changes, and each bot is left as its own [start] leaves it: a bot
    that was not running and whose start goes through has one more
    worker, newly spawned; a bot that was running, or whose [App]
    constructor raised, is untouched. *)
Theorem start_all_starts_each (o : string → BotInstance.StartOutcome)
    (s : BotFactory.Sys) :
  ∃ s' tr,
    BotFactory.start_all o s = (inr tt, s', tr)
    ∧ BotFactory.machine s' = BotFactory.machine s
    ∧ BotFactory.persist (BotFactory.factory s') = BotFactory.persist (BotFactory.factory s)
    ∧ BotFactory.storage (BotFactory.factory s') = BotFactory.storage (BotFactory.factory s)
    ∧ (∀ bot_id,
         BotFactory.bots (BotFactory.factory s') !! bot_id
         = (λ b, state_of (BotInstance.start (o bot_id) b))
             <$> BotFactory.bots (BotFactory.factory s) !! bot_id)
    ∧ (∀ bot_id b b',
         BotFactory.bots (BotFactory.factory s) !! bot_id = Some b →
         BotFactory.bots (BotFactory.factory s') !! bot_id = Some b' →
         BotInstance.running b' = BotInstance.running b
         ∧ (BotInstance.running b = false → o bot_id = BotInstance.Started →
            BotInstance.workers b' = BotInstance.workers b ++ [BotInstance.Spawned])
         ∧ (BotInstance.running b = true ∨ (∃ e, o bot_id = BotInstance.AppRaises e) →
            b' = b)).
Proof.
  destruct (for_all_bots (λ bot_id b, state_of (BotInstance.start (o bot_id) b))
              (λ bot_id,
                 try_except (BotFactory.start_bot bot_id (o bot_id))
                   (λ e, emit (LogError ("Failed to start bot " +:+ bot_id +:+ ": "
                                         +:+ exn_str e)))) s)
    as (bs & tr & Hrun & Hbs).
  { intros bot_id s0 b Hb. unfold try_except.
    rewrite (start_bot_registered _ _ _ _ Hb).
    destruct (result_of (BotInstance.start (o bot_id) b)); simpl; eauto. }
  exists (BotFactory.set_bots bs s), tr.
  split; [|split; [done|split; [done|split; [done|split]]]].
  - unfold BotFactory.start_all, bind at 1, gets at 1. cbv beta iota zeta.
    fold (@BotFactory.for_each BotFactory.Sys string). rewrite Hrun. done.
  - exact Hbs.
  - intros bot_id b b' Hb. simpl. rewrite Hbs, Hb. simpl. intros [= <-].
    destruct (start_cases b (o bot_id)) as (Hflag & Hstarted & Hfailed).
    split; [done|]. split.
    + intros Hnot Ho. by rewrite (Hstarted Hnot Ho).
    + intros [Hr|[e He]].
      * by rewrite start_running_noop.
      * destruct (BotInstance.running b) eqn:Hr.
        -- by rewrite start_running_noop.
        -- by rewrite (Hfailed e eq_refl He).
Qed.

(** X8. When the [App] constructor raises, [start_bot] passes the
    exception on to the caller after logging it, and the whole system
    is as before: the bot is still not running and has no new worker. *)
Theorem start_bot_failure_propagates (s : BotFactory.Sys) (bot_id : string)
    (b : BotInstance.t) (e : exn) :
  BotFactory.bots (BotFactory.factory s) !! bot_id = Some b →
  BotInstance.running b = false →
  BotFactory.start_bot bot_id (BotInstance.AppRaises e) s
  = (inl e, s,
     [LogError ("Failed to start bot " +:+ BotInstance.bot_id b +:+ ": " +:+ exn_str e)]).
Proof.
  intros Hb Hrun. rewrite (start_bot_registered _ _ _ _ Hb).
  destruct (start_cases b (BotInstance.AppRaises e)) as (_ & _ & Hfailed).
  rewrite (Hfailed e Hrun eq_refl). simpl.
  by rewrite (insert_id _ _ _ Hb), set_bots_same.
Qed.

Lemma start_bot_failure_propagates_witness :
  BotFactory.bots (BotFactory.factory registered_c1) !! "c1" = Some sample_bot
  ∧ BotInstance.running sample_bot = false
  ∧ BotFactory.start_bot "c1" (BotInstance.AppRaises (External "invalid_auth"))
      registered_c1
    = (inl (External "invalid_auth"), registered_c1,
       [LogError ("Failed to start bot " +:+ BotInstance.bot_id sample_bot +:+ ": "
                  +:+ exn_str (External "invalid_auth"))]).
Proof.
  assert (H1 : BotFactory.bots (BotFactory.factory registered_c1) !! "c1"
               = Some sample_bot) by (vm_compute; reflexivity).
  assert (H2 : BotInstance.running sample_bot = false) by reflexivity.
  exact (conj H1 (conj H2
    (start_bot_failure_propagates registered_c1 "c1" sample_bot
       (External "invalid_auth") H1 H2))).
Defined.

Lemma worker_step_registered bot_id i o s b :
  BotFactory.bots (BotFactory.factory s) !! bot_id = Some b →
  BotFactory.worker_step bot_id i o s
  = (result_of (BotInstance.run_bot i o b),
     BotFactory.set_bots (<[bot_id := state_of (BotInstance.run_bot i o b)]>
                            (BotFactory.bots (BotFactory.factory s))) s,
     trace_of (BotInstance.run_bot i o b)).
Proof.
  intros Hb. unfold BotFactory.worker_step, bind at 1, gets at 1. simpl.
  rewrite decide_True by (rewrite Hb; eauto).
  rewrite (on_bot_registered _ _ _ _ Hb). reflexivity.
Qed.

(** X9. Start, stop and a worker's step on one id leave every other
    registered bot, and the Store, exactly as they were. *)
Theorem other_bots_untouched (s : BotFactory.Sys) (bot_id other : string)
    (os : BotInstance.StartOutcome) (oc : BotInstance.CloseOutcome)
    (i : nat) (ow : BotInstance.RunOutcome) :
  other ≠ bot_id →
  (BotFactory.bots (BotFactory.factory (state_of (BotFactory.start_bot bot_id os s)))
     !! other = BotFactory.bots (BotFactory.factory s) !! other
   ∧ BotFactory.machine (state_of (BotFactory.start_bot bot_id os s))
     = BotFactory.machine s)
  ∧ (BotFactory.bots (BotFactory.factory (state_of (BotFactory.stop_bot bot_id oc s)))
       !! other = BotFactory.bots (BotFactory.factory s) !! other
     ∧ BotFactory.machine (state_of (BotFactory.stop_bot bot_id oc s))
       = BotFactory.machine s)
  ∧ (BotFactory.bots (BotFactory.factory (state_of (BotFactory.worker_step bot_id i ow s)))
       !! other = BotFactory.bots (BotFactory.factory s) !! other
     ∧ BotFactory.machine (state_of (BotFactory.worker_step bot_id i ow s))
       = BotFactory.machine s).
Proof.
  intros Hne.
  destruct (BotFactory.bots (BotFactory.factory s) !! bot_id) as [b|] eqn:Hb.
  - split; [|split].
    + rewrite (start_bot_registered _ _ _ _ Hb). simpl.
      by rewrite lookup_insert_ne.
    + rewrite (stop_bot_registered _ _ _ _ Hb). simpl.
      by rewrite lookup_insert_ne.
    + rewrite (worker_step_registered _ _ _ _ _ Hb). simpl.
      by rewrite lookup_insert_ne.
  - assert (Hno : ¬ is_Some (BotFactory.bots (BotFactory.factory s) !! bot_id)).
    { rewrite Hb. by intros [? ?]. }
    unfold BotFactory.start_bot, BotFactory.stop_bot, BotFactory.worker_step, bind, gets.
    simpl. rewrite !decide_False by done. simpl. done.
Qed.

Lemma other_bots_untouched_witness :
  "c2" ≠ "c1"
  ∧ is_Some (BotFactory.bots (BotFactory.factory two_bots) !! "c2")
  ∧ BotInstance.workers <$> BotFactory.bots (BotFactory.factory two_bots) !! "c1"
    = Some []
  ∧ BotInstance.workers
      <$> BotFactory.bots (BotFactory.factory (state_of
            (BotFactory.start_bot "c1" BotInstance.Started two_bots))) !! "c1"
    = Some [BotInstance.Spawned]
  ∧ ((BotFactory.bots (BotFactory.factory (state_of
        (BotFactory.start_bot "c1" BotInstance.Started two_bots))) !! "c2"
      = BotFactory.bots (BotFactory.factory two_bots) !! "c2"
      ∧ BotFactory.machine (state_of
          (BotFactory.start_bot "c1" BotInstance.Started two_bots))
        = BotFactory.machine two_bots)
     ∧ (BotFactory.bots (BotFactory.factory (state_of
          (BotFactory.stop_bot "c1" BotInstance.CloseOk two_bots))) !! "c2"
        = BotFactory.bots (BotFactory.factory two_bots) !! "c2"
        ∧ BotFactory.machine (state_of
            (BotFactory.stop_bot "c1" BotInstance.CloseOk two_bots))
          = BotFactory.machine two_bots)
     ∧ (BotFactory.bots (BotFactory.factory (state_of
          (BotFactory.worker_step "c1" 0 BotInstance.Connected two_bots))) !! "c2"
        = BotFactory.bots (BotFactory.factory two_bots) !! "c2"
        ∧ BotFactory.machine (state_of
            (BotFactory.worker_step "c1" 0 BotInstance.Connected two_bots))
          = BotFactory.machine two_bots))
  ∧ is_Some (BotFactory.bots (BotFactory.factory two_bots_busy) !! "c2")
  ∧ (BotInstance.running <$> BotFactory.bots (BotFactory.factory two_bots_busy) !! "c1"
     = Some true
     ∧ BotInstance.running
         <$> BotFactory.bots (BotFactory.factory (state_of
               (BotFactory.stop_bot "c1" BotInstance.CloseOk two_bots_busy))) !! "c1"
       = Some false)
  ∧ (BotInstance.workers <$> BotFactory.bots (BotFactory.factory two_bots_busy) !! "c1"
     = Some [BotInstance.Serving; BotInstance.Spawned]
     ∧ BotInstance.workers
         <$> BotFactory.bots (BotFactory.factory (state_of
               (BotFactory.worker_step "c1" 1 BotInstance.Connected two_bots_busy)))
             !! "c1"
       = Some [BotInstance.Serving; BotInstance.Serving])
  ∧ ((BotFactory.bots (BotFactory.factory (state_of
        (BotFactory.start_bot "c1" BotInstance.Started two_bots_busy))) !! "c2"
      = BotFactory.bots (BotFactory.factory two_bots_busy) !! "c2"
      ∧ BotFactory.machine (state_of
          (BotFactory.start_bot "c1" BotInstance.Started two_bots_busy))
        = BotFactory.machine two_bots_busy)
     ∧ (BotFactory.bots (BotFactory.factory (state_of
          (BotFactory.stop_bot "c1" BotInstance.CloseOk two_bots_busy))) !! "c2"
        = BotFactory.bots (BotFactory.factory two_bots_busy) !! "c2"
        ∧ BotFactory.machine (state_of
            (BotFactory.stop_bot "c1" BotInstance.CloseOk two_bots_busy))
          = BotFactory.machine two_bots_busy)
     ∧ (BotFactory.bots (BotFactory.factory (state_of
          (BotFactory.worker_step "c1" 1 BotInstance.Connected two_bots_busy))) !! "c2"
        = BotFactory.bots (BotFactory.factory two_bots_busy) !! "c2"
        ∧ BotFactory.machine (state_of
            (BotFactory.worker_step "c1" 1 BotInstance.Connected two_bots_busy))
          = BotFactory.machine two_bots_busy)).
Proof.
  assert (H : "c2" ≠ "c1") by discriminate.
  split; [exact H|].
  split; [eexists; vm_compute; reflexivity|].
  split; [vm_compute; reflexivity|].
  split; [vm_compute; reflexivity|].
  split; [exact (other_bots_untouched two_bots "c1" "c2" BotInstance.Started
                   BotInstance.CloseOk 0 BotInstance.Connected H)|].
  split; [eexists; vm_compute; reflexivity|].
  split; [split; vm_compute; reflexivity|].
  split; [split; vm_compute; reflexivity|].
  exact (other_bots_untouched two_bots_busy "c1" "c2" BotInstance.Started
           BotInstance.CloseOk 1 BotInstance.Connected H).
Defined.

(** ** One life of a connection *)

Lemma insert_last {A} (l : list A) (x y : A) :
  <[length l := y]> (l ++ [x]) = l ++ [y].
Proof.
  rewrite (insert_app_r_alt l [x] (length l) y) by lia.
  by rewrite Nat.sub_diag.
Qed.

(** X10. One life of a connection that is not running: [start] spawns a
    worker without setting the flag; when that worker connects the
    connection is running with one more open socket; a [stop] whose
    close succeeds clears the flag and closes that socket again. None of
    the three calls raises. *)
Theorem start_connect_stop (b : BotInstance.t) :
  BotInstance.running b = false →
  ∃ b1 b2 b3 tr1 tr2 tr3,
    BotInstance.start BotInstance.Started b = (inr (Some true), b1, tr1)
    ∧ BotInstance.run_bot (length (BotInstance.workers b)) BotInstance.Connected b1
      = (inr tt, b2, tr2)
    ∧ BotInstance.stop BotInstance.CloseOk b2 = (inr tt, b3, tr3)
    ∧ BotInstance.running b1 = false
    ∧ BotInstance.workers b1 = BotInstance.workers b ++ [BotInstance.Spawned]
    ∧ BotInstance.running b2 = true
    ∧ BotInstance.serving b2 = S (BotInstance.serving b)
    ∧ BotInstance.running b3 = false
    ∧ BotInstance.serving b3 = BotInstance.serving b
    ∧ BotInstance.workers b3 = BotInstance.workers b ++ [BotInstance.Closed].
Proof.
  intros Hrun. destruct b as [id tok atok sec url ch ap h th r uid ws].
  simpl in Hrun. subst r.
  eexists _, _, _, _, _, _. split; [reflexivity|]. simpl.
  split.
  { unfold BotInstance.run_bot, bind, gets. simpl.
    rewrite (list_lookup_middle ws [] BotInstance.Spawned (length ws) eq_refl).
    simpl. unfold BotInstance.set_worker. simpl. rewrite insert_last. reflexivity. }
  split.
  { unfold BotInstance.stop, bind, gets, try_except, modify, emit. simpl.
    unfold BotInstance.close_handler. simpl.
    rewrite (list_lookup_middle ws [] BotInstance.Serving (length ws) eq_refl).
    unfold BotInstance.set_worker. simpl. rewrite insert_last. reflexivity. }
  simpl. repeat (split; [reflexivity|]).
  split; [|split; [reflexivity|split; [|reflexivity]]].
  - unfold BotInstance.serving. simpl.
    rewrite filter_app, length_app, filter_cons_True by done. simpl. lia.
  - unfold BotInstance.serving. simpl.
    rewrite filter_app, length_app, filter_cons_False by done. simpl. lia.
Qed.

Lemma start_connect_stop_witness :
  BotInstance.running sample_bot = false
  ∧ ∃ b1 b2 b3 tr1 tr2 tr3,
      BotInstance.start BotInstance.Started sample_bot = (inr (Some true), b1, tr1)
      ∧ BotInstance.run_bot (length (BotInstance.workers sample_bot))
          BotInstance.Connected b1 = (inr tt, b2, tr2)
      ∧ BotInstance.stop BotInstance.CloseOk b2 = (inr tt, b3, tr3)
      ∧ BotInstance.running b1 = false
      ∧ BotInstance.workers b1 = BotInstance.workers sample_bot ++ [BotInstance.Spawned]
      ∧ BotInstance.running b2 = true
      ∧ BotInstance.serving b2 = S (BotInstance.serving sample_bot)
      ∧ BotInstance.running b3 = false
      ∧ BotInstance.serving b3 = BotInstance.serving sample_bot
      ∧ BotInstance.workers b3 = BotInstance.workers sample_bot ++ [BotInstance.Closed].
Proof.
  exact (conj eq_refl (start_connect_stop sample_bot eq_refl)).
Defined.

(** ** BotFactory: create and delete *)

Lemma booted_ok : factory_ok booted.
Proof. exact booted_store_closed. Qed.

Lemma create_bot_spec (s : BotFactory.Sys)
    (bot_token app_token signing_secret agent_url : string)
    (channel_id bot_id : option string) (uuid_hex : string)
    (w : BotStorage.WriteOutcome) :
  factory_ok s →
  BotFactory.bots (BotFactory.factory s) !! BotFactory.chosen_id bot_id uuid_hex = None →
  ∃ s' tr,
    BotFactory.create_bot bot_token app_token signing_secret agent_url channel_id
      bot_id uuid_hex w s
    = (inr (BotFactory.chosen_id bot_id uuid_hex), s', tr)
    ∧ BotFactory.bots (BotFactory.factory s')
      = <[BotFactory.chosen_id bot_id uuid_hex :=
            new_bot (BotFactory.chosen_id bot_id uuid_hex) bot_token app_token
              signing_secret agent_url channel_id]>
          (BotFactory.bots (BotFactory.factory s))
    ∧ BotFactory.persist (BotFactory.factory s') = BotFactory.persist (BotFactory.factory s)
    ∧ BotFactory.storage (BotFactory.factory s') = BotFactory.storage (BotFactory.factory s)
    ∧ (BotFactory.persist (BotFactory.factory s) = false →
       BotFactory.machine s' = BotFactory.machine s)
    ∧ (∀ st, BotFactory.persist (BotFactory.factory s) = true →
         BotFactory.storage (BotFactory.factory s) = Some st →
         snapshot (heap (BotFactory.machine s')) (BotStorage.configs st)
         = <[BotFactory.chosen_id bot_id uuid_hex :=
               BotStorage.config_record bot_token app_token signing_secret agent_url
                 channel_id]>
             (snapshot (heap (BotFactory.machine s)) (BotStorage.configs st))
         ∧ (w = BotStorage.WriteOk →
            disk (BotFactory.machine s') !! BotStorage.storage_file st
            = Some (Json (snapshot (heap (BotFactory.machine s'))
                            (BotStorage.configs st)))))
    ∧ factory_ok s'.
Proof.
  intros Hok Hfree.
  set (id := BotFactory.chosen_id bot_id uuid_hex) in *.
  assert (Hno : ¬ is_Some (BotFactory.bots (BotFactory.factory s) !! id)).
  { rewrite Hfree. by intros [? ?]. }
  destruct s as [[bs p sto] m]. unfold factory_ok in *. simpl in *.
  unfold BotFactory.create_bot. fold id.
  unfold bind at 1. unfold gets at 1. simpl. rewrite decide_False by done.
  unfold bind, gets, modify, emit, ret, BotInstance.__init__, BotFactory.the_storage,
    BotFactory.on_machine, zoom, raise. simpl.
  destruct p; [destruct sto as [st|]; [|discriminate]|].
  - destruct (save_bot_closed st id bot_token app_token signing_secret agent_url
                channel_id w m Hok) as (m' & tr & Hsave & Hsnap & Hcl).
    simpl. rewrite Hsave. simpl.
    eexists _, _. split; [reflexivity|]. simpl.
    repeat (split; [done|]). split; [|exact Hcl].
    intros st' _ [= <-]. split; [exact Hsnap|].
    intros ->. revert Hsave.
    unfold BotStorage.save_bot, BotStorage._save, bind, new_rec, modify. simpl.
    intros [= <- _]. simpl. by rewrite lookup_insert_eq.
  - eexists _, _. split; [reflexivity|]. simpl.
    repeat (split; [done|]). exact Hok.
Qed.

(** X11. [create_bot] with an id that is free returns that id and adds
    one connection built from the arguments: not running, no thread, no
    identity yet. With persistence the Store's mapping gains the record
    of the five configuration fields under the id, and when the write
    succeeds the file holds that mapping; without persistence heap and
    disk are not touched. Nothing is started. *)
Theorem create_bot_registers (s : BotFactory.Sys)
    (bot_token app_token signing_secret agent_url : string)
    (channel_id bot_id : option string) (uuid_hex : string)
    (w : BotStorage.WriteOutcome) :
  factory_ok s →
  BotFactory.bots (BotFactory.factory s) !! BotFactory.chosen_id bot_id uuid_hex = None →
  ∃ s' tr,
    BotFactory.create_bot bot_token app_token signing_secret agent_url channel_id
      bot_id uuid_hex w s
    = (inr (BotFactory.chosen_id bot_id uuid_hex), s', tr)
    ∧ BotFactory.bots (BotFactory.factory s')
      = <[BotFactory.chosen_id bot_id uuid_hex :=
            new_bot (BotFactory.chosen_id bot_id uuid_hex) bot_token app_token
              signing_secret agent_url channel_id]>
          (BotFactory.bots (BotFactory.factory s))
    ∧ BotFactory.persist (BotFactory.factory s') = BotFactory.persist (BotFactory.factory s)
    ∧ BotFactory.storage (BotFactory.factory s') = BotFactory.storage (BotFactory.factory s)
    ∧ (BotFactory.persist (BotFactory.factory s) = false →
       BotFactory.machine s' = BotFactory.machine s)
    ∧ (∀ st, BotFactory.persist (BotFactory.factory s) = true →
         BotFactory.storage (BotFactory.factory s) = Some st →
         snapshot (heap (BotFactory.machine s')) (BotStorage.configs st)
         = <[BotFactory.chosen_id bot_id uuid_hex :=
               BotStorage.config_record bot_token app_token signing_secret agent_url
                 channel_id]>
             (snapshot (heap (BotFactory.machine s)) (BotStorage.configs st))
         ∧ (w = BotStorage.WriteOk →
            disk (BotFactory.machine s') !! BotStorage.storage_file st
            = Some (Json (snapshot (heap (BotFactory.machine s'))
                            (BotStorage.configs st)))))
    ∧ factory_ok s'.
Proof.
  exact (create_bot_spec s bot_token app_token signing_secret agent_url channel_id
           bot_id uuid_hex w).
Qed.

Lemma create_bot_registers_witness :
  factory_ok booted
  ∧ BotFactory.bots (BotFactory.factory booted) !! BotFactory.chosen_id (Some "c1") ""
    = None
  ∧ ∃ s' tr,
      BotFactory.create_bot "xoxb-1" "xapp-1" "secret-1" "http://agent/chat"
        (Some "C123") (Some "c1") "" BotStorage.WriteOk booted
      = (inr (BotFactory.chosen_id (Some "c1") ""), s', tr)
      ∧ BotFactory.bots (BotFactory.factory s')
        = <[BotFactory.chosen_id (Some "c1") "" :=
              new_bot (BotFactory.chosen_id (Some "c1") "") "xoxb-1" "xapp-1" "secret-1"
                "http://agent/chat" (Some "C123")]>
            (BotFactory.bots (BotFactory.factory booted))
      ∧ BotFactory.persist (BotFactory.factory s')
        = BotFactory.persist (BotFactory.factory booted)
      ∧ BotFactory.storage (BotFactory.factory s')
        = BotFactory.storage (BotFactory.factory booted)
      ∧ (BotFactory.persist (BotFactory.factory booted) = false →
         BotFactory.machine s' = BotFactory.machine booted)
      ∧ (∀ st, BotFactory.persist (BotFactory.factory booted) = true →
           BotFactory.storage (BotFactory.factory booted) = Some st →
           snapshot (heap (BotFactory.machine s')) (BotStorage.configs st)
           = <[BotFactory.chosen_id (Some "c1") "" :=
                 BotStorage.config_record "xoxb-1" "xapp-1" "secret-1"
                   "http://agent/chat" (Some "C123")]>
               (snapshot (heap (BotFactory.machine booted)) (BotStorage.configs st))
           ∧ (BotStorage.WriteOk = BotStorage.WriteOk →
              disk (BotFactory.machine s') !! BotStorage.storage_file st
              = Some (Json (snapshot (heap (BotFactory.machine s'))
                              (BotStorage.configs st)))))
      ∧ factory_ok s'.
Proof.
  assert (H : BotFactory.bots (BotFactory.factory booted)
                !! BotFactory.chosen_id (Some "c1") "" = None) by reflexivity.
  exact (conj booted_ok (conj H
    (create_bot_registers booted "xoxb-1" "xapp-1" "secret-1" "http://agent/chat"
       (Some "C123") (Some "c1") "" BotStorage.WriteOk booted_ok H))).
Defined.

Lemma take_str_length n s : (String.length (take_str n s) ≤ n)%nat.
Proof.
  revert s. induction n as [|n IH]; intros [|c s]; simpl; try lia.
  specialize (IH s). lia.
Qed.

(** X12. Without a usable id ([None] or the empty string) [create_bot]
    makes one up: [bot_] followed by the first eight characters of the
    UUID's hex form. If the id it ends up with, given or made up, is
    registered already, it raises [AlreadyExists] and changes nothing;
    a made-up id that collides is not drawn again. *)
Theorem create_bot_generated_id (s : BotFactory.Sys)
    (bot_token app_token signing_secret agent_url : string)
    (channel_id bot_id : option string) (uuid_hex : string)
    (w : BotStorage.WriteOutcome) :
  (bot_id = None ∨ bot_id = Some "" →
   BotFactory.chosen_id bot_id uuid_hex = "bot_" +:+ take_str 8 uuid_hex
   ∧ (String.length (BotFactory.chosen_id bot_id uuid_hex) ≤ 12)%nat)
  ∧ (is_Some (BotFactory.bots (BotFactory.factory s)
                !! BotFactory.chosen_id bot_id uuid_hex) →
     BotFactory.create_bot bot_token app_token signing_secret agent_url channel_id
       bot_id uuid_hex w s
     = (inl (BotFactory.AlreadyExists (BotFactory.chosen_id bot_id uuid_hex)), s, [])).
Proof.
  split.
  - intros Hid.
    assert (Hc : BotFactory.chosen_id bot_id uuid_hex = "bot_" +:+ take_str 8 uuid_hex).
    { destruct Hid as [-> | ->]; reflexivity. }
    split; [exact Hc|]. rewrite Hc.
    pose proof (take_str_length 8 uuid_hex) as Hlen.
    set (t := take_str 8 uuid_hex) in *. clearbody t. simpl.
    change ("" +:+ t) with t. lia.
  - intros Hin. unfold BotFactory.create_bot, bind, gets. simpl.
    by rewrite decide_True.
Qed.

Lemma unknown_id_start (s : BotFactory.Sys) (bot_id : string)
    (os : BotInstance.StartOutcome) :
  BotFactory.bots (BotFactory.factory s) !! bot_id = None →
  BotFactory.start_bot bot_id os s = (inl (BotFactory.NotFound bot_id), s, []).
Proof.
  intros Hnone. unfold BotFactory.start_bot, bind, gets. simpl.
  rewrite decide_False; [done|]. rewrite Hnone. by intros [? ?].
Qed.

Lemma delete_bot_spec (s : BotFactory.Sys) (bot_id : string) (b : BotInstance.t)
    (oc : BotInstance.CloseOutcome) (w : BotStorage.WriteOutcome) :
  factory_ok s →
  BotFactory.bots (BotFactory.factory s) !! bot_id = Some b →
  ∃ s' tr,
    BotFactory.delete_bot bot_id oc w s = (inr tt, s', tr)
    ∧ BotFactory.bots (BotFactory.factory s')
      = delete bot_id (BotFactory.bots (BotFactory.factory s))
    ∧ (BotFactory.persist (BotFactory.factory s) = false →
       BotFactory.machine s' = BotFactory.machine s)
    ∧ (∀ st, BotFactory.persist (BotFactory.factory s) = true →
         BotFactory.storage (BotFactory.factory s) = Some st →
         snapshot (heap (BotFactory.machine s')) (BotStorage.configs st)
         = delete bot_id (snapshot (heap (BotFactory.machine s)) (BotStorage.configs st)))
    ∧ (∀ os, BotFactory.start_bot bot_id os s'
             = (inl (BotFactory.NotFound bot_id), s', [])).
Proof.
  intros Hok Hb.
  assert (Hstart : ∀ s', BotFactory.bots (BotFactory.factory s')
                         = delete bot_id (BotFactory.bots (BotFactory.factory s)) →
            ∀ os, BotFactory.start_bot bot_id os s'
                  = (inl (BotFactory.NotFound bot_id), s', [])).
  { intros s' Hbs os. apply unknown_id_start. rewrite Hbs. apply lookup_delete_eq. }
  unfold BotFactory.delete_bot. unfold bind at 1. unfold gets at 1. simpl.
  rewrite decide_True by (rewrite Hb; eauto).
  unfold bind at 1. rewrite (stop_bot_registered _ _ _ _ Hb).
  destruct s as [[bs p sto] m]. unfold factory_ok in *. simpl in *.
  unfold bind, gets, modify, emit, ret, BotFactory.the_storage, BotFactory.on_machine,
    zoom, raise. simpl.
  destruct p; [destruct sto as [st|]; [|discriminate]|].
  - destruct (store_delete_spec st bot_id w m) as (m' & tr & Hdel & Hsnap & _).
    simpl. rewrite Hdel. simpl.
    eexists _, _. split; [reflexivity|]. simpl.
    split; [by rewrite delete_insert_eq|]. split; [done|].
    split; [by intros st' _ [= <-]|].
    apply Hstart. simpl. by rewrite delete_insert_eq.
  - eexists _, _. split; [reflexivity|]. simpl.
    split; [by rewrite delete_insert_eq|]. split; [done|].
    split; [by intros st' [=]|].
    apply Hstart. simpl. by rewrite delete_insert_eq.
Qed.

(** X13. [delete_bot] on a registered id always returns normally, also
    when closing the handler raises. The id is gone from the registry
    and, with persistence, from the Store's mapping; the other bots are
    kept; a later [start_bot] on the id fails with [NotFound]. *)
Theorem delete_bot_removes (s : BotFactory.Sys) (bot_id : string) (b : BotInstance.t)
    (oc : BotInstance.CloseOutcome) (w : BotStorage.WriteOutcome) :
  factory_ok s →
  BotFactory.bots (BotFactory.factory s) !! bot_id = Some b →
  ∃ s' tr,
    BotFactory.delete_bot bot_id oc w s = (inr tt, s', tr)
    ∧ BotFactory.bots (BotFactory.factory s')
      = delete bot_id (BotFactory.bots (BotFactory.factory s))
    ∧ (BotFactory.persist (BotFactory.factory s) = false →
       BotFactory.machine s' = BotFactory.machine s)
    ∧ (∀ st, BotFactory.persist (BotFactory.factory s) = true →
         BotFactory.storage (BotFactory.factory s) = Some st →
         snapshot (heap (BotFactory.machine s')) (BotStorage.configs st)
         = delete bot_id (snapshot (heap (BotFactory.machine s)) (BotStorage.configs st)))
    ∧ (∀ os, BotFactory.start_bot bot_id os s'
             = (inl (BotFactory.NotFound bot_id), s', [])).
Proof. exact (delete_bot_spec s bot_id b oc w). Qed.

Lemma registered_c1_ok : factory_ok registered_c1.
Proof.
  split; [eexists; vm_compute; reflexivity|].
  intros k l Hk.
  assert (Hd : deref_dict (heap (BotFactory.machine registered_c1))
                 (BotStorage.configs sample_store) = {[ "c1" := 1 ]})
    by (vm_compute; reflexivity).
  rewrite Hd in Hk. apply lookup_singleton_Some in Hk as [_ <-].
  eexists. vm_compute. reflexivity.
Qed.

Lemma start_bot_keeps_ok bot_id o s :
  factory_ok s → factory_ok (state_of (BotFactory.start_bot bot_id o s)).
Proof.
  intros Hok.
  destruct (BotFactory.bots (BotFactory.factory s) !! bot_id) as [b|] eqn:Hb.
  - by rewrite (start_bot_registered _ _ _ _ Hb).
  - by rewrite unknown_id_start.
Qed.

Lemma worker_step_keeps_ok bot_id i o s :
  factory_ok s → factory_ok (state_of (BotFactory.worker_step bot_id i o s)).
Proof.
  intros Hok.
  destruct (BotFactory.bots (BotFactory.factory s) !! bot_id) as [b|] eqn:Hb.
  - by rewrite (worker_step_registered _ _ _ _ _ Hb).
  - unfold BotFactory.worker_step, bind, gets. simpl.
    rewrite decide_False; [done|]. rewrite Hb. by intros [? ?].
Qed.

Lemma running_c1_ok : factory_ok running_c1.
Proof. apply worker_step_keeps_ok, start_bot_keeps_ok, registered_c1_ok. Qed.

Lemma delete_bot_removes_witness :
  factory_ok running_c1
  ∧ trace_of (BotFactory.delete_bot "c1"
                (BotInstance.CloseRaises (External "socket is closed"))
                BotStorage.WriteOk running_c1)
    = [LogError "Error stopping bot c1: socket is closed"; LogInfo "Deleted bot c1"]
  ∧ BotFactory.bots (BotFactory.factory running_c1) !! "c1" = Some serving_bot
  ∧ BotInstance.running serving_bot = true
  ∧ is_Some (BotInstance.handler serving_bot)
  ∧ ∃ s' tr,
      BotFactory.delete_bot "c1"
        (BotInstance.CloseRaises (External "socket is closed"))
        BotStorage.WriteOk running_c1 = (inr tt, s', tr)
      ∧ BotFactory.bots (BotFactory.factory s')
        = delete "c1" (BotFactory.bots (BotFactory.factory running_c1))
      ∧ (BotFactory.persist (BotFactory.factory running_c1) = false →
         BotFactory.machine s' = BotFactory.machine running_c1)
      ∧ (∀ st, BotFactory.persist (BotFactory.factory running_c1) = true →
           BotFactory.storage (BotFactory.factory running_c1) = Some st →
           snapshot (heap (BotFactory.machine s')) (BotStorage.configs st)
           = delete "c1" (snapshot (heap (BotFactory.machine running_c1))
                            (BotStorage.configs st)))
      ∧ (∀ os, BotFactory.start_bot "c1" os s'
               = (inl (BotFactory.NotFound "c1"), s', [])).
Proof.
  assert (H : BotFactory.bots (BotFactory.factory running_c1) !! "c1"
              = Some serving_bot) by (vm_compute; reflexivity).
  split; [exact running_c1_ok|].
  split; [vm_compute; reflexivity|].
  split; [exact H|]. split; [reflexivity|]. split; [eexists; reflexivity|].
  exact (delete_bot_removes running_c1 "c1" serving_bot
           (BotInstance.CloseRaises (External "socket is closed")) BotStorage.WriteOk
           running_c1_ok H).
Defined.

(** ** The handlers: what they touch *)

Lemma only_identity_refl b : only_identity b b.
Proof. unfold only_identity. by destruct b. Qed.

Lemma only_identity_trans b1 b2 b3 :
  only_identity b1 b2 → only_identity b2 b3 → only_identity b1 b3.
Proof.
  unfold only_identity. intros H12 H23. rewrite H23, H12. by destruct b1.
Qed.

Lemma cio_ret {A} (a : A) : changes_identity_only (ret a).
Proof. intros b. apply only_identity_refl. Qed.

Lemma cio_raise {A} (e : exn) : changes_identity_only (raise (A := A) e).
Proof. intros b. apply only_identity_refl. Qed.

Lemma cio_emit (e : Effect) : changes_identity_only (emit e).
Proof. intros b. apply only_identity_refl. Qed.

Lemma cio_gets {A} (f : BotInstance.t → A) : changes_identity_only (gets f).
Proof. intros b. apply only_identity_refl. Qed.

Lemma cio_set_identity u : changes_identity_only (modify (BotInstance.set_bot_user_id u)).
Proof. intros b. unfold only_identity. by destruct b. Qed.

Lemma cio_bind {A B} (m : M BotInstance.t A) (k : A → M BotInstance.t B) :
  changes_identity_only m → (∀ a, changes_identity_only (k a)) →
  changes_identity_only (bind m k).
Proof.
  intros Hm Hk b. unfold bind. specialize (Hm b).
  destruct (m b) as [[[e|a] b1] t]; simpl in *; [done|].
  specialize (Hk a b1). destruct (k a b1) as [[r b2] t']. simpl in *.
  by eapply only_identity_trans.
Qed.

Lemma cio_try {A} (m : M BotInstance.t A) (h : exn → M BotInstance.t A) :
  changes_identity_only m → (∀ e, changes_identity_only (h e)) →
  changes_identity_only (try_except m h).
Proof.
  intros Hm Hh b. unfold try_except. specialize (Hm b).
  destruct (m b) as [[[e|a] b1] t]; simpl in *; [|done].
  specialize (Hh e b1). destruct (h e b1) as [[r b2] t']. simpl in *.
  by eapply only_identity_trans.
Qed.

Ltac cio :=
  repeat first
    [ apply cio_ret | apply cio_raise | apply cio_emit | apply cio_gets
    | apply cio_set_identity
    | apply cio_bind; [|intros ?]
    | apply cio_try; [|intros ?]
    | match goal with
      | |- changes_identity_only (match ?x with _ => _ end) => destruct x
      | |- changes_identity_only (if ?x then _ else _) => destruct x
      end ].

Lemma cio_call_agent message user channel thread_ts o :
  changes_identity_only (BotInstance._call_agent message user channel thread_ts o).
Proof. unfold BotInstance._call_agent. cio. Qed.

Lemma cio_say text thread_ts o : changes_identity_only (BotInstance.say text thread_ts o).
Proof. unfold BotInstance.say. cio. Qed.

Lemma cio_handle_message re_sub event is_mention o :
  changes_identity_only (BotInstance._handle_message re_sub event is_mention o).
Proof.
  unfold BotInstance._handle_message.
  cio; first [apply cio_call_agent | apply cio_say].
Qed.

Lemma cio_dispatch re_sub kind event o :
  changes_identity_only (BotInstance.dispatch re_sub kind event o).
Proof.
  destruct kind; simpl.
  - apply cio_handle_message.
  - unfold BotInstance.handle_message. cio.
Qed.

(** X14. Handling an event never raises, whatever Slack, the agent and
    [re.sub] do, so the worker survives every event; and of the
    connection object it changes nothing but the cached identity. *)
Theorem dispatch_never_raises (re_sub : string → string → string → exn + string)
    (kind : EventKind) (event : Event) (o : BotInstance.Answers) (b : BotInstance.t) :
  result_of (BotInstance.dispatch re_sub kind event o b) = inr tt
  ∧ state_of (BotInstance.dispatch re_sub kind event o b)
    = BotInstance.set_bot_user_id
        (BotInstance.bot_user_id (state_of (BotInstance.dispatch re_sub kind event o b)))
        b.
Proof.
  split; [|apply cio_dispatch].
  assert (Hh : ∀ is_mention b0,
            result_of (BotInstance._handle_message re_sub event is_mention o b0) = inr tt).
  { intros is_mention b0. unfold BotInstance._handle_message, bind at 1, gets at 1.
    cbv beta iota zeta. unfold try_except at 1.
    match goal with |- context [match ?m b0 with _ => _ end] =>
      destruct (m b0) as [[[e|[]] b1] t] end; reflexivity. }
  destruct kind; simpl; [apply Hh|].
  unfold BotInstance.handle_message, bind, gets. simpl.
  destruct (truthy_opt (ev_subtype event) || truthy_opt (ev_bot_id event)); [done|].
  match goal with |- context [if ?c then _ else _] => destruct c end; [|done].
  pose proof (Hh false b) as Hr.
  destruct (BotInstance._handle_message re_sub event false o b) as [[r b1] t].
  simpl in *. by rewrite Hr.
Qed.

(** ** The handlers: what they say *)

Lemma call_agent_failure message user channel thread_ts o b e :
  gateway_failure o = Some e →
  BotInstance._call_agent message user channel thread_ts o b
  = (inl e, b,
     [Post (BotInstance.agent_url b)
        (mkPayload message user channel thread_ts (BotInstance.bot_id b));
      LogError ("Agent call failed for bot " +:+ BotInstance.bot_id b +:+ ": "
                +:+ exn_str e)]).
Proof.
  unfold gateway_failure, BotInstance._call_agent, bind, gets, try_except, emit, raise.
  destruct o as [e0|e0|e0|data]; try (by intros [= ->]).
  destruct (BotInstance.extract_reply data); [by intros [= ->]|done].
Qed.

Lemma call_agent_success message user channel thread_ts data b reply :
  BotInstance.extract_reply data = inr reply →
  BotInstance._call_agent message user channel thread_ts (BotInstance.Body data) b
  = (inr reply, b,
     [Post (BotInstance.agent_url b)
        (mkPayload message user channel thread_ts (BotInstance.bot_id b))]).
Proof.
  intros Hreply.
  unfold BotInstance._call_agent, bind, gets, try_except, emit, raise, ret.
  by rewrite Hreply.
Qed.

Ltac run_handler :=
  unfold BotInstance._handle_message, BotInstance.say,
    bind, gets, try_except, emit, modify, raise, ret;
  cbn -[truthy_str BotInstance._call_agent truthy take_str String.append].

(** X15. When the agent exchange fails on a message that is not a
    mention (the request raises, the status is an error, the body is not
    JSON or not an object), the handler posts once, logs the failure,
    and says the fixed apology once, in the thread of the message (its
    [thread_ts], else its own [ts]). It says nothing else, and nothing
    reaches the caller. *)
Theorem gateway_failure_apology (re_sub : string → string → string → exn + string)
    (event : Event) (o : BotInstance.Answers) (b : BotInstance.t)
    (user_id : string) (e : exn) :
  resolved_identity b o = Some user_id →
  truthy_str (default "" (ev_text event)) = true →
  gateway_failure (BotInstance.http o) = Some e →
  result_of (BotInstance._handle_message re_sub event false o b) = inr tt
  ∧ trace_of (BotInstance._handle_message re_sub event false o b)
    = lookup_trace b
      ++ [LogInfo ("Bot " +:+ BotInstance.bot_id b +:+ " received message: "
                   +:+ take_str 50 (default "" (ev_text event)) +:+ "...");
          Post (BotInstance.agent_url b)
            (mkPayload (default "" (ev_text event)) (ev_user event) (ev_channel event)
               (py_or (ev_thread_ts event) (ev_ts event)) (BotInstance.bot_id b));
          LogError ("Agent call failed for bot " +:+ BotInstance.bot_id b +:+ ": "
                    +:+ exn_str e);
          LogError ("Error calling agent for bot " +:+ BotInstance.bot_id b +:+ ": "
                    +:+ exn_str e);
          Say (JStr BotInstance.apology) (py_or (ev_thread_ts event) (ev_ts event))]
      ++ match BotInstance.say_apology o with
         | BotInstance.SayOk => []
         | BotInstance.SayRaises e2 =>
             [LogError ("Error handling message for bot " +:+ BotInstance.bot_id b
                        +:+ ": " +:+ exn_str e2)]
         end.
Proof.
  intros Hid Htext Hfail. unfold resolved_identity, lookup_trace in *.
  run_handler.
  destruct (truthy_opt (BotInstance.bot_user_id b)) eqn:Hc.
  - cbn -[truthy_str BotInstance._call_agent truthy take_str String.append].
    rewrite Htext.
    cbn -[truthy_str BotInstance._call_agent truthy take_str String.append].
    rewrite (call_agent_failure _ _ _ _ _ _ _ Hfail).
    destruct (BotInstance.say_apology o); split; reflexivity.
  - destruct (BotInstance.auth o) as [e1|uid]; [discriminate|].
    cbn -[truthy_str BotInstance._call_agent truthy take_str String.append].
    rewrite Htext.
    cbn -[truthy_str BotInstance._call_agent truthy take_str String.append].
    rewrite (call_agent_failure _ _ _ _ _ _ _ Hfail).
    destruct (BotInstance.say_apology o); split; reflexivity.
Qed.

Lemma gateway_failure_apology_witness :
  resolved_identity sample_bot failing_answers = Some "U123"
  ∧ truthy_str (default "" (ev_text direct_message)) = true
  ∧ gateway_failure (BotInstance.http failing_answers) = Some (External "Read timed out")
  ∧ result_of (BotInstance._handle_message re_sub_plain direct_message false
                 failing_answers sample_bot) = inr tt
  ∧ trace_of (BotInstance._handle_message re_sub_plain direct_message false
                failing_answers sample_bot)
    = lookup_trace sample_bot
      ++ [LogInfo ("Bot " +:+ BotInstance.bot_id sample_bot +:+ " received message: "
                   +:+ take_str 50 (default "" (ev_text direct_message)) +:+ "...");
          Post (BotInstance.agent_url sample_bot)
            (mkPayload (default "" (ev_text direct_message)) (ev_user direct_message)
               (ev_channel direct_message)
               (py_or (ev_thread_ts direct_message) (ev_ts direct_message))
               (BotInstance.bot_id sample_bot));
          LogError ("Agent call failed for bot " +:+ BotInstance.bot_id sample_bot +:+ ": "
                    +:+ exn_str (External "Read timed out"));
          LogError ("Error calling agent for bot " +:+ BotInstance.bot_id sample_bot
                    +:+ ": " +:+ exn_str (External "Read timed out"));
          Say (JStr BotInstance.apology)
            (py_or (ev_thread_ts direct_message) (ev_ts direct_message))]
      ++ match BotInstance.say_apology failing_answers with
         | BotInstance.SayOk => []
         | BotInstance.SayRaises e2 =>
             [LogError ("Error handling message for bot "
                        +:+ BotInstance.bot_id sample_bot +:+ ": " +:+ exn_str e2)]
         end.
Proof.
  exact (conj eq_refl (conj eq_refl (conj eq_refl
    (gateway_failure_apology re_sub_plain direct_message failing_answers sample_bot
       "U123" (External "Read timed out") eq_refl eq_refl eq_refl)))).
Defined.



(** X17. The [message] handler drops an event that carries a subtype or
    a bot id, and any event that is neither a direct message nor in the
    channel the connection is configured for: no call, no log, no
    change. Every other event it hands to [_handle_message] as a
    non-mention. *)
Theorem handle_message_scope (re_sub : string → string → string → exn + string)
    (event : Event) (o : BotInstance.Answers) (b : BotInstance.t) :
  (truthy_opt (ev_subtype event) = true ∨ truthy_opt (ev_bot_id event) = true →
   BotInstance.handle_message re_sub event o b = (inr tt, b, []))
  ∧ (ev_channel_type event ≠ Some "im" →
     (truthy_opt (BotInstance.channel_id b) = false
      ∨ ev_channel event ≠ BotInstance.channel_id b) →
     BotInstance.handle_message re_sub event o b = (inr tt, b, []))
  ∧ (truthy_opt (ev_subtype event) = false → truthy_opt (ev_bot_id event) = false →
     (ev_channel_type event = Some "im"
      ∨ (truthy_opt (BotInstance.channel_id b) = true
         ∧ ev_channel event = BotInstance.channel_id b)) →
     BotInstance.handle_message re_sub event o b
     = BotInstance._handle_message re_sub event false o b).
Proof.
  unfold BotInstance.handle_message, bind, gets. cbv beta iota zeta delta [id].
  split; [|split].
  - intros Hdrop.
    assert (truthy_opt (ev_subtype event) || truthy_opt (ev_bot_id event) = true) as ->.
    { destruct Hdrop as [-> | ->]; [reflexivity|apply orb_true_r]. }
    reflexivity.
  - intros Him Hch.
    destruct (truthy_opt (ev_subtype event) || truthy_opt (ev_bot_id event));
      [reflexivity|].
    assert (bool_decide (ev_channel_type event = Some "im")
            || truthy_opt (BotInstance.channel_id b)
               && bool_decide (ev_channel event = BotInstance.channel_id b) = false) as ->.
    { rewrite (bool_decide_eq_false_2 _ Him), orb_false_l.
      destruct Hch as [-> | Hne]; [reflexivity|].
      rewrite (bool_decide_eq_false_2 _ Hne). apply andb_false_r. }
    reflexivity.
  - intros -> -> Hin.
    assert (bool_decide (ev_channel_type event = Some "im")
            || truthy_opt (BotInstance.channel_id b)
               && bool_decide (ev_channel event = BotInstance.channel_id b) = true) as ->.
    { destruct Hin as [Him | [Ht Hch]].
      - by rewrite (bool_decide_eq_true_2 _ Him).
      - rewrite Ht, (bool_decide_eq_true_2 _ Hch). apply orb_true_r. }
    cbn [orb].
    destruct (BotInstance._handle_message re_sub event false o b) as [[r b'] t].
    reflexivity.
Qed.

(** ** The handlers: the identity lookup *)

Lemma quiet_ret {A} b (a : A) : quiet_at b (ret a).
Proof. split; [apply not_elem_of_nil|reflexivity]. Qed.

Lemma quiet_raise {A} b (e : exn) : quiet_at b (raise (A := A) e).
Proof. split; [apply not_elem_of_nil|reflexivity]. Qed.

Lemma quiet_gets {A} b (f : BotInstance.t → A) : quiet_at b (gets f).
Proof. split; [apply not_elem_of_nil|reflexivity]. Qed.

Lemma quiet_emit b (e : Effect) : e ≠ AuthTest → quiet_at b (emit e).
Proof.
  intros Hne. split; [|reflexivity]. simpl.
  apply not_elem_of_cons. split; [done|apply not_elem_of_nil].
Qed.

Lemma quiet_bind {A B} b (m : M BotInstance.t A) (k : A → M BotInstance.t B) :
  quiet_at b m → (∀ a, quiet_at b (k a)) → quiet_at b (bind m k).
Proof.
  unfold quiet_at, bind, state_of, trace_of. intros [Ht Hs] Hk.
  destruct (m b) as [[[e|a] b1] t]; simpl in *; [done|]. subst b1.
  destruct (Hk a) as [Ht' Hs']. destruct (k a b) as [[r b2] t']. simpl in *.
  split; [|done]. by apply not_elem_of_app.
Qed.

Lemma quiet_bind_gets {A B} b (f : BotInstance.t → A) (k : A → M BotInstance.t B) :
  quiet_at b (k (f b)) → quiet_at b (bind (gets f) k).
Proof.
  unfold quiet_at, bind, gets, state_of, trace_of. intros [Ht Hs].
  destruct (k (f b) b) as [[r b2] t']. simpl in *. done.
Qed.

Lemma quiet_try {A} b (m : M BotInstance.t A) (h : exn → M BotInstance.t A) :
  quiet_at b m → (∀ e, quiet_at b (h e)) → quiet_at b (try_except m h).
Proof.
  unfold quiet_at, try_except, state_of, trace_of. intros [Ht Hs] Hh.
  destruct (m b) as [[[e|a] b1] t]; simpl in *; [|done]. subst b1.
  destruct (Hh e) as [Ht' Hs']. destruct (h e b) as [[r b2] t']. simpl in *.
  split; [|done]. by apply not_elem_of_app.
Qed.

Ltac quiet :=
  repeat first
    [ apply quiet_ret | apply quiet_raise | apply quiet_gets
    | apply quiet_emit; discriminate
    | apply quiet_bind; [|intros ?]
    | apply quiet_try; [|intros ?]
    | match goal with
      | |- quiet_at _ (match ?x with _ => _ end) => destruct x
      | |- quiet_at _ (if ?x then _ else _) => destruct x
      end ].

Lemma after_lookup_bind {A B} user_id b (m : M BotInstance.t A)
    (k : A → M BotInstance.t B) :
  after_lookup user_id b m →
  (∀ a, state_of (k a (BotInstance.set_bot_user_id (Some user_id) b))
        = BotInstance.set_bot_user_id (Some user_id) b) →
  after_lookup user_id b (bind m k).
Proof.
  unfold after_lookup, bind, state_of, trace_of. intros [Hs Ht] Hk.
  destruct (m b) as [[[e|a] b1] t]; simpl in *; [done|]. subst b1.
  specialize (Hk a).
  destruct (k a (BotInstance.set_bot_user_id (Some user_id) b)) as [[r b2] t'].
  simpl in *. split; [done|]. destruct t; [discriminate|done].
Qed.

Lemma after_lookup_bind_gets {A B} user_id b (f : BotInstance.t → A)
    (k : A → M BotInstance.t B) :
  after_lookup user_id b (k (f b)) → after_lookup user_id b (bind (gets f) k).
Proof.
  unfold after_lookup, bind, gets, state_of, trace_of. intros [Hs Ht].
  destruct (k (f b) b) as [[r b2] t']. simpl in *. done.
Qed.

Lemma after_lookup_try {A} user_id b (m : M BotInstance.t A)
    (h : exn → M BotInstance.t A) :
  after_lookup user_id b m →
  (∀ e, state_of (h e (BotInstance.set_bot_user_id (Some user_id) b))
        = BotInstance.set_bot_user_id (Some user_id) b) →
  after_lookup user_id b (try_except m h).
Proof.
  unfold after_lookup, try_except, state_of, trace_of. intros [Hs Ht] Hh.
  destruct (m b) as [[[e|a] b1] t]; simpl in *; [|done]. subst b1.
  specialize (Hh e).
  destruct (h e (BotInstance.set_bot_user_id (Some user_id) b)) as [[r b2] t'].
  simpl in *. split; [done|]. destruct t; [discriminate|done].
Qed.

(** X18. The connection's own identity is looked up lazily and at most
    once: an event handled while no identity is cached asks Slack first
    and caches the answer; once a non-empty identity is cached, no event
    makes the lookup again and the connection object stays as it is. *)
Theorem identity_looked_up_once (re_sub : string → string → string → exn + string)
    (event : Event) (o : BotInstance.Answers) (b : BotInstance.t) :
  (∀ is_mention user_id,
     truthy_opt (BotInstance.bot_user_id b) = false →
     BotInstance.auth o = BotInstance.AuthOk user_id →
     state_of (BotInstance._handle_message re_sub event is_mention o b)
     = BotInstance.set_bot_user_id (Some user_id) b
     ∧ head (trace_of (BotInstance._handle_message re_sub event is_mention o b))
       = Some AuthTest)
  ∧ (∀ kind,
       truthy_opt (BotInstance.bot_user_id b) = true →
       (AuthTest ∉ trace_of (BotInstance.dispatch re_sub kind event o b))
       ∧ state_of (BotInstance.dispatch re_sub kind event o b) = b).
Proof.
  split.
  - intros is_mention user_id Hc Hauth.
    change (after_lookup user_id b
              (BotInstance._handle_message re_sub event is_mention o)).
    unfold BotInstance._handle_message.
    apply after_lookup_bind_gets. apply after_lookup_try; [|reflexivity].
    cbv zeta. apply after_lookup_bind_gets. cbv beta delta [id].
    rewrite Hc, Hauth. cbn [negb].
    apply after_lookup_bind; [split; reflexivity|].
    intros _.
    match goal with |- state_of (?m ?b0) = ?b0 =>
      assert (Hq : quiet_at b0 m); [|exact (proj2 Hq)] end.
    unfold BotInstance._call_agent, BotInstance.say. quiet.
  - intros kind Hc.
    assert (Hh : ∀ is_mention,
              quiet_at b (BotInstance._handle_message re_sub event is_mention o)).
    { intros is_mention. unfold BotInstance._handle_message.
      apply quiet_bind_gets. apply quiet_try; [|intros ?; quiet].
      cbv zeta. apply quiet_bind_gets. cbv beta delta [id]. rewrite Hc. cbn [negb].
      unfold BotInstance._call_agent, BotInstance.say. quiet. }
    change (quiet_at b (BotInstance.dispatch re_sub kind event o)).
    destruct kind; simpl; [apply Hh|].
    unfold BotInstance.handle_message. apply quiet_bind_gets.
    repeat match goal with
           | |- quiet_at _ (if ?x then _ else _) => destruct x
           end; first [apply Hh | apply quiet_ret].
Qed.

(** ** The handlers: mentions *)

Section MentionForwarding.

Variable re_sub : string → string → string → exn + string.

(** [re.sub] with the empty replacement removes the occurrences of a
    non-empty pattern without special characters; nothing else is
    assumed of it. *)
Hypothesis re_sub_removes : ∀ pattern text,
  pattern ≠ "" →
  re_literal pattern = true →
  re_sub pattern "" text = inr (str_replace pattern "" text).

(** X19. A mention is forwarded without the mentions of the
    connection's own identity and without the blanks around what is
    left: the request carries that cleaned text, and the reply, when
    truthy, goes once into the thread of the mention. *)
Theorem mention_forwards_cleaned_text (event : Event) (o : BotInstance.Answers)
    (b : BotInstance.t) (user_id : string) (data reply : json) :
  resolved_identity b o = Some user_id →
  user_id ≠ "" →
  re_literal (BotInstance.mention_token user_id) = true →
  truthy_str (strip (str_replace (BotInstance.mention_token user_id) ""
                       (default "" (ev_text event)))) = true →
  BotInstance.http o = BotInstance.Body data →
  BotInstance.extract_reply data = inr reply →
  BotInstance.say_reply o = BotInstance.SayOk →
  result_of (BotInstance._handle_message re_sub event true o b) = inr tt
  ∧ trace_of (BotInstance._handle_message re_sub event true o b)
    = lookup_trace b
      ++ [LogInfo ("Bot " +:+ BotInstance.bot_id b +:+ " received message: "
                   +:+ take_str 50
                         (strip (str_replace (BotInstance.mention_token user_id) ""
                                   (default "" (ev_text event))))
                   +:+ "...");
          Post (BotInstance.agent_url b)
            (mkPayload
               (strip (str_replace (BotInstance.mention_token user_id) ""
                         (default "" (ev_text event))))
               (ev_user event) (ev_channel event)
               (py_or (ev_thread_ts event) (ev_ts event)) (BotInstance.bot_id b))]
      ++ (if truthy reply
          then [Say reply (py_or (ev_thread_ts event) (ev_ts event));
                LogInfo ("Bot " +:+ BotInstance.bot_id b +:+ " sent response")]
          else []).
Proof.
  intros Hid Hne Hlit Htext Hhttp Hreply Hsay.
  assert (Hsub := re_sub_removes (BotInstance.mention_token user_id)
                    (default "" (ev_text event))
                    (mention_token_nonempty user_id) Hlit).
  unfold resolved_identity, lookup_trace in *.
  unfold BotInstance._handle_message, BotInstance.say,
    bind, gets, try_except, emit, modify, raise, ret.
  cbn -[truthy_str BotInstance._call_agent truthy take_str String.append strip
        str_replace BotInstance.mention_token].
  rewrite Hhttp, Hsay.
  destruct (truthy_opt (BotInstance.bot_user_id b)) eqn:Hc.
  - cbn -[truthy_str BotInstance._call_agent truthy take_str String.append strip
          str_replace BotInstance.mention_token].
    rewrite Hc, Hid.
    cbn -[truthy_str BotInstance._call_agent truthy take_str String.append strip
          str_replace BotInstance.mention_token].
    rewrite Hsub.
    cbn -[truthy_str BotInstance._call_agent truthy take_str String.append strip
          str_replace BotInstance.mention_token].
    rewrite Htext.
    cbn -[truthy_str BotInstance._call_agent truthy take_str String.append strip
          str_replace BotInstance.mention_token].
    rewrite (call_agent_success _ _ _ _ _ _ _ Hreply).
    destruct (truthy reply); split; reflexivity.
  - destruct (BotInstance.auth o) as [e1|uid]; [discriminate|].
    injection Hid as ->.
    cbn -[truthy_str BotInstance._call_agent truthy take_str String.append strip
          str_replace BotInstance.mention_token].
    rewrite (truthy_str_ne _ Hne).
    cbn -[truthy_str BotInstance._call_agent truthy take_str String.append strip
          str_replace BotInstance.mention_token].
    rewrite Hsub.
    cbn -[truthy_str BotInstance._call_agent truthy take_str String.append strip
          str_replace BotInstance.mention_token].
    rewrite Htext.
    cbn -[truthy_str BotInstance._call_agent truthy take_str String.append strip
          str_replace BotInstance.mention_token].
    rewrite (call_agent_success _ _ _ _ _ _ _ Hreply).
    destruct (truthy reply); split; reflexivity.
Qed.

End MentionForwarding.

Lemma mention_forwards_cleaned_text_witness :
  (∀ pattern text, pattern ≠ "" → re_literal pattern = true →
     re_sub_plain pattern "" text = inr (str_replace pattern "" text))
  ∧ re_sub_plain "<@U123>" "" (default "" (ev_text asking_mention))
    = inr (str_replace "<@U123>" "" (default "" (ev_text asking_mention)))
  ∧ resolved_identity sample_bot replying_answers = Some "U123"
  ∧ "U123" ≠ ""
  ∧ re_literal (BotInstance.mention_token "U123") = true
  ∧ strip (str_replace (BotInstance.mention_token "U123") ""
             (default "" (ev_text asking_mention))) = "what is the status?"
  ∧ truthy_str (strip (str_replace (BotInstance.mention_token "U123") ""
                         (default "" (ev_text asking_mention)))) = true
  ∧ BotInstance.http replying_answers = BotInstance.Body (JObj [("response", JStr "hi")])
  ∧ BotInstance.extract_reply (JObj [("response", JStr "hi")]) = inr (JStr "hi")
  ∧ BotInstance.say_reply replying_answers = BotInstance.SayOk
  ∧ result_of (BotInstance._handle_message re_sub_plain asking_mention true
                 replying_answers sample_bot) = inr tt
  ∧ trace_of (BotInstance._handle_message re_sub_plain asking_mention true
                replying_answers sample_bot)
    = lookup_trace sample_bot
      ++ [LogInfo ("Bot " +:+ BotInstance.bot_id sample_bot +:+ " received message: "
                   +:+ take_str 50
                         (strip (str_replace (BotInstance.mention_token "U123") ""
                                   (default "" (ev_text asking_mention))))
                   +:+ "...");
          Post (BotInstance.agent_url sample_bot)
            (mkPayload
               (strip (str_replace (BotInstance.mention_token "U123") ""
                         (default "" (ev_text asking_mention))))
               (ev_user asking_mention) (ev_channel asking_mention)
               (py_or (ev_thread_ts asking_mention) (ev_ts asking_mention))
               (BotInstance.bot_id sample_bot))]
      ++ (if truthy (JStr "hi")
          then [Say (JStr "hi") (py_or (ev_thread_ts asking_mention) (ev_ts asking_mention));
                LogInfo ("Bot " +:+ BotInstance.bot_id sample_bot +:+ " sent response")]
          else []).
Proof.
  assert (H0 : ∀ pattern text, pattern ≠ "" → re_literal pattern = true →
                 re_sub_plain pattern "" text = inr (str_replace pattern "" text))
    by (intros; reflexivity).
  assert (H2 : "U123" ≠ "") by discriminate.
  assert (H3 : re_literal (BotInstance.mention_token "U123") = true)
    by (vm_compute; reflexivity).
  assert (H4 : strip (str_replace (BotInstance.mention_token "U123") ""
                        (default "" (ev_text asking_mention))) = "what is the status?")
    by (vm_compute; reflexivity).
  assert (H5 : truthy_str (strip (str_replace (BotInstance.mention_token "U123") ""
                                    (default "" (ev_text asking_mention)))) = true)
    by (vm_compute; reflexivity).
  exact (conj H0 (conj eq_refl (conj eq_refl (conj H2 (conj H3 (conj H4 (conj H5
    (conj eq_refl (conj eq_refl (conj eq_refl
    (mention_forwards_cleaned_text re_sub_plain H0 asking_mention replying_answers
       sample_bot "U123" (JObj [("response", JStr "hi")]) (JStr "hi")
       eq_refl H2 H3 H5 eq_refl eq_refl eq_refl))))))))))).
Defined.

(** ** Invariants of the factory *)

Lemma same_config_refl b : same_config b b.
Proof. by split. Qed.

Lemma bot_step_refl b : bot_step b b.
Proof. split; [apply same_config_refl|done]. Qed.

Lemma bot_step_identity b b' : only_identity b b' → bot_step b b'.
Proof.
  unfold only_identity. intros ->. destruct b. split; [by split|]. done.
Qed.

Ltac setters :=
  unfold BotInstance.set_worker, BotInstance.set_running, BotInstance.set_workers,
    BotInstance.set_thread, BotInstance.set_app, BotInstance.set_handler,
    BotInstance.set_bot_user_id in *;
  cbn in *.

Lemma bot_wf_spawn id tok atok sec url ch ap ap' h th uid ws w :
  bot_wf (BotInstance.mk id tok atok sec url ch ap h th false uid ws) →
  bot_wf (BotInstance.mk id tok atok sec url ch ap' h (Some (length ws)) false uid
            (ws ++ [w])).
Proof.
  intros (Hrun & Hh & Hth). simpl in *. split; [done|]. split; simpl.
  - intros h0 Hh0. specialize (Hh h0 Hh0). rewrite length_app. simpl. lia.
  - rewrite length_app. simpl. lia.
Qed.

Lemma bot_step_start b o : bot_step b (state_of (BotInstance.start o b)).
Proof.
  destruct b as [id tok atok sec url ch ap h th r uid ws].
  unfold state_of, BotInstance.start, bind, gets. simpl.
  destruct r; [apply bot_step_refl|].
  destruct o; unfold try_except, bind, modify, raise, emit, ret, BotInstance.new_thread;
    setters.
  - apply bot_step_refl.
  - split; [split; reflexivity|]. apply bot_wf_spawn.
  - split; [split; reflexivity|]. apply bot_wf_spawn.
Qed.

Lemma bot_step_stop b o : bot_step b (state_of (BotInstance.stop o b)).
Proof.
  destruct b as [id tok atok sec url ch ap h th r uid ws].
  unfold state_of, BotInstance.stop, bind, gets. simpl.
  destruct r; [|apply bot_step_refl]. simpl.
  unfold try_except, bind, modify, raise, emit, ret, BotInstance.close_handler,
    BotInstance.set_worker. simpl.
  destruct h as [h|]; [destruct o|]; setters; try apply bot_step_refl.
  - destruct (ws !! BotInstance.h_worker h) as [[]|]; setters;
      (split; [split; reflexivity|]); intros (Hrun & Hh & Hth); cbn in *;
      (split; [done|]); cbn;
      (split; [|first [done | destruct th; cbn in *;
                              [by rewrite length_insert | by subst]]]);
      cbn; intros h0 Hh0; rewrite ?length_insert; by apply Hh.
  - split; [split; reflexivity|]. intros (Hrun & Hh & Hth). cbn in *. done.
Qed.

Lemma bot_step_run b i o : bot_step b (state_of (BotInstance.run_bot i o b)).
Proof.
  destruct b as [id tok atok sec url ch ap h th r uid ws].
  unfold state_of, BotInstance.run_bot, bind, gets. simpl.
  destruct (ws !! i) as [w|] eqn:Hi; [|apply bot_step_refl].
  pose proof (lookup_lt_Some _ _ _ Hi) as Hlt.
  destruct w; try apply bot_step_refl.
  unfold bind, modify, emit, BotInstance.set_worker.
  destruct o; setters; (split; [split; reflexivity|]); intros (Hrun & Hh & Hth);
    cbn in *;
    (split; [cbn; eauto|]); cbn;
    (split; [|destruct th; cbn in *; [by rewrite length_insert | by subst]]);
    cbn; intros h0 Hh0; rewrite ?length_insert; simplify_eq; simpl; eauto.
Qed.

(** Replacing bots by later stages of themselves, with heap, disk and
    Store untouched, keeps the registry well formed. *)
Lemma registry_ok_update s s' :
  registry_ok s →
  BotFactory.machine s' = BotFactory.machine s →
  BotFactory.persist (BotFactory.factory s') = BotFactory.persist (BotFactory.factory s) →
  BotFactory.storage (BotFactory.factory s') = BotFactory.storage (BotFactory.factory s) →
  (∀ bot_id, option_Forall2 bot_step
               (BotFactory.bots (BotFactory.factory s) !! bot_id)
               (BotFactory.bots (BotFactory.factory s') !! bot_id)) →
  registry_ok s'.
Proof.
  intros (Hok & Hkeys & Hstore) Hm Hp Hst Hbots.
  split; [|split].
  - unfold factory_ok in *. rewrite Hst, Hm, Hp. exact Hok.
  - intros bot_id b' Hb'. specialize (Hbots bot_id). rewrite Hb' in Hbots.
    inversion Hbots as [b ? [[Hid _] Hwf] Hb|]; subst.
    destruct (Hkeys bot_id b (eq_sym Hb)) as (Hk1 & Hk2 & Hk3).
    split; [congruence|]. split; [done|]. by apply Hwf.
  - intros st bot_id b' Hpers Hsto Hb'. specialize (Hbots bot_id). rewrite Hb' in Hbots.
    inversion Hbots as [b ? [[_ Hcfg] _] Hb|]; subst.
    rewrite Hm, Hcfg. rewrite Hp in Hpers. rewrite Hst in Hsto.
    by apply Hstore.
Qed.

Lemma bots_updated_one (bs : gmap string BotInstance.t) bot_id b b' :
  bs !! bot_id = Some b → bot_step b b' →
  ∀ other, option_Forall2 bot_step (bs !! other) (<[bot_id := b']> bs !! other).
Proof.
  intros Hb Hstep other. destruct (decide (other = bot_id)) as [->|Hne].
  - rewrite lookup_insert_eq, Hb. by constructor.
  - rewrite lookup_insert_ne by done.
    destruct (bs !! other); constructor. apply bot_step_refl.
Qed.

Lemma bots_updated_all (f : string → BotInstance.t → BotInstance.t)
    (bs bs' : gmap string BotInstance.t) :
  (∀ bot_id b, bot_step b (f bot_id b)) →
  (∀ bot_id, bs' !! bot_id = f bot_id <$> bs !! bot_id) →
  ∀ bot_id, option_Forall2 bot_step (bs !! bot_id) (bs' !! bot_id).
Proof.
  intros Hf Hbs bot_id. rewrite Hbs. destruct (bs !! bot_id); constructor. apply Hf.
Qed.

Lemma chosen_id_nonempty bot_id uuid_hex : BotFactory.chosen_id bot_id uuid_hex ≠ "".
Proof.
  unfold BotFactory.chosen_id. destruct bot_id as [[|c s]|]; simpl; discriminate.
Qed.

Lemma create_bot_taken s bot_token app_token signing_secret agent_url channel_id bot_id
    uuid_hex w :
  is_Some (BotFactory.bots (BotFactory.factory s) !! BotFactory.chosen_id bot_id uuid_hex) →
  state_of (BotFactory.create_bot bot_token app_token signing_secret agent_url channel_id
              bot_id uuid_hex w s) = s.
Proof.
  intros Hin. unfold BotFactory.create_bot, bind, gets. simpl. by rewrite decide_True.
Qed.

Lemma new_bot_wf bot_id bot_token app_token signing_secret agent_url channel_id :
  bot_wf (new_bot bot_id bot_token app_token signing_secret agent_url channel_id).
Proof. split; [done|]. split; [|done]. intros h. discriminate. Qed.

Lemma registry_ok_create s bot_token app_token signing_secret agent_url channel_id bot_id
    uuid_hex w :
  registry_ok s →
  registry_ok (state_of (BotFactory.create_bot bot_token app_token signing_secret
                           agent_url channel_id bot_id uuid_hex w s)).
Proof.
  intros Hinv.
  destruct (BotFactory.bots (BotFactory.factory s)
              !! BotFactory.chosen_id bot_id uuid_hex) as [b|] eqn:Hid.
  { rewrite create_bot_taken; [done|]. rewrite Hid. eauto. }
  destruct Hinv as (Hok & Hkeys & Hstore).
  destruct (create_bot_spec s bot_token app_token signing_secret agent_url channel_id
              bot_id uuid_hex w Hok Hid)
    as (s' & tr & Hrun & Hbots & Hp & Hst & Hmem & Hsnap & Hok').
  rewrite Hrun. unfold state_of. simpl.
  split; [exact Hok'|]. split.
  - intros k b. rewrite Hbots, lookup_insert. case_decide as Hk.
    + intros [= <-]. subst k. split; [done|].
      split; [apply chosen_id_nonempty|apply new_bot_wf].
    + apply Hkeys.
  - intros st k b Hpers Hsto. rewrite Hp in Hpers. rewrite Hst in Hsto.
    destruct (Hsnap st Hpers Hsto) as [-> _].
    rewrite Hbots, !lookup_insert. case_decide as Hk.
    + by intros [= <-].
    + by apply Hstore.
Qed.

Lemma store_delete_closed st bot_id w m :
  store_closed st m → store_closed st (state_of (BotStorage.delete_bot st bot_id w m)).
Proof.
  intros [Hdict Hrecs]. unfold state_of, BotStorage.delete_bot, bind, gets. simpl.
  destruct (deref_dict (heap m) (BotStorage.configs st) !! bot_id) as [r|] eqn:Hr;
    [|done].
  unfold BotStorage._save, bind, modify, emit.
  destruct w; simpl; (split; simpl;
    [rewrite lookup_insert_eq; eauto
    |intros k l; unfold deref_dict at 1; simpl; rewrite lookup_insert_eq; simpl;
     intros Hl; apply lookup_delete_Some in Hl as [_ Hl]; by eapply Hrecs]).
Qed.

Lemma registry_ok_delete s bot_id o w :
  registry_ok s → registry_ok (state_of (BotFactory.delete_bot bot_id o w s)).
Proof.
  intros (Hok & Hkeys & Hstore).
  destruct (BotFactory.bots (BotFactory.factory s) !! bot_id) as [b|] eqn:Hb.
  2:{ unfold state_of, BotFactory.delete_bot, bind, gets. simpl.
      rewrite decide_False; [done|]. rewrite Hb. by intros [? ?]. }
  unfold state_of, BotFactory.delete_bot. unfold bind at 1. unfold gets at 1. simpl.
  rewrite decide_True by (rewrite Hb; eauto).
  unfold bind at 1. rewrite (stop_bot_registered _ _ _ _ Hb).
  destruct s as [[bs p sto] m]. unfold factory_ok in *. simpl in *.
  unfold bind, gets, modify, emit, ret, BotFactory.the_storage, BotFactory.on_machine,
    zoom, raise. simpl.
  rewrite delete_insert_eq.
  assert (Hkeys' : ∀ k b0, delete bot_id bs !! k = Some b0 →
                     BotInstance.bot_id b0 = k ∧ k ≠ "" ∧ bot_wf b0).
  { intros k b0 Hk. apply lookup_delete_Some in Hk as [_ Hk]. by apply Hkeys. }
  destruct p; [destruct sto as [st|]; [|discriminate]|].
  - pose proof (store_delete_closed st bot_id w m Hok) as Hcl.
    destruct (store_delete_spec st bot_id w m) as (m' & tr & Hdel & Hsnap & _).
    rewrite Hdel in Hcl. unfold state_of in Hcl. simpl in Hcl.
    simpl. rewrite Hdel. unfold BotFactory.set_machine, BotFactory.set_bots. simpl.
    split; [exact Hcl|]. split; [exact Hkeys'|].
    intros st' k b0 _ [= <-] Hk. simpl in *.
    apply lookup_delete_Some in Hk as [Hne Hk].
    rewrite Hsnap, lookup_delete_ne by done. by apply (Hstore st).
  - unfold BotFactory.set_machine, BotFactory.set_bots. simpl.
    split; [exact Hok|]. split; [exact Hkeys'|].
    intros st' k b0 [=].
Qed.

Lemma registry_ok_one s bot_id b b' :
  registry_ok s →
  BotFactory.bots (BotFactory.factory s) !! bot_id = Some b →
  bot_step b b' →
  registry_ok (BotFactory.set_bots (<[bot_id := b']> (BotFactory.bots (BotFactory.factory s))) s).
Proof.
  intros Hinv Hb Hstep.
  apply (registry_ok_update s); [done..|]. simpl. by apply (bots_updated_one _ _ b).
Qed.

Lemma registry_ok_all s (f : string → BotInstance.t → BotInstance.t) bs :
  registry_ok s →
  (∀ bot_id b, bot_step b (f bot_id b)) →
  (∀ bot_id, bs !! bot_id = f bot_id <$> BotFactory.bots (BotFactory.factory s) !! bot_id) →
  registry_ok (BotFactory.set_bots bs s).
Proof.
  intros Hinv Hf Hbs.
  apply (registry_ok_update s); [done..|]. simpl. by apply (bots_updated_all f).
Qed.

Lemma registry_ok_step re_sub s s' :
  registry_ok s → step re_sub s s' → registry_ok s'.
Proof.
  intros Hinv Hstep. destruct Hstep.
  - by apply registry_ok_create.
  - destruct (BotFactory.bots (BotFactory.factory s) !! bot_id) as [b|] eqn:Hb.
    + rewrite (start_bot_registered _ _ _ _ Hb).
      apply (registry_ok_one s bot_id b); [done..|apply bot_step_start].
    + by rewrite unknown_id_start.
  - destruct (BotFactory.bots (BotFactory.factory s) !! bot_id) as [b|] eqn:Hb.
    + rewrite (stop_bot_registered _ _ _ _ Hb).
      apply (registry_ok_one s bot_id b); [done..|apply bot_step_stop].
    + unfold BotFactory.stop_bot, bind, gets. simpl.
      rewrite decide_False; [done|]. rewrite Hb. by intros [? ?].
  - by apply registry_ok_delete.
  - destruct (for_all_bots (λ bot_id b, state_of (BotInstance.start (o bot_id) b))
                (λ bot_id,
                   try_except (BotFactory.start_bot bot_id (o bot_id))
                     (λ e, emit (LogError ("Failed to start bot " +:+ bot_id +:+ ": "
                                           +:+ exn_str e)))) s)
      as (bs & tr & Hrun & Hbs).
    { intros bot_id s0 b Hb. unfold try_except.
      rewrite (start_bot_registered _ _ _ _ Hb).
      destruct (result_of (BotInstance.start (o bot_id) b)); simpl; eauto. }
    unfold BotFactory.start_all, bind at 1, gets at 1. cbv beta iota zeta.
    fold (@BotFactory.for_each BotFactory.Sys string). rewrite Hrun.
    apply (registry_ok_all s (λ bot_id b, state_of (BotInstance.start (o bot_id) b)));
      [done| |done].
    intros. apply bot_step_start.
  - destruct (for_all_bots (λ bot_id b, state_of (BotInstance.stop (o bot_id) b))
                (λ bot_id,
                   try_except (BotFactory.stop_bot bot_id (o bot_id))
                     (λ e, emit (LogError ("Failed to stop bot " +:+ bot_id +:+ ": "
                                           +:+ exn_str e)))) s)
      as (bs & tr & Hrun & Hbs).
    { intros bot_id s0 b Hb. unfold try_except.
      rewrite (stop_bot_registered _ _ _ _ Hb). eauto. }
    unfold BotFactory.stop_all, bind at 1, gets at 1. cbv beta iota zeta.
    fold (@BotFactory.for_each BotFactory.Sys string). rewrite Hrun.
    apply (registry_ok_all s (λ bot_id b, state_of (BotInstance.stop (o bot_id) b)));
      [done| |done].
    intros. apply bot_step_stop.
  - destruct (BotFactory.bots (BotFactory.factory s) !! bot_id) as [b|] eqn:Hb.
    + rewrite (worker_step_registered _ _ _ _ _ Hb).
      apply (registry_ok_one s bot_id b); [done..|apply bot_step_run].
    + unfold BotFactory.worker_step, bind, gets. simpl.
      rewrite decide_False; [done|]. rewrite Hb. by intros [? ?].
  - destruct (BotFactory.bots (BotFactory.factory s) !! bot_id) as [b|] eqn:Hb.
    + rewrite (on_bot_registered _ _ _ _ Hb).
      apply (registry_ok_one s bot_id b); [done..|].
      apply bot_step_identity, cio_dispatch.
    + unfold BotFactory.on_bot. by rewrite Hb.
Qed.

Lemma registry_ok_init persist m f m' tr :
  BotFactory.__init__ persist m = (inr f, m', tr) →
  registry_ok (BotFactory.mkSys f m').
Proof.
  unfold BotFactory.__init__, bind, emit, ret. destruct persist.
  - destruct (storage_init_closed BotStorage.STORAGE_FILE m)
      as (st & m1 & tr1 & Hrun & _ & _ & _ & Hcl).
    rewrite Hrun. simpl. intros [= <- <- _].
    split; [exact Hcl|]. split; [|]; intros *; simpl; rewrite ?lookup_empty; done.
  - simpl. intros [= <- <- _].
    split; [reflexivity|]. split; [|]; intros *; simpl; rewrite ?lookup_empty; done.
Qed.

Lemma reachable_ok re_sub s : reachable re_sub s → registry_ok s.
Proof.
  induction 1 as [persist m f m' tr Hinit | s s' _ IH Hstep].
  - by eapply registry_ok_init.
  - by eapply registry_ok_step.
Qed.

Lemma kept_config (bs bs' : gmap string BotInstance.t) bot_id b b' :
  option_Forall2 bot_step (bs !! bot_id) (bs' !! bot_id) →
  bs !! bot_id = Some b → bs' !! bot_id = Some b' → same_config b b'.
Proof.
  intros H Hb Hb'. rewrite Hb, Hb' in H. inversion H as [? ? [Hc _]|]. exact Hc.
Qed.

Lemma step_keeps_config re_sub s s' bot_id b b' :
  registry_ok s → step re_sub s s' →
  BotFactory.bots (BotFactory.factory s) !! bot_id = Some b →
  BotFactory.bots (BotFactory.factory s') !! bot_id = Some b' →
  same_config b b'.
Proof.
  intros Hinv Hstep Hb.
  assert (Hsame : BotFactory.bots (BotFactory.factory s) !! bot_id = Some b' →
                  same_config b b').
  { rewrite Hb. intros [= <-]. apply same_config_refl. }
  destruct Hstep as [s tok atok sec url ch given hex w | s k o | s k o | s k o w
                    | s o | s o | s k i o | s k kind event o].
  - destruct (BotFactory.bots (BotFactory.factory s)
                !! BotFactory.chosen_id given hex) as [b0|] eqn:Hid.
    { rewrite create_bot_taken; [done|]. rewrite Hid. eauto. }
    destruct (create_bot_spec s tok atok sec url ch given hex w (proj1 Hinv) Hid)
      as (s' & tr & Hrun & Hbots & _).
    rewrite Hrun. unfold state_of. simpl. rewrite Hbots, lookup_insert_ne; [done|].
    intros <-. congruence.
  - destruct (BotFactory.bots (BotFactory.factory s) !! k) as [b0|] eqn:Hk.
    + rewrite (start_bot_registered _ _ _ _ Hk). simpl. intros Hb'.
      eapply kept_config; [|exact Hb|exact Hb'].
      apply (bots_updated_one _ _ b0); [done|apply bot_step_start].
    + by rewrite unknown_id_start.
  - destruct (BotFactory.bots (BotFactory.factory s) !! k) as [b0|] eqn:Hk.
    + rewrite (stop_bot_registered _ _ _ _ Hk). simpl. intros Hb'.
      eapply kept_config; [|exact Hb|exact Hb'].
      apply (bots_updated_one _ _ b0); [done|apply bot_step_stop].
    + unfold BotFactory.stop_bot, bind, gets. simpl.
      rewrite decide_False; [done|]. rewrite Hk. by intros [? ?].
  - destruct (BotFactory.bots (BotFactory.factory s) !! k) as [b0|] eqn:Hk.
    + destruct (delete_bot_spec s k b0 o w (proj1 Hinv) Hk)
        as (s' & tr & Hrun & Hbots & _).
      rewrite Hrun. unfold state_of. simpl. rewrite Hbots.
      intros Hd. apply lookup_delete_Some in Hd as [_ Hd]. auto.
    + unfold state_of, BotFactory.delete_bot, bind, gets. simpl.
      rewrite decide_False; [done|]. rewrite Hk. by intros [? ?].
  - destruct (for_all_bots (λ bot_id b, state_of (BotInstance.start (o bot_id) b))
                (λ bot_id,
                   try_except (BotFactory.start_bot bot_id (o bot_id))
                     (λ e, emit (LogError ("Failed to start bot " +:+ bot_id +:+ ": "
                                           +:+ exn_str e)))) s)
      as (bs & tr & Hrun & Hbs).
    { intros k s0 b0 Hk. unfold try_except.
      rewrite (start_bot_registered _ _ _ _ Hk).
      destruct (result_of (BotInstance.start (o k) b0)); simpl; eauto. }
    unfold BotFactory.start_all, bind at 1, gets at 1. cbv beta iota zeta.
    fold (@BotFactory.for_each BotFactory.Sys string). rewrite Hrun. simpl.
    intros Hb'. eapply kept_config; [|exact Hb|exact Hb'].
    apply (bots_updated_all (λ bot_id b, state_of (BotInstance.start (o bot_id) b)));
      [|done].
    intros. apply bot_step_start.
  - destruct (for_all_bots (λ bot_id b, state_of (BotInstance.stop (o bot_id) b))
                (λ bot_id,
                   try_except (BotFactory.stop_bot bot_id (o bot_id))
                     (λ e, emit (LogError ("Failed to stop bot " +:+ bot_id +:+ ": "
                                           +:+ exn_str e)))) s)
      as (bs & tr & Hrun & Hbs).
    { intros k s0 b0 Hk. unfold try_except.
      rewrite (stop_bot_registered _ _ _ _ Hk). eauto. }
    unfold BotFactory.stop_all, bind at 1, gets at 1. cbv beta iota zeta.
    fold (@BotFactory.for_each BotFactory.Sys string). rewrite Hrun. simpl.
    intros Hb'. eapply kept_config; [|exact Hb|exact Hb'].
    apply (bots_updated_all (λ bot_id b, state_of (BotInstance.stop (o bot_id) b)));
      [|done].
    intros. apply bot_step_stop.
  - destruct (BotFactory.bots (BotFactory.factory s) !! k) as [b0|] eqn:Hk.
    + rewrite (worker_step_registered _ _ _ _ _ Hk). simpl. intros Hb'.
      eapply kept_config; [|exact Hb|exact Hb'].
      apply (bots_updated_one _ _ b0); [done|apply bot_step_run].
    + unfold BotFactory.worker_step, bind, gets. simpl.
      rewrite decide_False; [done|]. rewrite Hk. by intros [? ?].
  - destruct (BotFactory.bots (BotFactory.factory s) !! k) as [b0|] eqn:Hk.
    + rewrite (on_bot_registered _ _ _ _ Hk). simpl. intros Hb'.
      eapply kept_config; [|exact Hb|exact Hb'].
      apply (bots_updated_one _ _ b0); [done|apply bot_step_identity, cio_dispatch].
    + unfold BotFactory.on_bot. by rewrite Hk.
Qed.

Lemma reachable_booted re_sub : reachable re_sub booted.
Proof. by apply (reach_init re_sub true empty_machine _ _ [LogInfo "Bot Factory initialized"]). Qed.

Lemma reachable_registered_c1 re_sub : reachable re_sub registered_c1.
Proof. eapply reach_step; [apply reachable_booted|apply step_create]. Qed.

Lemma reachable_started_c1 re_sub : reachable re_sub started_c1.
Proof. eapply reach_step; [apply reachable_registered_c1|apply step_start]. Qed.

Lemma reachable_running_c1 re_sub : reachable re_sub running_c1.
Proof. eapply reach_step; [apply reachable_started_c1|apply step_worker]. Qed.

(** X20. In every state the factory can get to, a connection is
    registered under its own [bot_id], and that id is not the empty
    string. *)
Theorem registered_under_own_id re_sub (s : BotFactory.Sys) (bot_id : string)
    (b : BotInstance.t) :
  reachable re_sub s →
  BotFactory.bots (BotFactory.factory s) !! bot_id = Some b →
  BotInstance.bot_id b = bot_id ∧ bot_id ≠ "".
Proof.
  intros Hreach Hb. apply reachable_ok in Hreach as (_ & Hkeys & _).
  destruct (Hkeys bot_id b Hb) as (? & ? & _). done.
Qed.

Lemma registered_under_own_id_witness :
  reachable re_sub_plain running_c1
  ∧ (∃ b, BotFactory.bots (BotFactory.factory running_c1) !! "c1" = Some b
          ∧ BotInstance.bot_id b = "c1" ∧ "c1" ≠ "").
Proof.
  split; [apply reachable_running_c1|].
  eexists. split; [vm_compute; reflexivity|].
  apply (registered_under_own_id re_sub_plain running_c1 "c1");
    [apply reachable_running_c1 | vm_compute; reflexivity].
Defined.



(** X22. In every state the factory can get to, a connection that says
    it is running has a handler; a handler belongs to one of the threads
    the connection has started; and [thread] is the thread started
    last. *)
Theorem reachable_bots_well_formed re_sub (s : BotFactory.Sys) (bot_id : string)
    (b : BotInstance.t) :
  reachable re_sub s →
  BotFactory.bots (BotFactory.factory s) !! bot_id = Some b →
  (BotInstance.running b = true → is_Some (BotInstance.handler b))
  ∧ (∀ h, BotInstance.handler b = Some h →
          is_Some (BotInstance.workers b !! BotInstance.h_worker h))
  ∧ BotInstance.thread b = pred <$> (if BotInstance.workers b is [] then None
                                      else Some (length (BotInstance.workers b))).
Proof.
  intros Hreach Hb. apply reachable_ok in Hreach as (_ & Hkeys & _).
  destruct (Hkeys bot_id b Hb) as (_ & _ & Hrun & Hh & Hth).
  split; [done|]. split.
  - intros h Hhb. apply lookup_lt_is_Some. by apply Hh.
  - destruct (BotInstance.thread b) as [n|].
    + destruct (BotInstance.workers b); simpl in *; [done|]. by inversion Hth.
    + by rewrite Hth.
Qed.

Lemma reachable_bots_well_formed_witness :
  reachable re_sub_plain running_c1
  ∧ ∃ b, BotFactory.bots (BotFactory.factory running_c1) !! "c1" = Some b
         ∧ (BotInstance.running b = true → is_Some (BotInstance.handler b))
         ∧ (∀ h, BotInstance.handler b = Some h →
                 is_Some (BotInstance.workers b !! BotInstance.h_worker h))
         ∧ BotInstance.thread b = pred <$> (if BotInstance.workers b is [] then None
                                             else Some (length (BotInstance.workers b))).
Proof.
  split; [apply reachable_running_c1|].
  eexists. split; [vm_compute; reflexivity|].
  apply (reachable_bots_well_formed re_sub_plain running_c1 "c1");
    [apply reachable_running_c1 | vm_compute; reflexivity].
Defined.

(** X23. No operation of the factory, no worker and no event changes the
    id or the configuration of a registered connection: as long as an id
    stays registered, its connection keeps the five fields it was
    created with. *)
Theorem step_preserves_config re_sub (s s' : BotFactory.Sys) (bot_id : string)
    (b b' : BotInstance.t) :
  reachable re_sub s → step re_sub s s' →
  BotFactory.bots (BotFactory.factory s) !! bot_id = Some b →
  BotFactory.bots (BotFactory.factory s') !! bot_id = Some b' →
  BotInstance.bot_id b' = BotInstance.bot_id b
  ∧ BotInstance.bot_token b' = BotInstance.bot_token b
  ∧ BotInstance.app_token b' = BotInstance.app_token b
  ∧ BotInstance.signing_secret b' = BotInstance.signing_secret b
  ∧ BotInstance.agent_url b' = BotInstance.agent_url b
  ∧ BotInstance.channel_id b' = BotInstance.channel_id b.
Proof.
  intros Hreach Hstep Hb Hb'. apply reachable_ok in Hreach.
  destruct (step_keeps_config re_sub s s' bot_id b b' Hreach Hstep Hb Hb')
    as [Hid Hcfg].
  destruct b, b'. unfold config_of, BotStorage.config_record in Hcfg. simpl in *.
  split; [done|].
  pose proof (f_equal (.!! "bot_token") Hcfg) as H1.
  pose proof (f_equal (.!! "app_token") Hcfg) as H2.
  pose proof (f_equal (.!! "signing_secret") Hcfg) as H3.
  pose proof (f_equal (.!! "agent_url") Hcfg) as H4.
  pose proof (f_equal (.!! "channel_id") Hcfg) as H5.
  vm_compute in H1, H2, H3, H4, H5.
  repeat split; congruence.
Qed.

Lemma step_preserves_config_witness :
  reachable re_sub_plain started_c1
  ∧ step re_sub_plain started_c1 running_c1
  ∧ ∃ b b', BotFactory.bots (BotFactory.factory started_c1) !! "c1" = Some b
            ∧ BotFactory.bots (BotFactory.factory running_c1) !! "c1" = Some b'
            ∧ BotInstance.bot_id b' = BotInstance.bot_id b
            ∧ BotInstance.bot_token b' = BotInstance.bot_token b
            ∧ BotInstance.app_token b' = BotInstance.app_token b
            ∧ BotInstance.signing_secret b' = BotInstance.signing_secret b
            ∧ BotInstance.agent_url b' = BotInstance.agent_url b
            ∧ BotInstance.channel_id b' = BotInstance.channel_id b.
Proof.
  split; [apply reachable_started_c1|]. split; [apply step_worker|].
  eexists _, _. split; [vm_compute; reflexivity|]. split; [vm_compute; reflexivity|].
  apply (step_preserves_config re_sub_plain started_c1 running_c1 "c1");
    [apply reachable_started_c1 | apply step_worker
    | vm_compute; reflexivity | vm_compute; reflexivity].
Defined.

(** ** The REST endpoints *)

Lemma start_all_run (o : string → BotInstance.StartOutcome) (s : BotFactory.Sys) :
  ∃ bs tr,
    BotFactory.start_all o s = (inr tt, BotFactory.set_bots bs s, tr)
    ∧ ∀ bot_id, bs !! bot_id
                = (λ b, state_of (BotInstance.start (o bot_id) b))
                    <$> BotFactory.bots (BotFactory.factory s) !! bot_id.
Proof.
  destruct (for_all_bots (λ bot_id b, state_of (BotInstance.start (o bot_id) b))
              (λ bot_id,
                 try_except (BotFactory.start_bot bot_id (o bot_id))
                   (λ e, emit (LogError ("Failed to start bot " +:+ bot_id +:+ ": "
                                         +:+ exn_str e)))) s)
    as (bs & tr & Hrun & Hbs).
  { intros bot_id s0 b Hb. unfold try_except.
    rewrite (start_bot_registered _ _ _ _ Hb).
    destruct (result_of (BotInstance.start (o bot_id) b)); simpl; eauto. }
  exists bs, tr. split; [|done].
  unfold BotFactory.start_all, bind at 1, gets at 1. cbv beta iota zeta.
  fold (@BotFactory.for_each BotFactory.Sys string). by rewrite Hrun.
Qed.

Lemma stop_all_run (o : string → BotInstance.CloseOutcome) (s : BotFactory.Sys) :
  ∃ bs tr,
    BotFactory.stop_all o s = (inr tt, BotFactory.set_bots bs s, tr)
    ∧ ∀ bot_id, bs !! bot_id
                = (λ b, state_of (BotInstance.stop (o bot_id) b))
                    <$> BotFactory.bots (BotFactory.factory s) !! bot_id.
Proof.
  destruct (for_all_bots (λ bot_id b, state_of (BotInstance.stop (o bot_id) b))
              (λ bot_id,
                 try_except (BotFactory.stop_bot bot_id (o bot_id))
                   (λ e, emit (LogError ("Failed to stop bot " +:+ bot_id +:+ ": "
                                         +:+ exn_str e)))) s)
    as (bs & tr & Hrun & Hbs).
  { intros bot_id s0 b Hb. unfold try_except.
    rewrite (stop_bot_registered _ _ _ _ Hb). eauto. }
  exists bs, tr. split; [|done].
  unfold BotFactory.stop_all, bind at 1, gets at 1. cbv beta iota zeta.
  fold (@BotFactory.for_each BotFactory.Sys string). by rewrite Hrun.
Qed.

Lemma missing_fields_spec (data : ApiService.CreateBody) (field : string) :
  field ∈ ApiService.missing_fields data
  ↔ ∃ value, (field, value) ∈ ApiService.required_fields data
             ∧ truthy_opt value = false.
Proof.
  unfold ApiService.missing_fields. rewrite list_elem_of_fmap. split.
  - intros [[f v] [-> Hin]]. apply list_elem_of_In, filter_In in Hin as [Hin Hv].
    exists v. split; [by apply list_elem_of_In|]. simpl in Hv. by destruct (truthy_opt v).
  - intros (v & Hin & Hv). exists (field, v). split; [done|].
    apply list_elem_of_In, filter_In. split; [by apply list_elem_of_In|].
    simpl. by rewrite Hv.
Qed.

Lemma complete_body (data : ApiService.CreateBody) :
  ApiService.missing_fields data = [] →
  truthy_opt (ApiService.bot_token data) = true
  ∧ truthy_opt (ApiService.app_token data) = true
  ∧ truthy_opt (ApiService.signing_secret data) = true
  ∧ truthy_opt (ApiService.agent_url data) = true.
Proof.
  unfold ApiService.missing_fields, ApiService.required_fields. simpl.
  destruct (truthy_opt (ApiService.bot_token data)); [|discriminate].
  destruct (truthy_opt (ApiService.app_token data)); [|discriminate].
  destruct (truthy_opt (ApiService.signing_secret data)); [|discriminate].
  destruct (truthy_opt (ApiService.agent_url data)); [|discriminate].
  done.
Qed.

(** X24. [POST /bots] with one of the four required fields absent,
    [null] or empty answers 400 with a message that names the field; the
    factory is not called and nothing is logged. *)
Theorem api_create_missing_field (data : ApiService.CreateBody) (field : string)
    (value : option string) (uuid_hex : string) (w : BotStorage.WriteOutcome)
    (o : BotInstance.StartOutcome) (s : BotFactory.Sys) :
  (field, value) ∈ ApiService.required_fields data →
  truthy_opt value = false →
  ∃ missing,
    field ∈ missing
    ∧ ApiService.create_bot (inr data) uuid_hex w o s
      = (inr (ApiService.error
                ("Missing required fields: " +:+ String.concat ", " missing) 400),
         s, []).
Proof.
  intros Hin Hv. exists (ApiService.missing_fields data).
  assert (Hm : field ∈ ApiService.missing_fields data)
    by (apply missing_fields_spec; eauto).
  split; [done|].
  unfold ApiService.create_bot, ApiService.guarded, try_except, bind, ret.
  destruct (ApiService.missing_fields data) as [|f fs] eqn:Hmiss; [|done].
  by apply elem_of_nil in Hm.
Qed.

Lemma api_create_missing_field_witness :
  ("agent_url", Some "") ∈ ApiService.required_fields incomplete_body
  ∧ truthy_opt (Some "") = false
  ∧ ∃ missing,
      "agent_url" ∈ missing
      ∧ ApiService.create_bot (inr incomplete_body) "" BotStorage.WriteOk
          BotInstance.Started booted
        = (inr (ApiService.error
                  ("Missing required fields: " +:+ String.concat ", " missing) 400),
           booted, []).
Proof.
  assert (Hin : ("agent_url", Some "") ∈ ApiService.required_fields incomplete_body)
    by (unfold ApiService.required_fields, incomplete_body; simpl;
        do 3 apply list_elem_of_further; apply list_elem_of_here).
  split; [exact Hin|]. split; [reflexivity|].
  apply (api_create_missing_field incomplete_body "agent_url" (Some "") ""
           BotStorage.WriteOk BotInstance.Started booted Hin).
  reflexivity.
Defined.

Lemma create_bot_taken_run s bot_token app_token signing_secret agent_url channel_id
    bot_id uuid_hex w :
  is_Some (BotFactory.bots (BotFactory.factory s) !! BotFactory.chosen_id bot_id uuid_hex) →
  BotFactory.create_bot bot_token app_token signing_secret agent_url channel_id
    bot_id uuid_hex w s
  = (inl (BotFactory.AlreadyExists (BotFactory.chosen_id bot_id uuid_hex)), s, []).
Proof.
  intros Hin. unfold BotFactory.create_bot, bind, gets. simpl. by rewrite decide_True.
Qed.

(** X25. [POST /bots] with a complete body whose id is registered
    answers 400 with the factory's message, and changes nothing: the
    [ValueError] of [create_bot] is the only thing that happened. *)
Theorem api_create_duplicate (data : ApiService.CreateBody) (uuid_hex : string)
    (w : BotStorage.WriteOutcome) (o : BotInstance.StartOutcome)
    (s : BotFactory.Sys) (b : BotInstance.t) :
  ApiService.missing_fields data = [] →
  BotFactory.bots (BotFactory.factory s)
    !! BotFactory.chosen_id (ApiService.bot_id data) uuid_hex = Some b →
  ApiService.create_bot (inr data) uuid_hex w o s
  = (inr (ApiService.error
            ("Bot " +:+ BotFactory.chosen_id (ApiService.bot_id data) uuid_hex
             +:+ " already exists") 400),
     s, []).
Proof.
  intros Hmiss Hb.
  unfold ApiService.create_bot, ApiService.guarded, try_except.
  unfold bind at 1. unfold ret at 1. rewrite Hmiss. unfold bind at 1.
  rewrite create_bot_taken_run by (rewrite Hb; eauto). reflexivity.
Qed.

Lemma api_create_duplicate_witness :
  ApiService.missing_fields sample_body = []
  ∧ BotFactory.bots (BotFactory.factory registered_c1)
      !! BotFactory.chosen_id (ApiService.bot_id sample_body) "" = Some sample_bot
  ∧ ApiService.create_bot (inr sample_body) "" BotStorage.WriteOk BotInstance.Started
      registered_c1
    = (inr (ApiService.error
              ("Bot " +:+ BotFactory.chosen_id (ApiService.bot_id sample_body) ""
               +:+ " already exists") 400),
       registered_c1, []).
Proof.
  split; [reflexivity|]. split; [vm_compute; reflexivity|].
  apply (api_create_duplicate sample_body "" BotStorage.WriteOk BotInstance.Started
           registered_c1 sample_bot); [reflexivity | vm_compute; reflexivity].
Defined.

(** X26. For an id that is not registered, the start and stop endpoints
    answer 404 with the factory's message, [GET /bots/<id>] answers 404,
    and [DELETE /bots/<id>] answers 200 "deleted"; none of them changes
    the state or logs anything. *)
Theorem api_unknown_id (s : BotFactory.Sys) (bot_id : string)
    (os : BotInstance.StartOutcome) (oc : BotInstance.CloseOutcome)
    (w : BotStorage.WriteOutcome) :
  BotFactory.bots (BotFactory.factory s) !! bot_id = None →
  ApiService.start_bot bot_id os s
  = (inr (ApiService.error ("Bot " +:+ bot_id +:+ " not found") 404), s, [])
  ∧ ApiService.stop_bot bot_id oc s
    = (inr (ApiService.error ("Bot " +:+ bot_id +:+ " not found") 404), s, [])
  ∧ ApiService.get_bot bot_id s = (inr (ApiService.error "Bot not found" 404), s, [])
  ∧ ApiService.delete_bot bot_id oc w s
    = (inr (<["bot_id" := JStr bot_id]> (<["status" := JStr "deleted"]> ∅), 200), s, []).
Proof.
  intros Hnone.
  assert (Hdec : ¬ is_Some (BotFactory.bots (BotFactory.factory s) !! bot_id))
    by (rewrite Hnone; by intros [? ?]).
  repeat split.
  - unfold ApiService.start_bot, ApiService.guarded, try_except, bind at 1.
    by rewrite (unknown_id_start _ _ _ Hnone).
  - unfold ApiService.stop_bot, ApiService.guarded, try_except, bind at 1.
    unfold BotFactory.stop_bot, bind, gets. simpl. by rewrite decide_False.
  - unfold ApiService.get_bot, ApiService.guarded, try_except, bind,
      BotFactory.list_bots, gets. simpl. by rewrite lookup_fmap, Hnone.
  - unfold ApiService.delete_bot, ApiService.guarded, try_except, bind at 1.
    unfold BotFactory.delete_bot, bind, gets. simpl. by rewrite decide_False.
Qed.

Lemma api_unknown_id_witness :
  BotFactory.bots (BotFactory.factory registered_c1) !! "c2" = None
  ∧ ApiService.start_bot "c2" BotInstance.Started registered_c1
    = (inr (ApiService.error ("Bot " +:+ "c2" +:+ " not found") 404), registered_c1, [])
  ∧ ApiService.stop_bot "c2" BotInstance.CloseOk registered_c1
    = (inr (ApiService.error ("Bot " +:+ "c2" +:+ " not found") 404), registered_c1, [])
  ∧ ApiService.get_bot "c2" registered_c1
    = (inr (ApiService.error "Bot not found" 404), registered_c1, [])
  ∧ ApiService.delete_bot "c2" BotInstance.CloseOk BotStorage.WriteOk registered_c1
    = (inr (<["bot_id" := JStr "c2"]> (<["status" := JStr "deleted"]> ∅), 200),
       registered_c1, []).
Proof.
  split; [vm_compute; reflexivity|].
  apply (api_unknown_id registered_c1 "c2" BotInstance.Started BotInstance.CloseOk
           BotStorage.WriteOk).
  vm_compute; reflexivity.
Defined.

Lemma same_config_fields (b b' : BotInstance.t) :
  same_config b b' →
  BotInstance.bot_id b' = BotInstance.bot_id b
  ∧ BotInstance.bot_token b' = BotInstance.bot_token b
  ∧ BotInstance.app_token b' = BotInstance.app_token b
  ∧ BotInstance.signing_secret b' = BotInstance.signing_secret b
  ∧ BotInstance.agent_url b' = BotInstance.agent_url b
  ∧ BotInstance.channel_id b' = BotInstance.channel_id b.
Proof.
  intros [Hid Hcfg].
  destruct b, b'. unfold config_of, BotStorage.config_record in Hcfg. simpl in *.
  split; [done|].
  pose proof (f_equal (.!! "bot_token") Hcfg) as H1.
  pose proof (f_equal (.!! "app_token") Hcfg) as H2.
  pose proof (f_equal (.!! "signing_secret") Hcfg) as H3.
  pose proof (f_equal (.!! "agent_url") Hcfg) as H4.
  pose proof (f_equal (.!! "channel_id") Hcfg) as H5.
  vm_compute in H1, H2, H3, H4, H5.
  repeat split; congruence.
Qed.

Lemma start_new_bot_fails o e bot_id bot_token app_token signing_secret agent_url
    channel_id :
  o = BotInstance.AppRaises e ∨ o = BotInstance.ThreadRaises e →
  ∃ b' tr,
    BotInstance.start o
      (new_bot bot_id bot_token app_token signing_secret agent_url channel_id)
    = (inl e, b', tr)
    ∧ same_config (new_bot bot_id bot_token app_token signing_secret agent_url channel_id) b'
    ∧ BotInstance.running b' = false.
Proof.
  intros [-> | ->]; eexists _, _; (split; [reflexivity|]); split;
    try reflexivity; split; reflexivity.
Qed.

(** X27. [POST /bots] with a complete body, a fresh id and
    [auto_start], when the start raises: the answer is an error (400 for
    a [ValueError], 500 otherwise), and yet the connection has been
    created: it is registered, not running, under the id the answer does
    not give. *)
Theorem api_auto_start_failure (data : ApiService.CreateBody) (uuid_hex : string)
    (w : BotStorage.WriteOutcome) (o : BotInstance.StartOutcome) (e : exn)
    (s : BotFactory.Sys) :
  factory_ok s →
  ApiService.missing_fields data = [] →
  BotFactory.bots (BotFactory.factory s)
    !! BotFactory.chosen_id (ApiService.bot_id data) uuid_hex = None →
  truthy (default (JBool false) (ApiService.auto_start data)) = true →
  o = BotInstance.AppRaises e ∨ o = BotInstance.ThreadRaises e →
  ∃ s' tr b',
    ApiService.create_bot (inr data) uuid_hex w o s
    = (inr (match e with
            | ValueError msg => ApiService.error msg 400
            | External _ => ApiService.error "Internal server error" 500
            end), s', tr)
    ∧ BotFactory.bots (BotFactory.factory s')
        !! BotFactory.chosen_id (ApiService.bot_id data) uuid_hex = Some b'
    ∧ BotInstance.bot_id b' = BotFactory.chosen_id (ApiService.bot_id data) uuid_hex
    ∧ BotInstance.agent_url b' = default "" (ApiService.agent_url data)
    ∧ BotInstance.running b' = false.
Proof.
  intros Hok Hmiss Hfresh Hauto Ho.
  destruct (create_bot_spec s (default "" (ApiService.bot_token data))
              (default "" (ApiService.app_token data))
              (default "" (ApiService.signing_secret data))
              (default "" (ApiService.agent_url data)) (ApiService.channel_id data)
              (ApiService.bot_id data) uuid_hex w Hok Hfresh)
    as (s1 & tr1 & Hrun & Hbots & _).
  destruct (start_new_bot_fails o e
              (BotFactory.chosen_id (ApiService.bot_id data) uuid_hex)
              (default "" (ApiService.bot_token data))
              (default "" (ApiService.app_token data))
              (default "" (ApiService.signing_secret data))
              (default "" (ApiService.agent_url data)) (ApiService.channel_id data) Ho)
    as (b' & tr2 & Hstart & Hsame & Hrunning).
  apply same_config_fields in Hsame as (Hid & _ & _ & _ & Hurl & _). simpl in Hid, Hurl.
  assert (Hreg : BotFactory.bots (BotFactory.factory s1)
                   !! BotFactory.chosen_id (ApiService.bot_id data) uuid_hex
                 = Some (new_bot (BotFactory.chosen_id (ApiService.bot_id data) uuid_hex)
                           (default "" (ApiService.bot_token data))
                           (default "" (ApiService.app_token data))
                           (default "" (ApiService.signing_secret data))
                           (default "" (ApiService.agent_url data))
                           (ApiService.channel_id data)))
    by (rewrite Hbots; apply lookup_insert_eq).
  pose proof (start_bot_registered _ o _ _ Hreg) as Hsb.
  rewrite Hstart in Hsb. unfold result_of, state_of, trace_of in Hsb. simpl in Hsb.
  unfold ApiService.create_bot, ApiService.guarded, try_except.
  unfold bind at 1. unfold ret at 1. rewrite Hmiss. unfold bind at 1.
  rewrite Hrun. rewrite Hauto. unfold bind at 1. rewrite Hsb.
  destruct e as [msg|msg]; eexists _, _, b'; (split; [reflexivity|]); simpl;
    by rewrite lookup_insert_eq.
Qed.

Lemma api_auto_start_failure_witness :
  factory_ok booted
  ∧ ApiService.missing_fields sample_body = []
  ∧ BotFactory.bots (BotFactory.factory booted)
      !! BotFactory.chosen_id (ApiService.bot_id sample_body) "" = None
  ∧ truthy (default (JBool false) (ApiService.auto_start sample_body)) = true
  ∧ ∃ s' tr b',
      ApiService.create_bot (inr sample_body) "" BotStorage.WriteOk
        (BotInstance.AppRaises (External "invalid_auth")) booted
      = (inr (ApiService.error "Internal server error" 500), s', tr)
      ∧ BotFactory.bots (BotFactory.factory s')
          !! BotFactory.chosen_id (ApiService.bot_id sample_body) "" = Some b'
      ∧ BotInstance.bot_id b' = BotFactory.chosen_id (ApiService.bot_id sample_body) ""
      ∧ BotInstance.agent_url b' = default "" (ApiService.agent_url sample_body)
      ∧ BotInstance.running b' = false.
Proof.
  assert (Hok : factory_ok booted).
  { split; [eexists; vm_compute; reflexivity|]. intros k l Hk. vm_compute in Hk.
    discriminate. }
  split; [exact Hok|]. split; [reflexivity|]. split; [vm_compute; reflexivity|].
  split; [reflexivity|].
  apply (api_auto_start_failure sample_body "" BotStorage.WriteOk
           (BotInstance.AppRaises (External "invalid_auth")) (External "invalid_auth")
           booted Hok); [reflexivity | vm_compute; reflexivity | reflexivity | by left].
Defined.

(** X28. [POST /bots] with a complete body and a fresh id answers 201
    with the id the factory chose, when no start is asked for or the
    start succeeds. The connection is registered and is not running:
    with [auto_start] its thread has been spawned, and no more. *)
Theorem api_create_answers_201 (data : ApiService.CreateBody) (uuid_hex : string)
    (w : BotStorage.WriteOutcome) (o : BotInstance.StartOutcome)
    (s : BotFactory.Sys) :
  factory_ok s →
  ApiService.missing_fields data = [] →
  BotFactory.bots (BotFactory.factory s)
    !! BotFactory.chosen_id (ApiService.bot_id data) uuid_hex = None →
  (truthy (default (JBool false) (ApiService.auto_start data)) = true →
   o = BotInstance.Started) →
  ∃ s' tr b',
    ApiService.create_bot (inr data) uuid_hex w o s
    = (inr (<["bot_id" := JStr (BotFactory.chosen_id (ApiService.bot_id data) uuid_hex)]>
            (<["status" := JStr "created"]>
            (<["agent_url" := JStr (default "" (ApiService.agent_url data))]> ∅)), 201),
       s', tr)
    ∧ BotFactory.bots (BotFactory.factory s')
        !! BotFactory.chosen_id (ApiService.bot_id data) uuid_hex = Some b'
    ∧ BotInstance.running b' = false
    ∧ BotInstance.workers b'
      = (if truthy (default (JBool false) (ApiService.auto_start data))
         then [BotInstance.Spawned] else []).
Proof.
  intros Hok Hmiss Hfresh Ho.
  destruct (create_bot_spec s (default "" (ApiService.bot_token data))
              (default "" (ApiService.app_token data))
              (default "" (ApiService.signing_secret data))
              (default "" (ApiService.agent_url data)) (ApiService.channel_id data)
              (ApiService.bot_id data) uuid_hex w Hok Hfresh)
    as (s1 & tr1 & Hrun & Hbots & _).
  assert (Hreg : BotFactory.bots (BotFactory.factory s1)
                   !! BotFactory.chosen_id (ApiService.bot_id data) uuid_hex
                 = Some (new_bot (BotFactory.chosen_id (ApiService.bot_id data) uuid_hex)
                           (default "" (ApiService.bot_token data))
                           (default "" (ApiService.app_token data))
                           (default "" (ApiService.signing_secret data))
                           (default "" (ApiService.agent_url data))
                           (ApiService.channel_id data)))
    by (rewrite Hbots; apply lookup_insert_eq).
  unfold ApiService.create_bot, ApiService.guarded, try_except.
  unfold bind at 1. unfold ret at 1. rewrite Hmiss. unfold bind at 1.
  rewrite Hrun.
  destruct (truthy (default (JBool false) (ApiService.auto_start data))).
  - rewrite (Ho eq_refl). unfold bind at 1.
    rewrite (start_bot_registered _ _ _ _ Hreg).
    eexists _, _, _. split; [reflexivity|]. simpl.
    rewrite lookup_insert_eq. done.
  - eexists _, _, _. split; [reflexivity|]. simpl. rewrite Hreg. done.
Qed.

Lemma api_create_answers_201_witness :
  factory_ok booted
  ∧ ApiService.missing_fields sample_body = []
  ∧ BotFactory.bots (BotFactory.factory booted)
      !! BotFactory.chosen_id (ApiService.bot_id sample_body) "" = None
  ∧ ∃ s' tr b',
      ApiService.create_bot (inr sample_body) "" BotStorage.WriteOk BotInstance.Started
        booted
      = (inr (<["bot_id" := JStr (BotFactory.chosen_id (ApiService.bot_id sample_body) "")]>
              (<["status" := JStr "created"]>
              (<["agent_url" := JStr (default "" (ApiService.agent_url sample_body))]> ∅)),
              201),
         s', tr)
      ∧ BotFactory.bots (BotFactory.factory s')
          !! BotFactory.chosen_id (ApiService.bot_id sample_body) "" = Some b'
      ∧ BotInstance.running b' = false
      ∧ BotInstance.workers b'
        = (if truthy (default (JBool false) (ApiService.auto_start sample_body))
           then [BotInstance.Spawned] else []).
Proof.
  assert (Hok : factory_ok booted).
  { split; [eexists; vm_compute; reflexivity|]. intros k l Hk. vm_compute in Hk.
    discriminate. }
  split; [exact Hok|]. split; [reflexivity|]. split; [vm_compute; reflexivity|].
  apply (api_create_answers_201 sample_body "" BotStorage.WriteOk BotInstance.Started
           booted Hok); [reflexivity | vm_compute; reflexivity | reflexivity].
Defined.

(** X29. [GET /bots/<id>] for a registered id answers 200 with exactly
    four members: the id, the agent's address, the channel and the
    running flag. No token and no secret is in the answer, and the state
    is left as it was. *)
Theorem api_get_bot_public (s : BotFactory.Sys) (bot_id : string) (b : BotInstance.t) :
  BotFactory.bots (BotFactory.factory s) !! bot_id = Some b →
  ∃ body,
    ApiService.get_bot bot_id s = (inr (body, 200), s, [])
    ∧ dom body = ({[ "bot_id"; "agent_url"; "channel_id"; "running" ]} : gset string)
    ∧ body !! "bot_id" = Some (JStr bot_id)
    ∧ body !! "agent_url" = Some (JStr (BotInstance.agent_url b))
    ∧ body !! "channel_id" = Some (from_option JStr JNull (BotInstance.channel_id b))
    ∧ body !! "running" = Some (JBool (BotInstance.running b)).
Proof.
  intros Hb. eexists. split.
  { unfold ApiService.get_bot, ApiService.guarded, try_except, bind,
      BotFactory.list_bots, gets. simpl. rewrite lookup_fmap, Hb. reflexivity. }
  unfold BotFactory.status. split.
  { rewrite dom_union_L, dom_fmap_L, !dom_insert_L, dom_empty_L, dom_singleton_L.
    set_solver. }
  split; [|split; [|split]].
  - apply lookup_union_Some_raw. right. split; [|apply lookup_singleton_eq].
    rewrite lookup_fmap. by rewrite !lookup_insert_ne, lookup_empty.
  - apply lookup_union_Some_raw. left. rewrite lookup_fmap.
    by rewrite lookup_insert_eq.
  - apply lookup_union_Some_raw. left. rewrite lookup_fmap.
    rewrite lookup_insert_ne, lookup_insert_eq by done.
    by destruct (BotInstance.channel_id b).
  - apply lookup_union_Some_raw. left. rewrite lookup_fmap.
    by rewrite lookup_insert_ne, lookup_insert_ne, lookup_insert_eq.
Qed.

Lemma api_get_bot_public_witness :
  BotFactory.bots (BotFactory.factory registered_c1) !! "c1" = Some sample_bot
  ∧ ∃ body,
      ApiService.get_bot "c1" registered_c1 = (inr (body, 200), registered_c1, [])
      ∧ dom body = ({[ "bot_id"; "agent_url"; "channel_id"; "running" ]} : gset string)
      ∧ body !! "bot_id" = Some (JStr "c1")
      ∧ body !! "agent_url" = Some (JStr (BotInstance.agent_url sample_bot))
      ∧ body !! "channel_id"
        = Some (from_option JStr JNull (BotInstance.channel_id sample_bot))
      ∧ body !! "running" = Some (JBool (BotInstance.running sample_bot)).
Proof.
  split; [vm_compute; reflexivity|].
  apply (api_get_bot_public registered_c1 "c1" sample_bot). vm_compute; reflexivity.
Defined.

(** X30. The two bulk endpoints answer 200 whatever happens to the
    single connections: what [start_all] and [stop_all] catch never
    reaches the answer. Each registered connection has been through its
    own [start] or [stop], and the Store is untouched. *)
Theorem api_bulk_always_200 (os : string → BotInstance.StartOutcome)
    (oc : string → BotInstance.CloseOutcome) (s : BotFactory.Sys) :
  (∃ s' tr,
     ApiService.start_all_bots os s
     = (inr ({[ "status" := JStr "all bots started" ]}, 200), s', tr)
     ∧ BotFactory.machine s' = BotFactory.machine s
     ∧ ∀ bot_id, BotFactory.bots (BotFactory.factory s') !! bot_id
                 = (λ b, state_of (BotInstance.start (os bot_id) b))
                     <$> BotFactory.bots (BotFactory.factory s) !! bot_id)
  ∧ (∃ s' tr,
       ApiService.stop_all_bots oc s
       = (inr ({[ "status" := JStr "all bots stopped" ]}, 200), s', tr)
       ∧ BotFactory.machine s' = BotFactory.machine s
       ∧ ∀ bot_id, BotFactory.bots (BotFactory.factory s') !! bot_id
                   = (λ b, state_of (BotInstance.stop (oc bot_id) b))
                       <$> BotFactory.bots (BotFactory.factory s) !! bot_id).
Proof.
  split.
  - destruct (start_all_run os s) as (bs & tr & Hrun & Hbs).
    exists (BotFactory.set_bots bs s), (tr ++ []). split; [|done].
    unfold ApiService.start_all_bots, ApiService.guarded, try_except, bind.
    by rewrite Hrun.
  - destruct (stop_all_run oc s) as (bs & tr & Hrun & Hbs).
    exists (BotFactory.set_bots bs s), (tr ++ []). split; [|done].
    unfold ApiService.stop_all_bots, ApiService.guarded, try_except, bind.
    by rewrite Hrun.
Qed.
